(** * CurrencyFlow: a shallow embedding of [script.js] and [chart.js]

    The development follows the two scripts of the converter:

    - [JS] models the pieces of the ECMAScript runtime the scripts call:
      Number values (IEEE 754 binary64, through the Standard Library's
      [spec_float]), [parseFloat], [Number.prototype.toFixed] and
      [Number::toString], truthiness, plain objects as insertion-ordered
      association lists with [Object.keys], and the part of [Date] used by
      the chart ([getDate], [setDate], [toISOString]).
    - [Dom] models the [<select>] elements; the other elements are fields of
      the [document] record.
    - [Chart] embeds [chart.js]: the historical series viewer.
    - [Script] embeds [script.js]: the rate store and the converter.
    - [App] puts the listeners together: the page as a transition system
      over user actions and settling requests.

    Asynchronous code is split where the source awaits: the synchronous
    prefix of a function records the request it issues in the world, and a
    second function runs the rest of the body (and the caller's
    [then]/[catch] handlers) against the response that arrives.

    - [Navbar], [Developer] and [Clipboard] model the scroll effect of the
      navigation bar, the editable developer name and the copy button, each
      on the state it reads and writes.

    Left out: the highlight of the result field after a conversion and the
    hover effect of the feature cards.

    The second half of the file states and proves the properties of the
    specification, claim by claim, and then further properties of the
    scripts. *)

From Stdlib Require Import ZArith List String Ascii Bool Lia.
From Stdlib Require Import Floats.SpecFloat.
Import ListNotations.

Local Open Scope string_scope.
Local Open Scope Z_scope.

(* ================================================================== *)
(** * The ECMAScript runtime *)
(* ================================================================== *)

Module JS.

(** ** Number values: IEEE 754 binary64 *)

Definition number : Type := spec_float.

Definition prec : Z := 53.
Definition emax : Z := 1024.

Definition pzero : number := S754_zero false.

(** The Number value of a mathematical integer (round to nearest, ties to
    even). *)
Definition of_Z (z : Z) : number := binary_normalize prec emax z 0 false.

Definition one : number := Eval vm_compute in of_Z 1.

(** [x * y], [x <= y], [x < y], [x == y] on Numbers. *)
Definition mul (x y : number) : number := SFmul prec emax x y.
Definition leb (x y : number) : bool := SFleb x y.
Definition ltb (x y : number) : bool := SFltb x y.
Definition eqb (x y : number) : bool := SFeqb x y.

(** The global [isNaN] and [isFinite] applied to a Number. *)
Definition isNaN (x : number) : bool :=
  match x with S754_nan => true | _ => false end.

Definition isFinite (x : number) : bool :=
  match x with S754_nan | S754_infinity _ => false | _ => true end.

(** [ToBoolean] of a Number: [NaN], [+0] and [-0] are falsy. *)
Definition truthy (x : number) : bool :=
  match x with S754_nan | S754_zero _ => false | _ => true end.

(** ** Decimal text *)

Definition digit_char (d : Z) : ascii :=
  ascii_of_nat (48 + Z.to_nat (d mod 10)).

Definition digit_of_char (c : ascii) : option Z :=
  let n := Z.of_nat (nat_of_ascii c) in
  if (48 <=? n) && (n <=? 57) then Some (n - 48) else None.

Definition is_digit (c : ascii) : bool :=
  match digit_of_char c with Some _ => true | None => false end.

Fixpoint digits_fuel (fuel : nat) (n : Z) (acc : string) : string :=
  match fuel with
  | O => acc
  | S k =>
      let acc' := String (digit_char n) acc in
      if n / 10 =? 0 then acc' else digits_fuel k (n / 10) acc'
  end.

(** The decimal representation of a non-negative integer, no leading
    zeros ("0" for zero). *)
Definition decimal (n : Z) : string :=
  digits_fuel (S (Z.to_nat (Z.log2 n))) n "".

(** The [k] low decimal digits of [n], zero padded on the left. *)
Fixpoint fixed_digits (k : nat) (n : Z) (acc : string) : string :=
  match k with
  | O => acc
  | S k' => fixed_digits k' (n / 10) (String (digit_char n) acc)
  end.

Fixpoint zeros (k : nat) : string :=
  match k with O => "" | S k' => String "0"%char (zeros k') end.

(** ** From decimal text to a Number

    [dec2number neg m e] is the Number value closest to [m * 10^e] (ties to
    even), negated when [neg]: the rounding ECMA-262 prescribes for the
    mathematical value of a numeric string. *)
Definition dec2number (neg : bool) (m : Z) (e : Z) : number :=
  match m with
  | Z0 => S754_zero neg
  | Zpos p =>
      match e with
      | Zneg _ =>
          SFdiv prec emax (S754_finite neg p 0)
                (S754_finite false (Z.to_pos (10 ^ (- e))) 0)
      | _ => binary_normalize prec emax
               (if neg then - (m * 10 ^ e) else m * 10 ^ e) 0 false
      end
  | Zneg _ => S754_nan
  end.

(** White space and line terminators that [parseFloat] skips. A text is
    the sequence of the bytes of its UTF-8 encoding. The code points of one
    byte: TAB, LF, VT, FF, CR, SP. *)
Definition is_space (c : ascii) : bool :=
  let n := nat_of_ascii c in
  (Nat.eqb n 9 || Nat.eqb n 10 || Nat.eqb n 11 || Nat.eqb n 12
   || Nat.eqb n 13 || Nat.eqb n 32)%bool.

(** Of two bytes: U+00A0 (C2 A0). *)
Definition is_space2 (a b : ascii) : bool :=
  (Nat.eqb (nat_of_ascii a) 194 && Nat.eqb (nat_of_ascii b) 160)%bool.

(** Of three bytes: U+1680 (E1 9A 80); U+2000 to U+200A, U+2028, U+2029
    and U+202F (E2 80 80 to 8A, A8, A9, AF); U+205F (E2 81 9F); U+3000
    (E3 80 80); U+FEFF (EF BB BF). *)
Definition is_space3 (a b c : ascii) : bool :=
  let x := nat_of_ascii a in
  let y := nat_of_ascii b in
  let z := nat_of_ascii c in
  (Nat.eqb x 225 && (Nat.eqb y 154 && Nat.eqb z 128)
   || Nat.eqb x 226
      && (Nat.eqb y 128
          && (Nat.leb 128 z && Nat.leb z 138 || Nat.eqb z 168
              || Nat.eqb z 169 || Nat.eqb z 175)
          || Nat.eqb y 129 && Nat.eqb z 159)
   || Nat.eqb x 227 && (Nat.eqb y 128 && Nat.eqb z 128)
   || Nat.eqb x 239 && (Nat.eqb y 187 && Nat.eqb z 191))%bool.

Fixpoint trim_start (s : string) : string :=
  match s with
  | String a r =>
      if is_space a then trim_start r
      else
        match r with
        | String b r2 =>
            if is_space2 a b then trim_start r2
            else
              match r2 with
              | String c r3 => if is_space3 a b c then trim_start r3 else s
              | EmptyString => s
              end
        | EmptyString => s
        end
  | EmptyString => s
  end.

(** Reads the longest run of decimal digits: its value appended to [acc],
    the number of digits read, and the rest of the text. *)
Fixpoint read_digits (s : string) (acc : Z) (cnt : nat) : Z * nat * string :=
  match s with
  | String c r =>
      match digit_of_char c with
      | Some d => read_digits r (acc * 10 + d) (S cnt)
      | None => (acc, cnt, s)
      end
  | EmptyString => (acc, cnt, s)
  end.

(** The optional [ExponentPart]: [e] or [E], an optional sign, at least
    one digit. Anything else is not part of the literal: exponent 0. *)
Definition read_exponent (s : string) : Z :=
  match s with
  | String c r =>
      if (Ascii.eqb c "e" || Ascii.eqb c "E")%bool then
        let '(neg, r') :=
          match r with
          | String "+"%char r' => (false, r')
          | String "-"%char r' => (true, r')
          | _ => (false, r)
          end in
        let '(v, cnt, _) := read_digits r' 0 O in
        match cnt with
        | O => 0
        | _ => if neg then - v else v
        end
      else 0
  | EmptyString => 0
  end.

(** The longest prefix that is a [StrDecimalLiteral], as a Number; [NaN]
    when there is none. *)
Definition parse_literal (s : string) : number :=
  let '(neg, s1) :=
    match s with
    | String "+"%char r => (false, r)
    | String "-"%char r => (true, r)
    | _ => (false, s)
    end in
  if String.prefix "Infinity" s1 then S754_infinity neg
  else
    let '(ip, icnt, s2) := read_digits s1 0 O in
    let '(m, fcnt, s3) :=
      match s2 with
      | String "."%char r =>
          let '(m, fcnt, s3) := read_digits r ip O in
          (* "." with no digit on either side is not a literal *)
          match icnt, fcnt with
          | O, O => (ip, O, s2)
          | _, _ => (m, fcnt, s3)
          end
      | _ => (ip, O, s2)
      end in
    match icnt, fcnt with
    | O, O => S754_nan
    | _, _ => dec2number neg m (read_exponent s3 - Z.of_nat fcnt)
    end.

(** The global [parseFloat] applied to a string. *)
Definition parseFloat (s : string) : number := parse_literal (trim_start s).

(** ** From a Number to text *)

(** A positive finite Number [m * 2^e] as the fraction [num / den]. *)
Definition fraction (m : positive) (e : Z) : Z * Z :=
  match e with
  | Zneg _ => (Zpos m, 2 ^ (- e))
  | _ => (Zpos m * 2 ^ e, 1)
  end.

(** The least [n] from [lo] on with [num / den < 10^n]. *)
Fixpoint decimal_exponent (fuel : nat) (num den : Z) (lo : Z) : Z :=
  match fuel with
  | O => lo
  | S k =>
      let below :=
        match lo with
        | Zneg _ => num * 10 ^ (- lo) <? den
        | _ => num <? den * 10 ^ lo
        end in
      if below then lo else decimal_exponent k num den (lo + 1)
  end.

(** The candidates with [k] significant digits next to [num / den], whose
    decimal exponent is [n0]: the digit string rounded down and rounded up,
    the nearer one first (the even one on a tie), each with the exponent
    [n] of ECMA-262's [Number::toString]. *)
Definition digit_candidates (num den n0 : Z) (k : Z) : list (Z * Z) :=
  let sc := n0 - k in
  let '(a, b) :=
    match sc with
    | Zneg _ => (num * 10 ^ (- sc), den)
    | _ => (num, den * 10 ^ sc)
    end in
  let lo := a / b in
  let r := a mod b in
  let up := if lo + 1 =? 10 ^ k then (10 ^ (k - 1), n0 + 1) else (lo + 1, n0) in
  let down := (lo, n0) in
  if r =? 0 then [down]
  else
    match 2 * r ?= b with
    | Lt => [down; up]
    | Gt => [up; down]
    | Eq => if Z.even lo then [down; up] else [up; down]
    end.

Definition number_eqb (x y : number) : bool :=
  match x, y with
  | S754_finite sx mx ex, S754_finite sy my ey =>
      Bool.eqb sx sy && Pos.eqb mx my && Z.eqb ex ey
  | _, _ => false
  end.

(** The shortest digit string that reads back as [x]: [(s, n)] with
    [x = Number (s * 10^(n - k))], [k] the number of digits of [s], as small
    as possible. Seventeen digits always suffice for binary64. *)
Fixpoint shortest_digits (fuel : nat) (x : number) (num den n0 : Z) (k : Z)
  : Z * Z :=
  match fuel with
  | O => (0, 0)
  | S f =>
      match List.find (fun c => number_eqb (dec2number false (fst c) (snd c - k)) x)
                      (digit_candidates num den n0 k) with
      | Some c => c
      | None => shortest_digits f x num den n0 (k + 1)
      end
  end.

Definition exponent_suffix (n : Z) : string :=
  (if n - 1 <? 0 then "e-" else "e+") ++ decimal (Z.abs (n - 1)).

(** [Number::toString(x, 10)]. *)
Definition toString (x : number) : string :=
  match x with
  | S754_nan => "NaN"
  | S754_zero _ => "0"
  | S754_infinity s => if s then "-Infinity" else "Infinity"
  | S754_finite sx m e =>
      let '(num, den) := fraction m e in
      let n0 := decimal_exponent 700 num den (-330) in
      let '(s, n) := shortest_digits 17 (S754_finite false m e) num den n0 1 in
      let ds := decimal s in
      let k := Z.of_nat (String.length ds) in
      let body :=
        if (k <=? n) && (n <=? 21) then ds ++ zeros (Z.to_nat (n - k))
        else if (0 <? n) && (n <=? 21) then
          substring 0 (Z.to_nat n) ds ++ "." ++
          substring (Z.to_nat n) (Z.to_nat (k - n)) ds
        else if (-6 <? n) && (n <=? 0) then
          "0." ++ zeros (Z.to_nat (- n)) ++ ds
        else if k =? 1 then ds ++ exponent_suffix n
        else
          substring 0 1 ds ++ "." ++ substring 1 (Z.to_nat (k - 1)) ds
          ++ exponent_suffix n in
      (if sx then "-" else "") ++ body
  end.

(** The integer [n] for which [n / 10^f - num / den] is as close to zero as
    possible, the larger one when there are two. *)
Definition round_half_up (num den : Z) (f : nat) : Z :=
  (2 * num * 10 ^ Z.of_nat f + den) / (2 * den).

(** The text of [n / 10^f] with exactly [f] fraction digits. *)
Definition fixed_text (n : Z) (f : nat) : string :=
  match f with
  | O => decimal n
  | _ => decimal (n / 10 ^ Z.of_nat f) ++ "." ++
         fixed_digits f (n mod 10 ^ Z.of_nat f) ""
  end.

(** [|x| < z] on the mathematical value of a finite Number. *)
Definition magnitude_below (z : Z) (x : number) : bool :=
  match x with
  | S754_zero _ => 0 <? z
  | S754_finite _ m e => let '(num, den) := fraction m e in num <? z * den
  | _ => false
  end.

(** [Number.prototype.toFixed(f)] for [0 <= f <= 100]: the digits of the
    value rounded to [f] decimals, and [Number::toString] for what is not
    finite or is [10^21] or more. *)
Definition toFixed (f : nat) (x : number) : string :=
  match x with
  | S754_nan | S754_infinity _ => toString x
  | S754_zero _ => fixed_text 0 f
  | S754_finite sx m e =>
      let '(num, den) := fraction m e in
      (if sx then "-" else "") ++
      (if magnitude_below (10 ^ 21) x then fixed_text (round_half_up num den f) f
       else toString (S754_finite false m e))
  end.

(** [s.split(sep)[0]]: the text before the first [sep]. *)
Fixpoint before (sep : ascii) (s : string) : string :=
  match s with
  | EmptyString => EmptyString
  | String c r => if Ascii.eqb c sep then EmptyString else String c (before sep r)
  end.

(** A text with exactly [k] decimals: an optional minus sign, one digit
    or more, a point, and [k] digits. *)
Fixpoint all_digits (s : string) : bool :=
  match s with
  | EmptyString => true
  | String c r => is_digit c && all_digits r
  end.

Fixpoint after (sep : ascii) (s : string) : option string :=
  match s with
  | EmptyString => None
  | String c r => if Ascii.eqb c sep then Some r else after sep r
  end.


(** ** Plain objects

    An object with string keys is an association list in insertion order,
    each key at most once. [Object.keys] lists the keys that are array
    indices first, in ascending numeric order, then the other keys in
    insertion order. *)

Definition obj (A : Type) : Type := list (string * A).

Fixpoint get {A} (k : string) (o : obj A) : option A :=
  match o with
  | [] => None
  | (k', v) :: r => if String.eqb k k' then Some v else get k r
  end.

(** [o[k] = v]: overwrite in place, or append a new property. *)
Fixpoint set {A} (k : string) (v : A) (o : obj A) : obj A :=
  match o with
  | [] => [(k, v)]
  | (k', v') :: r =>
      if String.eqb k k' then (k', v) :: r else (k', v') :: set k v r
  end.

(** The canonical numeric strings of the integers below [2^32 - 1]. *)
Definition array_index (s : string) : option Z :=
  let '(v, cnt, rest) := read_digits s 0 O in
  match cnt, rest with
  | S _, EmptyString =>
      if String.eqb (decimal v) s && (v <? 4294967295) then Some v else None
  | _, _ => None
  end.

Definition is_array_index (s : string) : bool :=
  match array_index s with Some _ => true | None => false end.

Fixpoint insert_by {A} (le : A -> A -> bool) (x : A) (l : list A) : list A :=
  match l with
  | [] => [x]
  | y :: r => if le x y then x :: l else y :: insert_by le x r
  end.

(** A stable sort, as [Array.prototype.sort] is. *)
Definition sort_by {A} (le : A -> A -> bool) (l : list A) : list A :=
  fold_right (insert_by le) [] l.

Definition index_le (a b : string) : bool :=
  match array_index a, array_index b with
  | Some x, Some y => x <=? y
  | _, _ => true
  end.

Definition keys {A} (o : obj A) : list string :=
  let ks := map fst o in
  sort_by index_le (filter is_array_index ks)
  ++ filter (fun k => negb (is_array_index k)) ks.

(** [Array.prototype.sort()] with the default comparator on strings:
    ascending by code units. *)
Definition sort_strings (l : list string) : list string :=
  sort_by String.leb l.

(** [Array.prototype.includes] on strings. *)
Definition includes (l : list string) (x : string) : bool :=
  existsb (String.eqb x) l.

(** ** Dates

    A time value is a number of milliseconds since the epoch; a [Date]
    holds one, or is invalid. Local time is UTC plus the offset of the
    host's time zone: [utc_offset t] at the UTC instant [t], and
    [local_offset t] for the local time [t] (ECMA-262's [LocalTZA] with
    [isUTC] true, respectively false). *)

Record timezone : Type := {
  utc_offset : Z -> Z;
  local_offset : Z -> Z
}.

Definition msPerDay : Z := 86400000.

Definition Day (t : Z) : Z := t / msPerDay.
Definition TimeWithinDay (t : Z) : Z := t mod msPerDay.

Definition DayFromYear (y : Z) : Z :=
  365 * (y - 1970) + (y - 1969) / 4 - (y - 1901) / 100 + (y - 1601) / 400.

(** The year [y] with [DayFromYear y <= Day t < DayFromYear (y + 1)]. *)
Definition YearFromTime (t : Z) : Z :=
  let d := Day t in
  let y := 1970 + (400 * d) / 146097 in
  if DayFromYear (y + 1) <=? d then y + 1
  else if DayFromYear y <=? d then y
  else y - 1.

Definition InLeapYear (t : Z) : Z :=
  DayFromYear (YearFromTime t + 1) - DayFromYear (YearFromTime t) - 365.

Definition DayWithinYear (t : Z) : Z := Day t - DayFromYear (YearFromTime t).

(** January is month 0. *)
Definition MonthFromTime (t : Z) : Z :=
  let d := DayWithinYear t in
  let l := InLeapYear t in
  if d <? 31 then 0
  else if d <? 59 + l then 1
  else if d <? 90 + l then 2
  else if d <? 120 + l then 3
  else if d <? 151 + l then 4
  else if d <? 181 + l then 5
  else if d <? 212 + l then 6
  else if d <? 243 + l then 7
  else if d <? 273 + l then 8
  else if d <? 304 + l then 9
  else if d <? 334 + l then 10
  else 11.

(** The day number within the year on which month [m] starts. *)
Definition month_start (m l : Z) : Z :=
  match m with
  | 0 => 0
  | 1 => 31
  | 2 => 59 + l
  | 3 => 90 + l
  | 4 => 120 + l
  | 5 => 151 + l
  | 6 => 181 + l
  | 7 => 212 + l
  | 8 => 243 + l
  | 9 => 273 + l
  | 10 => 304 + l
  | _ => 334 + l
  end.

Definition DateFromTime (t : Z) : Z :=
  DayWithinYear t - month_start (MonthFromTime t) (InLeapYear t) + 1.

(** [MakeDay(year, month, date)] for a month in [0..11]. *)
Definition MakeDay (year month date : Z) : Z :=
  let l := DayFromYear (year + 1) - DayFromYear year - 365 in
  DayFromYear year + month_start month l + date - 1.

Definition MakeDate (day time : Z) : Z := day * msPerDay + time.

(** [TimeClip]: time values beyond 8.64e15 ms are not dates. *)
Definition TimeClip (t : Z) : option Z :=
  if Z.abs t <=? 8640000000000000 then Some t else None.

Definition LocalTime (tz : timezone) (t : Z) : Z := t + utc_offset tz t.
Definition UTC (tz : timezone) (t : Z) : Z := t - local_offset tz t.

Definition date : Type := option Z.

(** [d.getDate()]: the day of the month in local time. *)
Definition getDate (tz : timezone) (d : date) : option Z :=
  match d with
  | Some t => Some (DateFromTime (LocalTime tz t))
  | None => None
  end.

(** [d.setDate(dt)] for an integral [dt]. *)
Definition setDate (tz : timezone) (d : date) (dt : Z) : date :=
  match d with
  | Some t0 =>
      let t := LocalTime tz t0 in
      let newDate :=
        MakeDate (MakeDay (YearFromTime t) (MonthFromTime t) dt)
                 (TimeWithinDay t) in
      TimeClip (UTC tz newDate)
  | None => None
  end.

Definition two_digits (n : Z) : string := fixed_digits 2 n "".

(** The date part of [toISOString]: four digit years from 0 to 9999, a
    sign and six digits otherwise. *)
Definition iso_date (t : Z) : string :=
  let y := YearFromTime t in
  (if (0 <=? y) && (y <=? 9999) then fixed_digits 4 y ""
   else (if y <? 0 then "-" else "+") ++ fixed_digits 6 (Z.abs y) "")
  ++ "-" ++ two_digits (MonthFromTime t + 1)
  ++ "-" ++ two_digits (DateFromTime t).

Definition iso_time (t : Z) : string :=
  let ms := TimeWithinDay t in
  two_digits (ms / 3600000) ++ ":" ++ two_digits (ms / 60000 mod 60)
  ++ ":" ++ two_digits (ms / 1000 mod 60)
  ++ "." ++ fixed_digits 3 (ms mod 1000) "" ++ "Z".

(** [d.toISOString()]; a [RangeError] on an invalid date. *)
Definition toISOString (d : date) : option string :=
  match d with
  | Some t => Some (iso_date t ++ "T" ++ iso_time t)
  | None => None
  end.

End JS.

(* ================================================================== *)
(** * The page *)
(* ================================================================== *)

Module Dom.

(** A [<select>] element: its options (by value) and the selected one.
    Reading [value] gives the selected option's value, or the empty string
    when none is selected. Assigning [value] selects the first option with
    that value and deselects everything when there is none. *)
Record select : Type := {
  options : list string;
  selectedIndex : option nat
}.

Definition empty : select := {| options := []; selectedIndex := None |}.

Definition value (s : select) : string :=
  match selectedIndex s with
  | Some i => nth i (options s) ""
  | None => ""
  end.

Fixpoint index_of (v : string) (l : list string) : option nat :=
  match l with
  | [] => None
  | x :: r =>
      if String.eqb v x then Some O
      else match index_of v r with Some i => Some (S i) | None => None end
  end.

Definition set_value (v : string) (s : select) : select :=
  {| options := options s; selectedIndex := index_of v (options s) |}.

(** [appendChild] of an [<option>]: a drop-down with nothing selected
    selects its first option. *)
Definition appendOption (v : string) (s : select) : select :=
  {| options := options s ++ [v];
     selectedIndex :=
       match selectedIndex s with Some i => Some i | None => Some O end |}.

End Dom.

(** A row of the popular rates table: the four cells of the [<tr>]. *)
Record row : Type := {
  row_name : string;
  row_code : string;
  row_rate : string;
  row_amount : string
}.

(** The look-back windows offered by the [timeRangeSelect] that
    [createChartContainer] builds. *)
Inductive lookback : Type := Days7 | Days30 | Days90 | Days180 | Days365.

(** The number a window's option value denotes (the source subtracts the
    option's text from a day of the month, which converts it). *)
Definition lookback_days (l : lookback) : Z :=
  match l with
  | Days7 => 7 | Days30 => 30 | Days90 => 90 | Days180 => 180 | Days365 => 365
  end.

(** The chart container with the elements it holds: the container's
    [style.display], the time range select, the opacity of the canvas and
    the error banner, if one is shown. *)
Record panel : Type := {
  visible : bool;
  timeRangeSelect : lookback;
  canvasDimmed : bool;
  errorBanner : option string
}.

(** What the viewer hands to Chart.js. A point the response has no rate
    for is [undefined]: [None]. *)
Record chart : Type := {
  chart_labels : list string;
  chart_data : list (option JS.number);
  chart_label : string;
  chart_title : string
}.

(** What runs when a rates request settles: the rest of [initApp], or the
    [then]/[catch] of [convertCurrency] with the values it captured. *)
Inductive continuation : Type :=
| InitApp
| Convert (fromCurrency toCurrency : string) (amount : JS.number).

Record request : Type := {
  req_url : string;
  req_base : string;
  req_then : continuation
}.

Record hrequest : Type := {
  hreq_url : string;
  hreq_from : string;
  hreq_to : string
}.

(** The parsed body of a rates response: [null], or a value whose [rates]
    and [date] properties are read ([None] for a property that is missing,
    [undefined] or [null]). Rates are Numbers; property names are currency
    codes, so no name reaches [Object.prototype]. *)
Inductive rates_body : Type :=
| RatesNull
| RatesData (rates : option (JS.obj JS.number)) (date : option string).

Inductive history_body : Type :=
| HistoryNull
| HistoryData (rates : option (JS.obj (JS.obj JS.number))).

(** How a [fetch] followed by [response.json()] can end. *)
Inductive response (body : Type) : Type :=
| NetworkFailure (message : string)
| HttpError (status : Z)
| NotJson (message : string)
| Json (data : body).

Arguments NetworkFailure {body} message.
Arguments HttpError {body} status.
Arguments NotJson {body} message.
Arguments Json {body} data.

(** ** The world: script globals, the document, and the host *)

(** The [let] variables of the two scripts. [exchangeRates] is [None] when
    it holds [undefined]. [lastUpdatedTime] is [None] for [null] and
    otherwise the [Date] built from the provider's date text (itself [None]
    for a body without [date]). *)
Record globals : Type := {
  exchangeRates : option (JS.obj JS.number);
  currencies : list string;
  lastUpdatedTime : option (option string);
  rateChart : option chart
}.

(** The elements the scripts look up: the [value] of the input fields, the
    [textContent] of the spans, the rows of the table, whether the loading
    overlay is displayed, whether the elements the chart attaches itself to
    exist, and the chart container and button once created. The
    [lastUpdatedDiv] holds the date whose locale text it shows. *)
Record document : Type := {
  fromCurrencySelect : Dom.select;
  toCurrencySelect : Dom.select;
  amountInput : string;
  resultInput : string;
  fromCurrencyCode : string;
  toCurrencyCode : string;
  exchangeRateSpan : string;
  lastUpdatedDiv : option (option string);
  basePopular : string;
  popularRatesTable : list row;
  loadingOverlay : bool;
  converterCard : bool;
  exchangeRateInfo : bool;
  chartContainer : option panel;
  chartButton : option string
}.

(** The host: the clock [new Date()] reads and the local time zone;
    whether Chart.js and [window.currencyChart] are defined; whether the
    listeners of [setupEventListeners] are installed; and what the scripts
    have sent out so far: dialogs, console messages, requests for current
    rates and requests for historical rates, oldest first. *)
Record host : Type := {
  clock : Z;
  zone : JS.timezone;
  chartLibrary : bool;
  currencyChart : bool;
  listeners : bool;
  alerts : list string;
  console : list string;
  requests : list request;
  historyRequests : list hrequest
}.

Record world : Type := {
  vars : globals;
  dom : document;
  env : host
}.

Definition upd_vars (w : world) (g : globals) : world :=
  {| vars := g; dom := dom w; env := env w |}.
Definition upd_dom (w : world) (d : document) : world :=
  {| vars := vars w; dom := d; env := env w |}.
Definition upd_env (w : world) (h : host) : world :=
  {| vars := vars w; dom := dom w; env := h |}.

Definition set_exchangeRates (v : option (JS.obj JS.number)) (w : world) : world :=
  let x := vars w in
  upd_vars w
    {| exchangeRates := v; currencies := currencies x;
       lastUpdatedTime := lastUpdatedTime x; rateChart := rateChart x |}.

Definition set_currencies (v : list string) (w : world) : world :=
  let x := vars w in
  upd_vars w
    {| exchangeRates := exchangeRates x; currencies := v;
       lastUpdatedTime := lastUpdatedTime x; rateChart := rateChart x |}.

Definition set_lastUpdatedTime (v : option (option string)) (w : world) : world :=
  let x := vars w in
  upd_vars w
    {| exchangeRates := exchangeRates x; currencies := currencies x;
       lastUpdatedTime := v; rateChart := rateChart x |}.

Definition set_rateChart (v : option chart) (w : world) : world :=
  let x := vars w in
  upd_vars w
    {| exchangeRates := exchangeRates x; currencies := currencies x;
       lastUpdatedTime := lastUpdatedTime x; rateChart := v |}.

Definition set_fromCurrencySelect (v : Dom.select) (w : world) : world :=
  let x := dom w in
  upd_dom w
    {| fromCurrencySelect := v; toCurrencySelect := toCurrencySelect x;
       amountInput := amountInput x; resultInput := resultInput x;
       fromCurrencyCode := fromCurrencyCode x;
       toCurrencyCode := toCurrencyCode x;
       exchangeRateSpan := exchangeRateSpan x;
       lastUpdatedDiv := lastUpdatedDiv x; basePopular := basePopular x;
       popularRatesTable := popularRatesTable x;
       loadingOverlay := loadingOverlay x; converterCard := converterCard x;
       exchangeRateInfo := exchangeRateInfo x;
       chartContainer := chartContainer x; chartButton := chartButton x |}.

Definition set_toCurrencySelect (v : Dom.select) (w : world) : world :=
  let x := dom w in
  upd_dom w
    {| fromCurrencySelect := fromCurrencySelect x; toCurrencySelect := v;
       amountInput := amountInput x; resultInput := resultInput x;
       fromCurrencyCode := fromCurrencyCode x;
       toCurrencyCode := toCurrencyCode x;
       exchangeRateSpan := exchangeRateSpan x;
       lastUpdatedDiv := lastUpdatedDiv x; basePopular := basePopular x;
       popularRatesTable := popularRatesTable x;
       loadingOverlay := loadingOverlay x; converterCard := converterCard x;
       exchangeRateInfo := exchangeRateInfo x;
       chartContainer := chartContainer x; chartButton := chartButton x |}.

Definition set_amountInput (v : string) (w : world) : world :=
  let x := dom w in
  upd_dom w
    {| fromCurrencySelect := fromCurrencySelect x;
       toCurrencySelect := toCurrencySelect x; amountInput := v;
       resultInput := resultInput x; fromCurrencyCode := fromCurrencyCode x;
       toCurrencyCode := toCurrencyCode x;
       exchangeRateSpan := exchangeRateSpan x;
       lastUpdatedDiv := lastUpdatedDiv x; basePopular := basePopular x;
       popularRatesTable := popularRatesTable x;
       loadingOverlay := loadingOverlay x; converterCard := converterCard x;
       exchangeRateInfo := exchangeRateInfo x;
       chartContainer := chartContainer x; chartButton := chartButton x |}.

Definition set_resultInput (v : string) (w : world) : world :=
  let x := dom w in
  upd_dom w
    {| fromCurrencySelect := fromCurrencySelect x;
       toCurrencySelect := toCurrencySelect x; amountInput := amountInput x;
       resultInput := v; fromCurrencyCode := fromCurrencyCode x;
       toCurrencyCode := toCurrencyCode x;
       exchangeRateSpan := exchangeRateSpan x;
       lastUpdatedDiv := lastUpdatedDiv x; basePopular := basePopular x;
       popularRatesTable := popularRatesTable x;
       loadingOverlay := loadingOverlay x; converterCard := converterCard x;
       exchangeRateInfo := exchangeRateInfo x;
       chartContainer := chartContainer x; chartButton := chartButton x |}.

Definition set_fromCurrencyCode (v : string) (w : world) : world :=
  let x := dom w in
  upd_dom w
    {| fromCurrencySelect := fromCurrencySelect x;
       toCurrencySelect := toCurrencySelect x; amountInput := amountInput x;
       resultInput := resultInput x; fromCurrencyCode := v;
       toCurrencyCode := toCurrencyCode x;
       exchangeRateSpan := exchangeRateSpan x;
       lastUpdatedDiv := lastUpdatedDiv x; basePopular := basePopular x;
       popularRatesTable := popularRatesTable x;
       loadingOverlay := loadingOverlay x; converterCard := converterCard x;
       exchangeRateInfo := exchangeRateInfo x;
       chartContainer := chartContainer x; chartButton := chartButton x |}.

Definition set_toCurrencyCode (v : string) (w : world) : world :=
  let x := dom w in
  upd_dom w
    {| fromCurrencySelect := fromCurrencySelect x;
       toCurrencySelect := toCurrencySelect x; amountInput := amountInput x;
       resultInput := resultInput x; fromCurrencyCode := fromCurrencyCode x;
       toCurrencyCode := v; exchangeRateSpan := exchangeRateSpan x;
       lastUpdatedDiv := lastUpdatedDiv x; basePopular := basePopular x;
       popularRatesTable := popularRatesTable x;
       loadingOverlay := loadingOverlay x; converterCard := converterCard x;
       exchangeRateInfo := exchangeRateInfo x;
       chartContainer := chartContainer x; chartButton := chartButton x |}.

Definition set_exchangeRateSpan (v : string) (w : world) : world :=
  let x := dom w in
  upd_dom w
    {| fromCurrencySelect := fromCurrencySelect x;
       toCurrencySelect := toCurrencySelect x; amountInput := amountInput x;
       resultInput := resultInput x; fromCurrencyCode := fromCurrencyCode x;
       toCurrencyCode := toCurrencyCode x; exchangeRateSpan := v;
       lastUpdatedDiv := lastUpdatedDiv x; basePopular := basePopular x;
       popularRatesTable := popularRatesTable x;
       loadingOverlay := loadingOverlay x; converterCard := converterCard x;
       exchangeRateInfo := exchangeRateInfo x;
       chartContainer := chartContainer x; chartButton := chartButton x |}.

Definition set_lastUpdatedDiv (v : option (option string)) (w : world) : world :=
  let x := dom w in
  upd_dom w
    {| fromCurrencySelect := fromCurrencySelect x;
       toCurrencySelect := toCurrencySelect x; amountInput := amountInput x;
       resultInput := resultInput x; fromCurrencyCode := fromCurrencyCode x;
       toCurrencyCode := toCurrencyCode x;
       exchangeRateSpan := exchangeRateSpan x; lastUpdatedDiv := v;
       basePopular := basePopular x;
       popularRatesTable := popularRatesTable x;
       loadingOverlay := loadingOverlay x; converterCard := converterCard x;
       exchangeRateInfo := exchangeRateInfo x;
       chartContainer := chartContainer x; chartButton := chartButton x |}.

Definition set_basePopular (v : string) (w : world) : world :=
  let x := dom w in
  upd_dom w
    {| fromCurrencySelect := fromCurrencySelect x;
       toCurrencySelect := toCurrencySelect x; amountInput := amountInput x;
       resultInput := resultInput x; fromCurrencyCode := fromCurrencyCode x;
       toCurrencyCode := toCurrencyCode x;
       exchangeRateSpan := exchangeRateSpan x;
       lastUpdatedDiv := lastUpdatedDiv x; basePopular := v;
       popularRatesTable := popularRatesTable x;
       loadingOverlay := loadingOverlay x; converterCard := converterCard x;
       exchangeRateInfo := exchangeRateInfo x;
       chartContainer := chartContainer x; chartButton := chartButton x |}.

Definition set_popularRatesTable (v : list row) (w : world) : world :=
  let x := dom w in
  upd_dom w
    {| fromCurrencySelect := fromCurrencySelect x;
       toCurrencySelect := toCurrencySelect x; amountInput := amountInput x;
       resultInput := resultInput x; fromCurrencyCode := fromCurrencyCode x;
       toCurrencyCode := toCurrencyCode x;
       exchangeRateSpan := exchangeRateSpan x;
       lastUpdatedDiv := lastUpdatedDiv x; basePopular := basePopular x;
       popularRatesTable := v; loadingOverlay := loadingOverlay x;
       converterCard := converterCard x;
       exchangeRateInfo := exchangeRateInfo x;
       chartContainer := chartContainer x; chartButton := chartButton x |}.

Definition set_loadingOverlay (v : bool) (w : world) : world :=
  let x := dom w in
  upd_dom w
    {| fromCurrencySelect := fromCurrencySelect x;
       toCurrencySelect := toCurrencySelect x; amountInput := amountInput x;
       resultInput := resultInput x; fromCurrencyCode := fromCurrencyCode x;
       toCurrencyCode := toCurrencyCode x;
       exchangeRateSpan := exchangeRateSpan x;
       lastUpdatedDiv := lastUpdatedDiv x; basePopular := basePopular x;
       popularRatesTable := popularRatesTable x; loadingOverlay := v;
       converterCard := converterCard x;
       exchangeRateInfo := exchangeRateInfo x;
       chartContainer := chartContainer x; chartButton := chartButton x |}.

Definition set_converterCard (v : bool) (w : world) : world :=
  let x := dom w in
  upd_dom w
    {| fromCurrencySelect := fromCurrencySelect x;
       toCurrencySelect := toCurrencySelect x; amountInput := amountInput x;
       resultInput := resultInput x; fromCurrencyCode := fromCurrencyCode x;
       toCurrencyCode := toCurrencyCode x;
       exchangeRateSpan := exchangeRateSpan x;
       lastUpdatedDiv := lastUpdatedDiv x; basePopular := basePopular x;
       popularRatesTable := popularRatesTable x;
       loadingOverlay := loadingOverlay x; converterCard := v;
       exchangeRateInfo := exchangeRateInfo x;
       chartContainer := chartContainer x; chartButton := chartButton x |}.

Definition set_exchangeRateInfo (v : bool) (w : world) : world :=
  let x := dom w in
  upd_dom w
    {| fromCurrencySelect := fromCurrencySelect x;
       toCurrencySelect := toCurrencySelect x; amountInput := amountInput x;
       resultInput := resultInput x; fromCurrencyCode := fromCurrencyCode x;
       toCurrencyCode := toCurrencyCode x;
       exchangeRateSpan := exchangeRateSpan x;
       lastUpdatedDiv := lastUpdatedDiv x; basePopular := basePopular x;
       popularRatesTable := popularRatesTable x;
       loadingOverlay := loadingOverlay x; converterCard := converterCard x;
       exchangeRateInfo := v; chartContainer := chartContainer x;
       chartButton := chartButton x |}.

Definition set_chartContainer (v : option panel) (w : world) : world :=
  let x := dom w in
  upd_dom w
    {| fromCurrencySelect := fromCurrencySelect x;
       toCurrencySelect := toCurrencySelect x; amountInput := amountInput x;
       resultInput := resultInput x; fromCurrencyCode := fromCurrencyCode x;
       toCurrencyCode := toCurrencyCode x;
       exchangeRateSpan := exchangeRateSpan x;
       lastUpdatedDiv := lastUpdatedDiv x; basePopular := basePopular x;
       popularRatesTable := popularRatesTable x;
       loadingOverlay := loadingOverlay x; converterCard := converterCard x;
       exchangeRateInfo := exchangeRateInfo x; chartContainer := v;
       chartButton := chartButton x |}.

Definition set_chartButton (v : option string) (w : world) : world :=
  let x := dom w in
  upd_dom w
    {| fromCurrencySelect := fromCurrencySelect x;
       toCurrencySelect := toCurrencySelect x; amountInput := amountInput x;
       resultInput := resultInput x; fromCurrencyCode := fromCurrencyCode x;
       toCurrencyCode := toCurrencyCode x;
       exchangeRateSpan := exchangeRateSpan x;
       lastUpdatedDiv := lastUpdatedDiv x; basePopular := basePopular x;
       popularRatesTable := popularRatesTable x;
       loadingOverlay := loadingOverlay x; converterCard := converterCard x;
       exchangeRateInfo := exchangeRateInfo x;
       chartContainer := chartContainer x; chartButton := v |}.

Definition set_clock (v : Z) (w : world) : world :=
  let x := env w in
  upd_env w
    {| clock := v; zone := zone x; chartLibrary := chartLibrary x;
       currencyChart := currencyChart x; listeners := listeners x;
       alerts := alerts x; console := console x; requests := requests x;
       historyRequests := historyRequests x |}.

Definition set_zone (v : JS.timezone) (w : world) : world :=
  let x := env w in
  upd_env w
    {| clock := clock x; zone := v; chartLibrary := chartLibrary x;
       currencyChart := currencyChart x; listeners := listeners x;
       alerts := alerts x; console := console x; requests := requests x;
       historyRequests := historyRequests x |}.

Definition set_chartLibrary (v : bool) (w : world) : world :=
  let x := env w in
  upd_env w
    {| clock := clock x; zone := zone x; chartLibrary := v;
       currencyChart := currencyChart x; listeners := listeners x;
       alerts := alerts x; console := console x; requests := requests x;
       historyRequests := historyRequests x |}.

Definition set_currencyChart (v : bool) (w : world) : world :=
  let x := env w in
  upd_env w
    {| clock := clock x; zone := zone x; chartLibrary := chartLibrary x;
       currencyChart := v; listeners := listeners x; alerts := alerts x;
       console := console x; requests := requests x;
       historyRequests := historyRequests x |}.

Definition set_listeners (v : bool) (w : world) : world :=
  let x := env w in
  upd_env w
    {| clock := clock x; zone := zone x; chartLibrary := chartLibrary x;
       currencyChart := currencyChart x; listeners := v; alerts := alerts x;
       console := console x; requests := requests x;
       historyRequests := historyRequests x |}.

Definition set_alerts (v : list string) (w : world) : world :=
  let x := env w in
  upd_env w
    {| clock := clock x; zone := zone x; chartLibrary := chartLibrary x;
       currencyChart := currencyChart x; listeners := listeners x;
       alerts := v; console := console x; requests := requests x;
       historyRequests := historyRequests x |}.

Definition set_console (v : list string) (w : world) : world :=
  let x := env w in
  upd_env w
    {| clock := clock x; zone := zone x; chartLibrary := chartLibrary x;
       currencyChart := currencyChart x; listeners := listeners x;
       alerts := alerts x; console := v; requests := requests x;
       historyRequests := historyRequests x |}.

Definition set_requests (v : list request) (w : world) : world :=
  let x := env w in
  upd_env w
    {| clock := clock x; zone := zone x; chartLibrary := chartLibrary x;
       currencyChart := currencyChart x; listeners := listeners x;
       alerts := alerts x; console := console x; requests := v;
       historyRequests := historyRequests x |}.

Definition set_historyRequests (v : list hrequest) (w : world) : world :=
  let x := env w in
  upd_env w
    {| clock := clock x; zone := zone x; chartLibrary := chartLibrary x;
       currencyChart := currencyChart x; listeners := listeners x;
       alerts := alerts x; console := console x; requests := requests x;
       historyRequests := v |}.

Definition panel_shown (b : bool) (p : panel) : panel :=
  {| visible := b; timeRangeSelect := timeRangeSelect p;
     canvasDimmed := canvasDimmed p; errorBanner := errorBanner p |}.
Definition panel_range (l : lookback) (p : panel) : panel :=
  {| visible := visible p; timeRangeSelect := l;
     canvasDimmed := canvasDimmed p; errorBanner := errorBanner p |}.
Definition panel_dimmed (b : bool) (p : panel) : panel :=
  {| visible := visible p; timeRangeSelect := timeRangeSelect p;
     canvasDimmed := b; errorBanner := errorBanner p |}.
Definition panel_banner (e : option string) (p : panel) : panel :=
  {| visible := visible p; timeRangeSelect := timeRangeSelect p;
     canvasDimmed := canvasDimmed p; errorBanner := e |}.

(* ================================================================== *)
(** * Statements that read and write the world, and may throw *)
(* ================================================================== *)

Inductive result (A : Type) : Type :=
| Ok (a : A)
| Throw (message : string).

Arguments Ok {A} a.
Arguments Throw {A} message.

(** A statement: what was written before an exception stays written. *)
Definition M (A : Type) : Type := world -> result A * world.

Definition ret {A} (a : A) : M A := fun w => (Ok a, w).

Definition bind {A B} (m : M A) (f : A -> M B) : M B :=
  fun w =>
    match m w with
    | (Ok a, w') => f a w'
    | (Throw e, w') => (Throw e, w')
    end.

Definition throw {A} (e : string) : M A := fun w => (Throw e, w).

Definition try_catch {A} (m : M A) (handler : string -> M A) : M A :=
  fun w =>
    match m w with
    | (Ok a, w') => (Ok a, w')
    | (Throw e, w') => handler e w'
    end.

Definition read : M world := fun w => (Ok w, w).
Definition modify (f : world -> world) : M unit := fun w => (Ok tt, f w).

Definition exec {A} (m : M A) (w : world) : world := snd (m w).

Notation "'do' x <- a ; b" := (bind a (fun x => b))
  (at level 10, x name, a at level 100, b at level 200).
Notation "a ;; b" := (bind a (fun _ => b))
  (at level 100, right associativity).

Fixpoint forEach {A} (f : A -> M unit) (l : list A) : M unit :=
  match l with
  | [] => ret tt
  | x :: r => f x ;; forEach f r
  end.

Definition alert (message : string) : M unit :=
  modify (fun w => set_alerts (alerts (env w) ++ [message]) w).

(** [console.error] and [console.warn] write to the same log. *)
Definition console_error (message : string) : M unit :=
  modify (fun w => set_console (console (env w) ++ [message]) w).

Definition console_warn (message : string) : M unit := console_error message.

(* ================================================================== *)
(** * chart.js *)
(* ================================================================== *)

Module Chart.

(** [showChartLoading]: dims the canvas while loading. *)
Definition showChartLoading (isLoading : bool) : M unit :=
  modify (fun w =>
    match chartContainer (dom w) with
    | Some p => set_chartContainer (Some (panel_dimmed isLoading p)) w
    | None => w
    end).

(** [showChartError]: one banner with a retry button, replacing the
    banner that may be there. *)
Definition showChartError (message : string) : M unit :=
  modify (fun w =>
    match chartContainer (dom w) with
    | Some p =>
        set_chartContainer
          (Some (panel_banner (Some ("Failed to load chart data: " ++ message)) p)) w
    | None => w
    end).

(** [formatDate]: [date.toISOString().split('T')[0]]. *)
Definition formatDate (d : JS.date) : M string :=
  match JS.toISOString d with
  | Some s => ret (JS.before "T" s)
  | None => throw "Invalid time value"
  end.

Definition history_url (startDate endDate fromCurrency toCurrency : string)
  : string :=
  "https://api.frankfurter.app/" ++ startDate ++ ".." ++ endDate
  ++ "?from=" ++ fromCurrency ++ "&to=" ++ toCurrency.

(** [startDate.setDate(startDate.getDate() - days)] on a [startDate] that
    holds the instant [now]. *)
Definition lookbackStart (tz : JS.timezone) (now : Z) (days : Z) : JS.date :=
  let startDate : JS.date := Some now in
  match JS.getDate tz startDate with
  | Some d => JS.setDate tz startDate (d - days)
  | None => None
  end.

(** [loadHistoricalRates] up to its [await fetch(url)]. Both [new Date()]
    read the clock of the same instant. An exception before the request
    is caught by the function's own [catch], and its [finally] runs. *)
Definition loadHistoricalRates (fromCurrency toCurrency : string) (days : Z)
  : M unit :=
  try_catch
    (showChartLoading true ;;
     do w <- read ;
     let endDate : JS.date := Some (clock (env w)) in
     let startDate := lookbackStart (zone (env w)) (clock (env w)) days in
     do formattedStartDate <- formatDate startDate ;
     do formattedEndDate <- formatDate endDate ;
     let url :=
       history_url formattedStartDate formattedEndDate fromCurrency toCurrency in
     modify (fun w =>
       set_historyRequests
         (historyRequests (env w)
          ++ [{| hreq_url := url; hreq_from := fromCurrency;
                 hreq_to := toCurrency |}]) w))
    (fun e =>
       console_error ("Error loading historical rates: " ++ e) ;;
       showChartError e ;;
       showChartLoading false).

(** [displayChart]: the labels are the keys of [data.rates], the series
    the rate of [toCurrency] under each; the previous chart is replaced. *)
Definition displayChart (data : history_body) (fromCurrency toCurrency : string)
  : M unit :=
  do w <- read ;
  match chartContainer (dom w) with
  | None => ret tt
  | Some _ =>
      match data with
      | HistoryNull => throw "Cannot read properties of null (reading 'rates')"
      | HistoryData None => throw "Cannot convert undefined or null to object"
      | HistoryData (Some rates) =>
          let dates := JS.keys rates in
          let series :=
            map (fun d => match JS.get d rates with
                          | Some day => JS.get toCurrency day
                          | None => None
                          end) dates in
          modify (set_rateChart (Some
            {| chart_labels := dates;
               chart_data := series;
               chart_label := fromCurrency ++ " to " ++ toCurrency;
               chart_title :=
                 fromCurrency ++ " to " ++ toCurrency
                 ++ " Exchange Rate History" |}))
      end
  end.

(** The rest of [loadHistoricalRates], once the request [r] has settled
    with [resp]. *)
Definition loadHistoricalRates_resume (r : hrequest)
  (resp : response history_body) : M unit :=
  try_catch
    (match resp with
     | NetworkFailure e => throw e
     | HttpError _ => throw "Failed to fetch historical data"
     | NotJson e => throw e
     | Json data => displayChart data (hreq_from r) (hreq_to r)
     end)
    (fun e =>
       console_error ("Error loading historical rates: " ++ e) ;;
       showChartError e) ;;
  showChartLoading false.

(** The [days] the handlers pass: the select's value (it is in the
    container, so it exists when the container does), else 30. *)
Definition selected_days (w : world) : Z :=
  match chartContainer (dom w) with
  | Some p => lookback_days (timeRangeSelect p)
  | None => 30
  end.

(** [toggleChart] *)
Definition toggleChart : M unit :=
  do w <- read ;
  match chartContainer (dom w), chartButton (dom w) with
  | Some p, Some _ =>
      if visible p then
        modify (set_chartContainer (Some (panel_shown false p))) ;;
        modify (set_chartButton (Some "Show Chart"))
      else
        modify (set_chartContainer (Some (panel_shown true p))) ;;
        modify (set_chartButton (Some "Hide Chart")) ;;
        let fromCurrency := Dom.value (fromCurrencySelect (dom w)) in
        let toCurrency := Dom.value (toCurrencySelect (dom w)) in
        let days := selected_days w in
        loadHistoricalRates fromCurrency toCurrency days
  | _, _ => ret tt
  end.

(** [updateChart], exported as [window.currencyChart.update]. *)
Definition updateChart : M unit :=
  do w <- read ;
  match chartContainer (dom w) with
  | Some p =>
      if visible p then
        loadHistoricalRates (Dom.value (fromCurrencySelect (dom w)))
                            (Dom.value (toCurrencySelect (dom w)))
                            (selected_days w)
      else ret tt
  | None => ret tt
  end.

(** The [change] listener of the time range select; [this.value] is the
    option the user picked. *)
Definition timeRangeChanged (picked : lookback) : M unit :=
  modify (fun w =>
    match chartContainer (dom w) with
    | Some p => set_chartContainer (Some (panel_range picked p)) w
    | None => w
    end) ;;
  do w <- read ;
  loadHistoricalRates (Dom.value (fromCurrencySelect (dom w)))
                      (Dom.value (toCurrencySelect (dom w)))
                      (lookback_days picked).

(** The [onclick] of the retry button of the error banner. *)
Definition retry : M unit :=
  modify (fun w =>
    match chartContainer (dom w) with
    | Some p => set_chartContainer (Some (panel_banner None p)) w
    | None => w
    end) ;;
  do w <- read ;
  loadHistoricalRates (Dom.value (fromCurrencySelect (dom w)))
                      (Dom.value (toCurrencySelect (dom w)))
                      (selected_days w).

(** [createChartContainer]: a hidden container, 30 days preselected. *)
Definition createChartContainer : M unit :=
  modify (fun w =>
    if converterCard (dom w) then
      set_chartContainer
        (Some {| visible := false; timeRangeSelect := Days30;
                 canvasDimmed := false; errorBanner := None |}) w
    else w).

(** [addChartButton] *)
Definition addChartButton : M unit :=
  modify (fun w =>
    if exchangeRateInfo (dom w) then set_chartButton (Some "Show Chart") w
    else w).

(** [initChartFeature], exported as [window.currencyChart.init]. *)
Definition initChartFeature : M unit :=
  do w <- read ;
  if chartLibrary (env w) then createChartContainer ;; addChartButton
  else console_warn "Chart.js not found. Chart features disabled.".

End Chart.

(* ================================================================== *)
(** * script.js *)
(* ================================================================== *)

Module Script.

Definition API_BASE_URL : string := "https://api.frankfurter.app/latest".

Definition popularCurrencies : list string :=
  ["USD"; "EUR"; "GBP"; "JPY"; "CAD"; "AUD"; "CHF"; "NZD"; "HKD"; "SGD"].

Definition showLoading : M unit := modify (set_loadingOverlay true).
Definition hideLoading : M unit := modify (set_loadingOverlay false).

(** [fetchExchangeRates] up to its [await fetch(url)]: the request is
    recorded with what will run when it settles. *)
Definition fetchExchangeRates (baseCurrency : string) (k : continuation)
  : M unit :=
  showLoading ;;
  let url := API_BASE_URL ++ "?from=" ++ baseCurrency in
  modify (fun w =>
    set_requests
      (requests (env w)
       ++ [{| req_url := url; req_base := baseCurrency; req_then := k |}]) w).

(** The callback of [populateCurrencyDropdowns]: one option for the
    currency in each drop-down. *)
Definition appendCurrencyOption (currency : string) : M unit :=
  modify (fun w =>
    set_fromCurrencySelect
      (Dom.appendOption currency (fromCurrencySelect (dom w))) w) ;;
  modify (fun w =>
    set_toCurrencySelect
      (Dom.appendOption currency (toCurrencySelect (dom w))) w).

(** [populateCurrencyDropdowns] *)
Definition populateCurrencyDropdowns : M unit :=
  modify (set_fromCurrencySelect Dom.empty) ;;
  modify (set_toCurrencySelect Dom.empty) ;;
  do w <- read ;
  forEach appendCurrencyOption (currencies (vars w)).

(** [performConversion] *)
Definition performConversion (fromCurrency toCurrency : string)
  (amount : JS.number) : M unit :=
  do w <- read ;
  match exchangeRates (vars w) with
  | None => throw "Cannot read properties of undefined"
  | Some rates =>
      match JS.get toCurrency rates with
      | Some rate =>
          if negb (JS.truthy rate) then
            modify (set_resultInput "Rate not available")
          else
            let convertedAmount := JS.mul amount rate in
            modify (set_resultInput (JS.toFixed 4 convertedAmount)) ;;
            modify (set_fromCurrencyCode fromCurrency) ;;
            modify (set_toCurrencyCode toCurrency) ;;
            modify (set_exchangeRateSpan (JS.toFixed 6 rate))
      | None => modify (set_resultInput "Rate not available")
      end
  end.

(** [convertCurrency] *)
Definition convertCurrency : M unit :=
  do w <- read ;
  let fromCurrency := Dom.value (fromCurrencySelect (dom w)) in
  let toCurrency := Dom.value (toCurrencySelect (dom w)) in
  let amount := JS.parseFloat (amountInput (dom w)) in
  if JS.isNaN amount || JS.leb amount JS.pzero then
    modify (set_resultInput "Invalid amount")
  else if negb (String.eqb fromCurrency (fromCurrencyCode (dom w))) then
    fetchExchangeRates fromCurrency (Convert fromCurrency toCurrency amount)
  else
    performConversion fromCurrency toCurrency amount.

(** [getCurrencyName] *)
Definition currencyNames : JS.obj string :=
  [("USD", "US Dollar"); ("EUR", "Euro"); ("GBP", "British Pound");
   ("JPY", "Japanese Yen"); ("CAD", "Canadian Dollar");
   ("AUD", "Australian Dollar"); ("CHF", "Swiss Franc");
   ("CNY", "Chinese Yuan"); ("INR", "Indian Rupee");
   ("BRL", "Brazilian Real"); ("NZD", "New Zealand Dollar");
   ("ZAR", "South African Rand"); ("RUB", "Russian Ruble");
   ("KRW", "South Korean Won"); ("SGD", "Singapore Dollar");
   ("HKD", "Hong Kong Dollar"); ("MXN", "Mexican Peso");
   ("SEK", "Swedish Krona"); ("NOK", "Norwegian Krone");
   ("DKK", "Danish Krone")].

Definition getCurrencyName (code : string) : string :=
  match JS.get code currencyNames with
  | Some name => name
  | None => code
  end.

(** [parseFloat(amountInput.value) || 1] *)
Definition popularAmount (text : string) : JS.number :=
  let amount := JS.parseFloat text in
  if JS.truthy amount then amount else JS.one.

(** The codes [updatePopularRates] walks through. *)
Definition currenciesToShow (baseCurrency : string) (known : list string)
  : list string :=
  let shown :=
    filter (fun curr => negb (String.eqb curr baseCurrency)) popularCurrencies in
  if JS.includes popularCurrencies baseCurrency then
    let additionalCurrencies :=
      firstn 3 (filter (fun curr => negb (JS.includes popularCurrencies curr))
                       known) in
    shown ++ additionalCurrencies
  else shown.

Definition popularRow (currencyCode : string) (amount rate : JS.number) : row :=
  {| row_name := getCurrencyName currencyCode;
     row_code := currencyCode;
     row_rate := JS.toFixed 6 rate;
     row_amount := JS.toFixed 4 (JS.mul amount rate) |}.

(** The callback [updatePopularRates] runs on each code: a row for a code
    with a truthy rate, nothing otherwise. *)
Definition appendPopularRow (amount : JS.number) (currencyCode : string)
  : M unit :=
  do w <- read ;
  match exchangeRates (vars w) with
  | None => throw "Cannot read properties of undefined"
  | Some rates =>
      match JS.get currencyCode rates with
      | Some rate =>
          if negb (JS.truthy rate) then ret tt
          else
            modify (fun w =>
              set_popularRatesTable
                (popularRatesTable (dom w)
                 ++ [popularRow currencyCode amount rate]) w)
      | None => ret tt
      end
  end.

(** [updatePopularRates] *)
Definition updatePopularRates : M unit :=
  do w <- read ;
  let baseCurrency := Dom.value (fromCurrencySelect (dom w)) in
  let amount := popularAmount (amountInput (dom w)) in
  modify (set_basePopular baseCurrency) ;;
  modify (set_popularRatesTable []) ;;
  forEach (appendPopularRow amount)
    (firstn 10 (currenciesToShow baseCurrency (currencies (vars w)))).

(** [updateUI] *)
Definition updateUI : M unit :=
  do w <- read ;
  match lastUpdatedTime (vars w) with
  | Some d => modify (set_lastUpdatedDiv (Some d))
  | None => ret tt
  end ;;
  convertCurrency ;;
  if currencyChart (env w) then Chart.updateChart else ret tt.

(** [swapCurrencies] *)
Definition swapCurrencies : M unit :=
  do w <- read ;
  let fromValue := Dom.value (fromCurrencySelect (dom w)) in
  let toValue := Dom.value (toCurrencySelect (dom w)) in
  modify (fun w =>
    set_fromCurrencySelect (Dom.set_value toValue (fromCurrencySelect (dom w))) w) ;;
  modify (fun w =>
    set_toCurrencySelect (Dom.set_value fromValue (toCurrencySelect (dom w))) w) ;;
  convertCurrency.

(** The body of [fetchExchangeRates] after the request for
    [baseCurrency] has settled with [resp]. *)
Definition fetchExchangeRates_resume (baseCurrency : string)
  (resp : response rates_body) : M unit :=
  try_catch
    (match resp with
     | NetworkFailure e => throw e
     | HttpError _ => throw "Network response was not ok"
     | NotJson e => throw e
     | Json RatesNull => throw "Cannot read properties of null (reading 'rates')"
     | Json (RatesData rates date) =>
         (* exchangeRates = data.rates *)
         modify (set_exchangeRates rates) ;;
         (* exchangeRates[baseCurrency] = 1 *)
         match rates with
         | None => throw "Cannot set properties of undefined"
         | Some r =>
             modify (set_exchangeRates (Some (JS.set baseCurrency JS.one r)))
         end ;;
         modify (set_lastUpdatedTime (Some date)) ;;
         do w <- read ;
         match currencies (vars w) with
         | [] =>
             modify (fun w =>
               set_currencies
                 (JS.sort_strings
                    (match exchangeRates (vars w) with
                     | Some r => JS.keys r
                     | None => []
                     end)) w) ;;
             populateCurrencyDropdowns ;;
             modify (fun w =>
               set_fromCurrencySelect
                 (Dom.set_value baseCurrency (fromCurrencySelect (dom w))) w) ;;
             modify (fun w =>
               set_toCurrencySelect
                 (Dom.set_value
                    (if String.eqb baseCurrency "EUR" then "USD" else "EUR")
                    (toCurrencySelect (dom w))) w)
         | _ :: _ => ret tt
         end ;;
         updateUI ;;
         updatePopularRates ;;
         hideLoading
     end)
    (fun e =>
       console_error ("Error fetching exchange rates: " ++ e) ;;
       hideLoading ;;
       alert ("Error fetching exchange rates. Please check your internet connection and try again. Details: " ++ e) ;;
       throw e).

(** [setupEventListeners] *)
Definition setupEventListeners : M unit := modify (set_listeners true).

(** A rates request settles: the body of [fetchExchangeRates] resumes,
    then the caller that awaited it. *)
Definition settle (r : request) (resp : response rates_body) : M unit :=
  fun w =>
    let '(res, w1) := fetchExchangeRates_resume (req_base r) resp w in
    match req_then r, res with
    | InitApp, Ok _ => (setupEventListeners ;; hideLoading) w1
    | InitApp, Throw e =>
        (console_error ("Error initializing app: " ++ e) ;;
         alert "Failed to initialize the application. Please try again later." ;;
         hideLoading) w1
    | Convert fromCurrency toCurrency amount, Ok _ =>
        try_catch (performConversion fromCurrency toCurrency amount)
          (fun e =>
             console_error ("Error updating exchange rates: " ++ e) ;;
             modify (set_resultInput "Error fetching rates")) w1
    | Convert _ _ _, Throw e =>
        (console_error ("Error updating exchange rates: " ++ e) ;;
         modify (set_resultInput "Error fetching rates")) w1
    end.

(** [initApp] up to its [await]. *)
Definition initApp : M unit := fetchExchangeRates "USD" InitApp.

(** The [DOMContentLoaded] listener. *)
Definition onDOMContentLoaded : M unit :=
  initApp ;;
  do w <- read ;
  if currencyChart (env w) then Chart.initChartFeature else ret tt.

End Script.

(* ================================================================== *)
(** * The page as a transition system *)
(* ================================================================== *)

Module App.

(** What can happen to the page: the user acts on a control, a request
    settles, or time passes. The controls inside the chart container (the
    time range select and the retry button) can only be operated while the
    container is displayed. *)
Inductive event : Type :=
| DOMContentLoaded
| FromSelected (code : string)
| ToSelected (code : string)
| AmountTyped (text : string)
| SwapClicked
| ChartButtonClicked
| TimeRangePicked (picked : lookback)
| RetryClicked
| RatesSettled (r : request) (resp : response rates_body)
| HistorySettled (r : hrequest) (resp : response history_body)
| Tick (now : Z).

(** A listener runs to completion; an exception it lets escape is
    reported by the host and ends the listener. *)
Definition run (listener : M unit) (w : world) : world := exec listener w.

Definition when_listening (listener : M unit) (w : world) : world :=
  if listeners (env w) then run listener w else w.

Definition panel_visible (w : world) : bool :=
  match chartContainer (dom w) with
  | Some p => visible p
  | None => false
  end.

Definition dispatch (e : event) (w : world) : world :=
  match e with
  | DOMContentLoaded => run Script.onDOMContentLoaded w
  | FromSelected code =>
      if JS.includes (Dom.options (fromCurrencySelect (dom w))) code then
        when_listening Script.convertCurrency
          (set_fromCurrencySelect
             (Dom.set_value code (fromCurrencySelect (dom w))) w)
      else w
  | ToSelected code =>
      if JS.includes (Dom.options (toCurrencySelect (dom w))) code then
        when_listening Script.convertCurrency
          (set_toCurrencySelect
             (Dom.set_value code (toCurrencySelect (dom w))) w)
      else w
  | AmountTyped text =>
      when_listening Script.convertCurrency (set_amountInput text w)
  | SwapClicked => when_listening Script.swapCurrencies w
  | ChartButtonClicked =>
      match chartButton (dom w) with
      | Some _ => run Chart.toggleChart w
      | None => w
      end
  | TimeRangePicked picked =>
      if panel_visible w then run (Chart.timeRangeChanged picked) w else w
  | RetryClicked =>
      match chartContainer (dom w) with
      | Some p =>
          match visible p, errorBanner p with
          | true, Some _ => run Chart.retry w
          | _, _ => w
          end
      | None => w
      end
  | RatesSettled r resp => run (Script.settle r resp) w
  | HistorySettled r resp => run (Chart.loadHistoricalRates_resume r resp) w
  | Tick now => set_clock now w
  end.

Definition steps (es : list event) (w : world) : world :=
  fold_left (fun w e => dispatch e w) es w.

(** The page before the scripts run: empty drop-downs, nothing fetched,
    no chart. The texts the markup puts in the amount field and in the rate
    line are parameters. *)
Definition initial (now : Z) (tz : JS.timezone)
  (amount fromCode toCode : string) : world :=
  {| vars := {| exchangeRates := Some [];
                currencies := [];
                lastUpdatedTime := None;
                rateChart := None |};
     dom := {| fromCurrencySelect := Dom.empty;
               toCurrencySelect := Dom.empty;
               amountInput := amount;
               resultInput := "";
               fromCurrencyCode := fromCode;
               toCurrencyCode := toCode;
               exchangeRateSpan := "";
               lastUpdatedDiv := None;
               basePopular := "";
               popularRatesTable := [];
               loadingOverlay := true;
               converterCard := true;
               exchangeRateInfo := true;
               chartContainer := None;
               chartButton := None |};
     env := {| clock := now;
               zone := tz;
               chartLibrary := true;
               currencyChart := true;
               listeners := false;
               alerts := [];
               console := [];
               requests := [];
               historyRequests := [] |} |}.

End App.

(* ================================================================== *)
(** * The rest of script.js *)
(* ================================================================== *)

(** The copy button and the listeners at the end of [script.js] work on
    elements of their own; each is modelled on the state it reads and
    writes. A listener that ends in an exception has changed nothing that
    is modelled here, unless said otherwise. *)

(** ** The scroll effect of the navigation bar *)

Module Navbar.

(** The [classList] of an element: a [DOMTokenList], the class names in
    order, each once. *)
Definition contains (tokens : list string) (token : string) : bool :=
  JS.includes tokens token.

Definition add (token : string) (tokens : list string) : list string :=
  if contains tokens token then tokens else tokens ++ [token].

Definition remove (token : string) (tokens : list string) : list string :=
  filter (fun t => negb (String.eqb t token)) tokens.

(** The [scroll] listener, run at the scroll position [scrollY] on the
    class list of the [.navbar] element ([None] when the page has none: the
    listener ends in a [TypeError]). *)
Definition onScroll (scrollY : JS.number) (navbar : option (list string))
  : option (list string) :=
  match navbar with
  | Some tokens =>
      if JS.ltb (JS.of_Z 50) scrollY then Some (add "scrolled" tokens)
      else Some (remove "scrolled" tokens)
  | None => None
  end.

End Navbar.

(** ** The editable developer name *)

Module Developer.

(** The text of the [developerName] element ([None] when the page has
    none), the entries of [localStorage], and whether the storage refuses
    a write ([setItem] throws a [QuotaExceededError]). *)
Record state : Type := {
  developerName : option string;
  localStorage : JS.obj string;
  storageFull : bool
}.

Definition set_developerName (v : string) (st : state) : state :=
  {| developerName := Some v; localStorage := localStorage st;
     storageFull := storageFull st |}.

Definition setItem (k v : string) (st : state) : state :=
  {| developerName := developerName st;
     localStorage := JS.set k v (localStorage st);
     storageFull := storageFull st |}.

(** [String.prototype.trim]: white space cut off at both ends. The text
    ends where what is left of it is white space only. *)
Fixpoint trim_end (s : string) : string :=
  match s with
  | EmptyString => EmptyString
  | String c r =>
      match JS.trim_start s with
      | EmptyString => EmptyString
      | _ => String c (trim_end r)
      end
  end.

Definition trim (s : string) : string := trim_end (JS.trim_start s).

(** The [click] listener of the element; [answer] is what [prompt]
    returns: the text entered, or [None] ([null]) when the dialog is
    cancelled. The text is shown before it is stored. *)
Definition onClick (answer : option string) (st : state) : state :=
  match developerName st with
  | Some currentName =>
      match answer with
      | Some newName =>
          if negb (String.eqb newName "") && negb (String.eqb (trim newName) "")
          then
            let st1 := set_developerName newName st in
            if storageFull st1 then st1 else setItem "developerName" newName st1
          else st
      | None => st
      end
  | None => st
  end.

(** The [DOMContentLoaded] listener: a saved name that is not empty
    replaces the text of the markup. *)
Definition onLoad (st : state) : state :=
  match developerName st with
  | Some _ =>
      match JS.get "developerName" (localStorage st) with
      | Some savedName =>
          if negb (String.eqb savedName "") then set_developerName savedName st
          else st
      | None => st
      end
  | None => st
  end.

End Developer.

(** ** The copy button *)

Module Clipboard.



(** The page with its result field; the [innerHTML] of the copy button;
    whether [navigator.clipboard.writeText] exists; whether the host honours
    [document.execCommand('copy')]; the text on the system clipboard; the
    texts handed to [writeText] so far; the timers that wait to restore the
    button, each with the markup it captured, oldest first; and the
    console. *)
Record state : Type := {
  page : world;
  copyButton : string;
  clipboardAPI : bool;
  copyCommand : bool;
  clipboard : option string;
  written : list string;
  timers : list string;
  errors : list string
}.

(** [resultInput.select(); document.execCommand('copy')]: the text the
    result field holds now goes to the clipboard, if the host lets it. *)
Definition fallbackCopy (st : state) : state :=
  if copyCommand st then
    {| page := page st; copyButton := copyButton st;
       clipboardAPI := clipboardAPI st; copyCommand := copyCommand st;
       clipboard := Some (resultInput (dom (page st)));
       written := written st; timers := timers st; errors := errors st |}
  else st.




(** The promise is rejected: the [catch] handler falls back. *)
Definition writeRejected (err : string) (st : state) : state :=
  fallbackCopy
    {| page := page st; copyButton := copyButton st;
       clipboardAPI := clipboardAPI st; copyCommand := copyCommand st;
       clipboard := clipboard st; written := written st;
       timers := timers st;
       errors := errors st ++ ["Failed to copy text: " ++ err] |}.


End Clipboard.

(* ================================================================== *)
(** * Vocabulary of the statements *)
(* ================================================================== *)

(** ** Parts of the world *)

(** The snapshot (rate table and date); the two drop-downs; the viewer's
    part: whether the panel is displayed and the requests issued for
    historical rates. *)
Definition snapshot_of (w : world) :=
  (exchangeRates (vars w), lastUpdatedTime (vars w)).
Definition selection_of (w : world) :=
  (fromCurrencySelect (dom w), toCurrencySelect (dom w)).
Definition viewer_of (w : world) : option bool * list hrequest :=
  (option_map visible (chartContainer (dom w)), historyRequests (env w)).

(** The selected source and target codes. *)
Definition selected (w : world) : string * string :=
  (Dom.value (fromCurrencySelect (dom w)), Dom.value (toCurrencySelect (dom w))).

(** The two drop-downs offer the same options. *)
Definition same_options (w : world) : Prop :=
  Dom.options (fromCurrencySelect (dom w)) = Dom.options (toCurrencySelect (dom w)).

(** ** Properties of statements *)

(** [m] never changes the part [proj] of the world, whether it returns or
    throws. *)
Definition keeps {X : Type} (proj : world -> X) {A} (m : M A) : Prop :=
  forall w, proj (snd (m w)) = proj w.

(** [m] returns normally from every world. *)
Definition returns {A} (m : M A) : Prop :=
  forall w, exists a w', m w = (Ok a, w').

(** [m] returns normally from every world where [I] holds, into a world
    where [I] holds. *)
Definition through (I : world -> Prop) {A} (m : M A) : Prop :=
  forall w, I w -> exists a w', m w = (Ok a, w') /\ I w'.

(** [m] leads from a world where [I] holds to one where it holds, whether
    it returns or throws. *)
Definition preserved (I : world -> Prop) {A} (m : M A) : Prop :=
  forall w, I w -> I (snd (m w)).

(** ** Texts *)

(** A text that starts like a number [toFixed] prints: with a digit, a
    minus sign, or the first letter of NaN or Infinity. *)
Definition numeric_head (s : string) : bool :=
  match s with
  | String c _ =>
      JS.is_digit c || Ascii.eqb c "-" || Ascii.eqb c "N" || Ascii.eqb c "I"
  | EmptyString => false
  end.

(** Text without the letter T. *)
Fixpoint no_T (s : string) : bool :=
  match s with
  | EmptyString => true
  | String c r => negb (Ascii.eqb c "T") && no_T r
  end.

(** YYYY-MM-DD: ten characters, digits around two hyphens. *)
Definition is_calendar_date (s : string) : bool :=
  match s with
  | String y1 (String y2 (String y3 (String y4 (String h1
      (String m1 (String m2 (String h2 (String d1 (String d2 EmptyString))))))))) =>
      JS.is_digit y1 && JS.is_digit y2 && JS.is_digit y3 && JS.is_digit y4
      && Ascii.eqb h1 "-" && JS.is_digit m1 && JS.is_digit m2
      && Ascii.eqb h2 "-" && JS.is_digit d1 && JS.is_digit d2
  | _ => false
  end.

(** ** Dates *)

(** The date text of day number [d] (days since the epoch). *)
Definition calendar_date (d : Z) : string := JS.iso_date (d * JS.msPerDay).

(** The offset of the zone from UTC at the instant [now], and its offset
    at the local time to which [setDate] steps back: the same time of day,
    [days] days earlier on the local calendar. *)
Definition offset_now (tz : JS.timezone) (now : Z) : Z := JS.utc_offset tz now.

Definition offset_back (tz : JS.timezone) (now days : Z) : Z :=
  JS.local_offset tz (now + JS.utc_offset tz now - days * JS.msPerDay).

(** The instant at which the look-back window of [days] days starts. *)
Definition window_start (tz : JS.timezone) (now days : Z) : Z :=
  now + (offset_now tz now - offset_back tz now days) - days * JS.msPerDay.

(** The step back does not carry the time of the UTC day over a midnight:
    what the offset has changed by between the start of the window and
    [now], added to the time of day, stays within the day. This holds
    whenever the two offsets are equal. *)
Definition keeps_utc_day (tz : JS.timezone) (now days : Z) : Prop :=
  0 <= JS.TimeWithinDay now + (offset_now tz now - offset_back tz now days)
    < JS.msPerDay.

(** ** The converter *)

(** The rows [updatePopularRates] appends while walking through [codes]. *)
Definition rows_for (rates : JS.obj JS.number) (amount : JS.number)
  (codes : list string) : list row :=
  flat_map (fun code =>
              match JS.get code rates with
              | Some rate =>
                  if JS.truthy rate then [Script.popularRow code amount rate]
                  else []
              | None => []
              end) codes.

(** The additional codes of the popular rates table: none when the base is
    not a popular currency, the first three known codes that are not
    popular otherwise. *)
Definition backfill (base : string) (known : list string) : list string :=
  if JS.includes Script.popularCurrencies base then
    firstn 3 (filter (fun curr => negb (JS.includes Script.popularCurrencies curr))
                     known)
  else [].

(** A rate table as the data model has it: no negative rate. *)
Definition nonnegative (rates : JS.obj JS.number) : bool :=
  forallb (fun kv => JS.leb JS.pzero (snd kv)) rates.

(** The ways a rates request fails before the rate table is touched, with
    the message of the exception. *)
Definition fails_early (resp : response rates_body) : option string :=
  match resp with
  | NetworkFailure e => Some e
  | HttpError _ => Some "Network response was not ok"
  | NotJson e => Some e
  | Json RatesNull => Some "Cannot read properties of null (reading 'rates')"
  | Json (RatesData _ _) => None
  end.

(** The text of the dialog [fetchExchangeRates] shows on a failure. *)
Definition failure_notice (e : string) : string :=
  "Error fetching exchange rates. Please check your internet connection and try again. Details: "
  ++ e.

(** The events that bring a parsed body to [fetchExchangeRates]. *)
Definition delivers_rates (e : App.event) : bool :=
  match e with
  | App.RatesSettled _ (Json (RatesData _ _)) => true
  | _ => false
  end.

(** ** The viewer *)

(** The world after [showChartLoading b]. *)
Definition dimmed (b : bool) (w : world) : world :=
  match chartContainer (dom w) with
  | Some p => set_chartContainer (Some (panel_dimmed b p)) w
  | None => w
  end.

(** The request for the rates of [toCurrency] from day [startDay] to day
    [endDay]. *)
Definition history_request (startDay endDay : Z)
  (fromCurrency toCurrency : string) : hrequest :=
  {| hreq_url :=
       Chart.history_url (calendar_date startDay) (calendar_date endDay)
                         fromCurrency toCurrency;
     hreq_from := fromCurrency;
     hreq_to := toCurrency |}.

(** The chart [displayChart] builds from a table of daily rates. *)
Definition rendered (rates : JS.obj (JS.obj JS.number))
  (fromCurrency toCurrency : string) : chart :=
  {| chart_labels := JS.keys rates;
     chart_data :=
       map (fun d => match JS.get d rates with
                     | Some day => JS.get toCurrency day
                     | None => None
                     end) (JS.keys rates);
     chart_label := fromCurrency ++ " to " ++ toCurrency;
     chart_title :=
       fromCurrency ++ " to " ++ toCurrency ++ " Exchange Rate History" |}.

(** The panel is not displayed and the requests issued are [hs]. *)
Definition hidden_with (hs : list hrequest) (v : option bool * list hrequest)
  : Prop :=
  fst v <> Some true /\ snd v = hs.

Definition hidden (hs : list hrequest) (w : world) : Prop :=
  hidden_with hs (viewer_of w).

Definition is_chart_click (e : App.event) : bool :=
  match e with App.ChartButtonClicked => true | _ => false end.

(** ** Concrete pages *)

Module Examples.

Definition utc : JS.timezone :=
  {| JS.utc_offset := fun _ => 0; JS.local_offset := fun _ => 0 |}.

(** Noon UTC on 2024-03-10. *)
Definition noon_2024_03_10 : Z := 1710072000000.

Definition first_request : request :=
  {| req_url := "https://api.frankfurter.app/latest?from=USD";
     req_base := "USD"; req_then := InitApp |}.

Definition usd_rates (eur : string) : JS.obj JS.number :=
  [("EUR", JS.parseFloat eur); ("JPY", JS.parseFloat "150.1")].

(** The page after loading, the provider having answered the first
    request with the table [rates], and the user having typed [amount]. *)
Definition page (rates : JS.obj JS.number) (amount : string) : world :=
  App.steps
    [App.DOMContentLoaded;
     App.RatesSettled first_request
       (Json (RatesData (Some rates) (Some "2024-03-08")));
     App.AmountTyped amount]
    (App.initial noon_2024_03_10 utc "1" "USD" "EUR").

(** The same, for the small table with the given EUR rate. *)
Definition loaded (eur amount : string) : world := page (usd_rates eur) amount.

(** A table with three popular codes and four others. *)
Definition wide_rates : JS.obj JS.number :=
  [("BGN", JS.parseFloat "1.7905"); ("CZK", JS.parseFloat "23.152");
   ("DKK", JS.parseFloat "6.8254"); ("EUR", JS.parseFloat "0.92");
   ("GBP", JS.parseFloat "0.7821"); ("HUF", JS.parseFloat "361.45");
   ("JPY", JS.parseFloat "150.1")].

(** The same page with a target the rate table does not list. *)
Definition gbp_selected : world :=
  set_toCurrencySelect
    {| Dom.options := ["EUR"; "GBP"]; Dom.selectedIndex := Some 1%nat |}
    (loaded "0.92" "100").

End Examples.

Module Outage.

(** The user picks EUR as the source on the loaded page: a request for the
    EUR rates is issued. *)
Definition eur_request : request :=
  {| req_url := "https://api.frankfurter.app/latest?from=EUR";
     req_base := "EUR";
     req_then := Convert "EUR" "EUR" (JS.parseFloat "100") |}.

Definition before : world :=
  App.dispatch (App.FromSelected "EUR") (Examples.loaded "0.92" "100").

(** The provider answers 200 with a JSON object that has no [rates]. *)
Definition after : world :=
  App.dispatch (App.RatesSettled eur_request (Json (RatesData None None))) before.

End Outage.

Module Scenario.

(** A week of business days, as the provider lists them. *)
Definition six_points : JS.obj (JS.obj JS.number) :=
  [("2024-03-04", [("EUR", JS.parseFloat "0.9215")]);
   ("2024-03-05", [("EUR", JS.parseFloat "0.9207")]);
   ("2024-03-06", [("EUR", JS.parseFloat "0.9183")]);
   ("2024-03-07", [("EUR", JS.parseFloat "0.9155")]);
   ("2024-03-08", [("EUR", JS.parseFloat "0.9142")]);
   ("2024-03-10", [("EUR", JS.parseFloat "0.9139")])].

(** Central European time around the start of summer time 2024: one hour
    ahead of UTC until 2024-03-31 01:00 UTC, two hours from then on. *)
Definition summer_2024 : Z := 1711846800000.

Definition berlin : JS.timezone :=
  {| JS.utc_offset := fun t => if t <? summer_2024 then 3600000 else 7200000;
     JS.local_offset :=
       fun t => if t <? summer_2024 + 3600000 then 3600000 else 7200000 |}.

(** 2024-04-02 23:30 UTC, which is 01:30 on 2024-04-03 in Berlin. *)
Definition late_evening : Z := 1712100600000.

Definition in_berlin : world :=
  App.initial late_evening berlin "1" "USD" "EUR".

(** Noon UTC on 2024-04-02, 14:00 in Berlin, on the page once its scripts
    have started. *)
Definition midday : Z := 1712059200000.

Definition at_midday : world :=
  App.dispatch App.DOMContentLoaded (App.initial midday berlin "1" "USD" "EUR").

Definition out_of_order : JS.obj (JS.obj JS.number) :=
  [("2024-03-05", [("EUR", JS.parseFloat "0.9207")]);
   ("2024-03-04", [("EUR", JS.parseFloat "0.9215")])].

End Scenario.

(** ** Further parts of the world and properties of statements *)

(** The currencies on offer: the list the script keeps and the options of
    the two drop-downs. *)
Definition catalogue_of (w : world) :=
  (currencies (vars w),
   Dom.options (fromCurrencySelect (dom w)),
   Dom.options (toCurrencySelect (dom w))).

(** What a refresh paints besides the conversion: the popular rates table
    with its heading, and the line that says when the rates were updated. *)
Definition refreshed_of (w : world) :=
  (basePopular (dom w), popularRatesTable (dom w), lastUpdatedDiv (dom w)).

(** What the page has sent to the provider, and the chart it shows. *)
Definition traffic_of (w : world) :=
  (requests (env w), historyRequests (env w), rateChart (vars w)).

(** What the converter shows: the result field and the rate line. *)
Definition display_of (w : world) :=
  (resultInput (dom w), fromCurrencyCode (dom w), toCurrencyCode (dom w),
   exchangeRateSpan (dom w)).

(** The rate line names the selected source. *)
Definition base_shown (w : world) : Prop :=
  Dom.value (fromCurrencySelect (dom w)) = fromCurrencyCode (dom w).

(** Whatever [m] does, [Q] holds when it is over. *)
Definition ensures (Q : world -> Prop) {A} (m : M A) : Prop :=
  forall w, Q (snd (m w)).

(** [Q] holds whenever [m] returns normally. *)
Definition establishes (Q : world -> Prop) {A} (m : M A) : Prop :=
  forall w a w', m w = (Ok a, w') -> Q w'.

Definition is_rates_settled (e : App.event) : bool :=
  match e with App.RatesSettled _ _ => true | _ => false end.

(** The user types an amount or picks a target. *)
Definition edits_amount_or_target (e : App.event) : bool :=
  match e with
  | App.AmountTyped _ | App.ToSelected _ => true
  | _ => false
  end.

(** The user acts on one of the controls [setupEventListeners] serves. *)
Definition is_converter_input (e : App.event) : bool :=
  match e with
  | App.FromSelected _ | App.ToSelected _ | App.AmountTyped _
  | App.SwapClicked => true
  | _ => false
  end.

(** Ascending order of code units, neighbour by neighbour. *)
Fixpoint ascending (l : list string) : bool :=
  match l with
  | a :: (b :: _) as r => String.leb a b && ascending r
  | _ => true
  end.

(** The target [fetchExchangeRates] preselects on the first load. *)
Definition default_target (baseCurrency : string) : string :=
  if String.eqb baseCurrency "EUR" then "USD" else "EUR".

(** A drop-down as [populateCurrencyDropdowns] leaves it. *)
Definition filled (codes : list string) : Dom.select :=
  fold_left (fun s c => Dom.appendOption c s) codes Dom.empty.

(** The world once [fetchExchangeRates] has stored the table of a
    response and, on the first load, has filled the drop-downs and set
    their defaults: what the function has done when it calls [updateUI]. *)
Definition stored (baseCurrency : string) (rates : JS.obj JS.number)
  (date : option string) (w : world) : world :=
  let w3 :=
    set_lastUpdatedTime (Some date)
      (set_exchangeRates (Some (JS.set baseCurrency JS.one rates)) w) in
  match currencies (vars w) with
  | [] =>
      let codes := JS.sort_strings (JS.keys (JS.set baseCurrency JS.one rates)) in
      set_toCurrencySelect
        (Dom.set_value (default_target baseCurrency) (filled codes))
        (set_fromCurrencySelect (Dom.set_value baseCurrency (filled codes))
           (set_currencies codes w3))
  | _ :: _ => w3
  end.

(** What the caller of [fetchExchangeRates] runs when the function is
    over: the rest of [initApp], or the [then] and [catch] handlers of
    [convertCurrency]. *)
Definition caller_of (k : continuation) (res : result unit) : M unit :=
  match k, res with
  | InitApp, Ok _ => Script.setupEventListeners ;; Script.hideLoading
  | InitApp, Throw e =>
      console_error ("Error initializing app: " ++ e) ;;
      alert "Failed to initialize the application. Please try again later." ;;
      Script.hideLoading
  | Convert fromCurrency toCurrency amount, Ok _ =>
      try_catch (Script.performConversion fromCurrency toCurrency amount)
        (fun e =>
           console_error ("Error updating exchange rates: " ++ e) ;;
           modify (set_resultInput "Error fetching rates"))
  | Convert _ _ _, Throw e =>
      console_error ("Error updating exchange rates: " ++ e) ;;
      modify (set_resultInput "Error fetching rates")
  end.

(** The rate table a response delivers, if it does. *)
Definition delivered (resp : response rates_body) : option (JS.obj JS.number) :=
  match resp with
  | Json (RatesData (Some rates) _) => Some rates
  | _ => None
  end.

Definition init_notice : string :=
  "Failed to initialize the application. Please try again later.".

(** What [loadHistoricalRates] reads: the container, the selection and
    the clock; and the requests it adds to. *)
Definition history_inputs_of (w : world) :=
  (chartContainer (dom w), selection_of w, clock (env w), zone (env w),
   historyRequests (env w)).

(** Whether the chart container exists, and what decides whether it can
    be created. *)
Definition viewer_setup_of (w : world) :=
  (option_map (fun _ => tt) (chartContainer (dom w)),
   chartLibrary (env w), converterCard (dom w)).

(** What the chart button and the display of the container depend on. *)
Definition toggle_of (w : world) :=
  (option_map visible (chartContainer (dom w)), chartButton (dom w),
   converterCard (dom w), exchangeRateInfo (dom w)).

(** The chart button says what a click will do. *)
Definition label_agrees (w : world) : Prop :=
  match chartButton (dom w) with
  | Some label =>
      label = match chartContainer (dom w) with
              | Some p => if visible p then "Hide Chart" else "Show Chart"
              | None => "Show Chart"
              end
  | None => True
  end.

(** The page has the elements the chart attaches itself to. *)
Definition chart_anchors (w : world) : Prop :=
  converterCard (dom w) = true /\ exchangeRateInfo (dom w) = true.

Definition labelled (w : world) : Prop := chart_anchors w /\ label_agrees w.

(** The viewer cannot be set up: Chart.js or the converter card is
    missing. *)
Definition viewer_unavailable (w : world) : Prop :=
  chartContainer (dom w) = None
  /\ (chartLibrary (env w) = false \/ converterCard (dom w) = false).

(** How a request for historical rates fails, with the message of the
    exception: no connection, a status that is not a success, a body that
    is not JSON, is [null], or has no [rates]. *)
Definition history_failure (resp : response history_body) : option string :=
  match resp with
  | NetworkFailure e => Some e
  | HttpError _ => Some "Failed to fetch historical data"
  | NotJson e => Some e
  | Json HistoryNull => Some "Cannot read properties of null (reading 'rates')"
  | Json (HistoryData None) => Some "Cannot convert undefined or null to object"
  | Json (HistoryData (Some _)) => None
  end.

(** The codes of the rows of the popular rates table that are not popular
    currencies. *)
Definition extra_rows (table : list row) : list row :=
  filter (fun r => negb (JS.includes Script.popularCurrencies (row_code r))) table.

(** ** The rest of the page *)

(** The scroll listener has run at each of the positions, in order. *)
Definition scrolled_through (positions : list JS.number)
  (navbar : option (list string)) : option (list string) :=
  fold_left (fun nb y => Navbar.onScroll y nb) positions navbar.

(** A visit of the page: it loads with the text [markup] in the developer
    name and [storage] in [localStorage], which has room; the name is then
    clicked once for each of the [answers]. *)
Definition visit (markup : string) (storage : JS.obj string)
  (answers : list (option string)) : Developer.state :=
  fold_left (fun st a => Developer.onClick a st) answers
    (Developer.onLoad
       {| Developer.developerName := Some markup;
          Developer.localStorage := storage;
          Developer.storageFull := false |}).

(** A text of white space only. *)
Definition blank (s : string) : bool :=
  match JS.trim_start s with EmptyString => true | _ => false end.

(** The page shows the name a reload would show, and the storage has
    room. *)
Definition name_settled (markup : string) (st : Developer.state) : Prop :=
  Developer.storageFull st = false
  /\ Developer.developerName
       (Developer.onLoad
          {| Developer.developerName := Some markup;
             Developer.localStorage := Developer.localStorage st;
             Developer.storageFull := false |})
     = Developer.developerName st.



(** ** More concrete pages *)

Module Pages.

(** The page once its scripts have started: the first request is
    pending. *)
Definition opened : world :=
  App.dispatch App.DOMContentLoaded
    (App.initial Examples.noon_2024_03_10 Examples.utc "1" "USD" "EUR").

Definition delivery (rates : JS.obj JS.number) : response rates_body :=
  Json (RatesData (Some rates) (Some "2024-03-08")).

(** The rates the provider lists for the base EUR, with a currency the
    first response did not list. *)
Definition eur_rates : JS.obj JS.number :=
  [("CHF", JS.parseFloat "0.9612"); ("JPY", JS.parseFloat "163.15");
   ("USD", JS.parseFloat "1.087")].

(** The loaded page with the chart displayed. *)
Definition charted : world :=
  App.dispatch App.ChartButtonClicked (Examples.loaded "0.92" "100").

(** The page of a browser that could not load Chart.js. *)
Definition without_library : world :=
  set_chartLibrary false
    (App.initial Examples.noon_2024_03_10 Examples.utc "1" "USD" "EUR").

Definition navbar_classes : list string := ["navbar"; "navbar-expand-lg"; "fixed-top"].

(** The copy button with its clipboard icon, on a host without the
    Clipboard API. *)
Definition copy_button : Clipboard.state :=
  {| Clipboard.page := Examples.loaded "0.92" "100";
     Clipboard.copyButton := "<i class=bi-clipboard></i>";
     Clipboard.clipboardAPI := false;
     Clipboard.copyCommand := true;
     Clipboard.clipboard := None;
     Clipboard.written := [];
     Clipboard.timers := [];
     Clipboard.errors := [] |}.

End Pages.

(* ================================================================== *)
(** * Facts about the runtime and the scripts *)
(* ================================================================== *)

(** ** Numbers and their texts *)

Module NumberFacts.
Import JS.

(** The guard of [convertCurrency] lets exactly the Numbers above zero
    through. *)
Lemma guard_is_not_positive (a : number) :
  isNaN a || leb a pzero = negb (ltb pzero a).
Proof.
  destruct a as [s | s | | s m e]; try destruct s; reflexivity.
Qed.

Lemma positive_truthy (a : number) : ltb pzero a = true -> truthy a = true.
Proof.
  destruct a as [s | s | | s m e]; try destruct s; cbv; congruence.
Qed.

Lemma digit_char_is_digit (n : Z) : is_digit (digit_char n) = true.
Proof.
  unfold digit_char.
  assert (H : (Z.to_nat (n mod 10) < 10)%nat)
    by (pose proof (Z.mod_pos_bound n 10); lia).
  generalize dependent (Z.to_nat (n mod 10)). intros k H.
  do 10 (destruct k as [| k]; [reflexivity |]). lia.
Qed.

Lemma digits_fuel_all_digits fuel : forall n acc,
  all_digits acc = true -> all_digits (digits_fuel fuel n acc) = true.
Proof.
  induction fuel as [| k IH]; intros n acc H; simpl; [exact H |].
  assert (H' : all_digits (String (digit_char n) acc) = true)
    by (cbn [all_digits]; rewrite digit_char_is_digit; exact H).
  destruct (n / 10 =? 0); [exact H' | apply IH, H'].
Qed.

Lemma digits_fuel_nonempty fuel : forall n acc,
  acc <> "" -> digits_fuel fuel n acc <> "".
Proof.
  induction fuel as [| k IH]; intros n acc H; simpl; [exact H |].
  destruct (n / 10 =? 0); [discriminate | apply IH; discriminate].
Qed.

Lemma decimal_all_digits n : all_digits (decimal n) = true.
Proof. apply digits_fuel_all_digits. reflexivity. Qed.

Lemma decimal_nonempty n : decimal n <> "".
Proof.
  unfold decimal. simpl. destruct (n / 10 =? 0); [discriminate |].
  apply digits_fuel_nonempty. discriminate.
Qed.









Lemma decimal_head n : exists c r, decimal n = String c r /\ is_digit c = true.
Proof.
  pose proof (decimal_all_digits n) as Hd. pose proof (decimal_nonempty n) as Hn.
  destruct (decimal n) as [| c r]; [congruence |].
  cbn [all_digits] in Hd. apply andb_prop in Hd as [Hc _]. eauto.
Qed.

Lemma numeric_head_digit c r rest :
  is_digit c = true -> numeric_head (String c r ++ rest) = true.
Proof. intros H. cbn [append numeric_head]. rewrite H. reflexivity. Qed.

Lemma toString_finite_head m e :
  numeric_head (toString (S754_finite false m e)) = true.
Proof.
  unfold toString. destruct (fraction m e) as [num den].
  destruct (shortest_digits _ _ _ _ _ _) as [s n].
  destruct (decimal_head s) as (c & r & -> & Hc).
  cbn ["++" numeric_head]. 
  repeat match goal with
         | |- context [if ?b then _ else _] => destruct b eqn:?
         end;
    try (cbn [append numeric_head]; rewrite Hc; reflexivity);
    try reflexivity.
  - apply andb_prop in Heqb0 as [Hn _]. apply Z.ltb_lt in Hn.
    destruct (Z.to_nat n) as [| k] eqn:Hk; [lia |].
    cbn [substring append numeric_head]. rewrite Hc. reflexivity.
  - cbn [substring append numeric_head]. rewrite Hc. reflexivity.
Qed.

(** Whatever [toFixed] returns starts with a digit, a minus sign, or the
    first letter of [NaN] or [Infinity]. *)
Lemma toFixed_head (f : nat) (x : number) : numeric_head (toFixed f x) = true.
Proof.
  destruct x as [s | s | | s m e].
  - unfold toFixed, fixed_text.
    destruct (decimal_head 0) as (c & r & E0 & Hc).
    destruct (decimal_head (0 / 10 ^ Z.of_nat f)) as (c' & r' & E1 & Hc').
    destruct f; [rewrite E0 | rewrite E1];
      cbn [append numeric_head]; rewrite ?Hc, ?Hc'; reflexivity.
  - destruct s; reflexivity.
  - reflexivity.
  - unfold toFixed. destruct (fraction m e) as [num den] eqn:Hfr.
    destruct s; [reflexivity |]. cbn ["++"].
    destruct (magnitude_below _ _).
    + unfold fixed_text.
      destruct f.
      * destruct (decimal_head (round_half_up num den 0)) as (c & r & -> & Hc).
        cbn [numeric_head]. rewrite Hc. reflexivity.
      * destruct (decimal_head (round_half_up num den (S f) / 10 ^ Z.of_nat (S f)))
          as (c & r & -> & Hc).
        apply numeric_head_digit, Hc.
    + apply toString_finite_head.
Qed.

Lemma toFixed_not_sentinel (f : nat) (x : number) (s : string) :
  numeric_head s = false -> toFixed f x <> s.
Proof. intros H E. rewrite <- E, toFixed_head in H. discriminate. Qed.

End NumberFacts.
Import NumberFacts.

(** The functions of the runtime stay folded while the scripts are
    unfolded. *)
Arguments JS.parseFloat : simpl never.
Arguments JS.toFixed : simpl never.
Arguments JS.mul : simpl never.
Arguments JS.leb : simpl never.
Arguments JS.ltb : simpl never.
Arguments JS.isNaN : simpl never.
Arguments JS.truthy : simpl never.
Arguments JS.iso_date : simpl never.
Arguments JS.iso_time : simpl never.
Arguments JS.setDate : simpl never.
Arguments JS.getDate : simpl never.
Arguments Chart.lookbackStart : simpl never.
Arguments JS.keys : simpl never.
Arguments JS.sort_strings : simpl never.

(** ** What a statement leaves alone *)

Section Keeps.
Context {X : Type}.
Variable proj : world -> X.

Lemma keeps_ret {A} (a : A) : keeps proj (ret a).
Proof. intro w. reflexivity. Qed.

Lemma keeps_throw {A} (e : string) : keeps proj (@throw A e).
Proof. intro w. reflexivity. Qed.

Lemma keeps_read : keeps proj read.
Proof. intro w. reflexivity. Qed.

Lemma keeps_modify (f : world -> world) :
  (forall w, proj (f w) = proj w) -> keeps proj (modify f).
Proof. intros H w. apply H. Qed.

Lemma keeps_bind {A B} (m : M A) (f : A -> M B) :
  keeps proj m -> (forall a, keeps proj (f a)) -> keeps proj (bind m f).
Proof.
  intros Hm Hf w. unfold bind. specialize (Hm w).
  destruct (m w) as [[a | e] w']; simpl in *.
  - rewrite Hf. exact Hm.
  - exact Hm.
Qed.

Lemma keeps_try_catch {A} (m : M A) (h : string -> M A) :
  keeps proj m -> (forall e, keeps proj (h e)) -> keeps proj (try_catch m h).
Proof.
  intros Hm Hh w. unfold try_catch. specialize (Hm w).
  destruct (m w) as [[a | e] w']; simpl in *.
  - exact Hm.
  - rewrite Hh. exact Hm.
Qed.

Lemma keeps_forEach {A} (f : A -> M unit) (l : list A) :
  (forall a, keeps proj (f a)) -> keeps proj (forEach f l).
Proof.
  intros Hf. induction l as [| x r IH]; simpl.
  - apply keeps_ret.
  - apply keeps_bind; [apply Hf | intros _; exact IH].
Qed.

Lemma keeps_exec {A} (m : M A) (w : world) :
  keeps proj m -> proj (exec m w) = proj w.
Proof. intros H. apply H. Qed.
End Keeps.

(** Breaks a statement down along its structure; what is left are the
    writes, which must not touch the part in question. *)
Ltac keeps_step :=
  match goal with
  | |- keeps _ (bind _ _) => apply keeps_bind; [| intro]
  | |- keeps _ (try_catch _ _) => apply keeps_try_catch; [| intro]
  | |- keeps _ (forEach _ _) => apply keeps_forEach; intro
  | |- keeps _ (ret _) => apply keeps_ret
  | |- keeps _ (throw _) => apply keeps_throw
  | |- keeps _ read => apply keeps_read
  | |- keeps _ (modify _) => apply keeps_modify; intro
  | |- keeps _ (match ?x with _ => _ end) => destruct x
  | |- keeps _ (if ?x then _ else _) => destruct x
  | |- keeps _ (let _ := _ in _) => cbv zeta
  end.

(** The named parts of the world, unfolded before a write is compared
    with them. *)
Create HintDb parts.

Ltac keeps_tac :=
  repeat keeps_step;
  try match goal with
      | |- _ = _ => try reflexivity;
                    autounfold with parts;
                    repeat match goal with
                           | |- context [match ?x with _ => _ end] =>
                               destruct x eqn:?
                           end;
                    repeat match goal with
                           | H : ?l = _ |- context [?l] => rewrite H
                           end;
                    reflexivity
      end.

Create HintDb listeners.
#[export] Hint Unfold
  Chart.showChartLoading Chart.showChartError Chart.formatDate
  Chart.loadHistoricalRates Chart.displayChart Chart.loadHistoricalRates_resume
  Chart.toggleChart Chart.updateChart Chart.timeRangeChanged Chart.retry
  Chart.createChartContainer Chart.addChartButton Chart.initChartFeature
  Script.showLoading Script.hideLoading Script.fetchExchangeRates
  Script.appendCurrencyOption Script.populateCurrencyDropdowns
  Script.performConversion
  Script.convertCurrency Script.appendPopularRow Script.updatePopularRates Script.updateUI
  Script.swapCurrencies Script.fetchExchangeRates_resume
  Script.setupEventListeners Script.initApp Script.onDOMContentLoaded
  alert console_error console_warn : listeners.

Ltac keeps_auto := autounfold with listeners; keeps_tac.

(** ** Statements that return *)

Section Returns.
Lemma returns_ret {A} (a : A) : returns (ret a).
Proof. intro w. eexists _, _. reflexivity. Qed.

Lemma returns_read : returns read.
Proof. intro w. eexists _, _. reflexivity. Qed.

Lemma returns_modify f : returns (modify f).
Proof. intro w. eexists _, _. reflexivity. Qed.

Lemma returns_bind {A B} (m : M A) (f : A -> M B) :
  returns m -> (forall a, returns (f a)) -> returns (bind m f).
Proof.
  intros Hm Hf w. unfold bind. destruct (Hm w) as (a & w' & ->). apply Hf.
Qed.

Lemma returns_try_catch {A} (m : M A) (h : string -> M A) :
  (forall e, returns (h e)) -> returns (try_catch m h).
Proof.
  intros Hh w. unfold try_catch. destruct (m w) as [[a | e] w'].
  - eexists _, _. reflexivity.
  - apply Hh.
Qed.

Lemma returns_forEach {A} (f : A -> M unit) (l : list A) :
  (forall a, returns (f a)) -> returns (forEach f l).
Proof.
  intros Hf. induction l as [| x r IH]; cbn [forEach].
  - apply returns_ret.
  - apply returns_bind; [apply Hf | intros _; exact IH].
Qed.
End Returns.

(** A statement that returns normally from every world where [I] holds,
    into a world where [I] holds. *)
Section Through.
Variable I : world -> Prop.

Lemma through_bind {A B} (m : M A) (f : A -> M B) :
  through I m -> (forall a, through I (f a)) -> through I (bind m f).
Proof.
  intros Hm Hf w Hw. unfold bind.
  destruct (Hm w Hw) as (a & w' & -> & Hw'). apply (Hf a w' Hw').
Qed.

Lemma through_read_bind {B} (f : world -> M B) :
  (forall w, I w -> exists b w', f w w = (Ok b, w') /\ I w') ->
  through I (bind read f).
Proof. intros H w Hw. apply (H w Hw). Qed.
End Through.

Lemma through_keeps {X} (proj : world -> X) (x : X) {A} (m : M A) :
  returns m -> keeps proj m -> through (fun w => proj w = x) m.
Proof.
  intros Hr Hk w Hw. destruct (Hr w) as (a & w' & E).
  exists a, w'. split; [exact E |].
  specialize (Hk w). rewrite E in Hk. cbn [snd] in Hk. congruence.
Qed.

Lemma try_catch_returned {A} (m : M A) h w a w' :
  m w = (Ok a, w') -> try_catch m h w = (Ok a, w').
Proof. intros E. unfold try_catch. rewrite E. reflexivity. Qed.

Lemma bind_modify {B} (f : world -> world) (k : unit -> M B) w :
  bind (modify f) k w = k tt (f w).
Proof. reflexivity. Qed.

Ltac returns_step :=
  match goal with
  | |- returns (bind _ _) => apply returns_bind; [| intro]
  | |- returns (try_catch _ _) => apply returns_try_catch; intro
  | |- returns (forEach _ _) => apply returns_forEach; intro
  | |- returns (ret _) => apply returns_ret
  | |- returns read => apply returns_read
  | |- returns (modify _) => apply returns_modify
  | |- returns (match ?x with _ => _ end) => destruct x
  | |- returns (if ?x then _ else _) => destruct x
  | |- returns (let _ := _ in _) => cbv zeta
  end.

Ltac returns_auto := autounfold with listeners; repeat returns_step.

Lemma loadHistoricalRates_returns f t d : returns (Chart.loadHistoricalRates f t d).
Proof. returns_auto. Qed.

Lemma updateChart_returns : returns Chart.updateChart.
Proof.
  unfold Chart.updateChart. repeat returns_step; apply loadHistoricalRates_returns.
Qed.

(** ** Statements that preserve an invariant *)

Section Preserved.
Variable I : world -> Prop.

Lemma preserved_ret {A} (a : A) : preserved I (ret a).
Proof. intros w H. exact H. Qed.

Lemma preserved_throw {A} (e : string) : preserved I (@throw A e).
Proof. intros w H. exact H. Qed.

Lemma preserved_read : preserved I read.
Proof. intros w H. exact H. Qed.

Lemma preserved_bind {A B} (m : M A) (f : A -> M B) :
  preserved I m -> (forall a, preserved I (f a)) -> preserved I (bind m f).
Proof.
  intros Hm Hf w Hw. unfold bind. specialize (Hm w Hw).
  destruct (m w) as [[a | e] w']; cbn [snd] in *; [apply Hf, Hm | exact Hm].
Qed.

Lemma preserved_try_catch {A} (m : M A) (h : string -> M A) :
  preserved I m -> (forall e, preserved I (h e)) -> preserved I (try_catch m h).
Proof.
  intros Hm Hh w Hw. unfold try_catch. specialize (Hm w Hw).
  destruct (m w) as [[a | e] w']; cbn [snd] in *; [exact Hm | apply Hh, Hm].
Qed.
End Preserved.

Lemma preserved_keeps {X} (proj : world -> X) (P : X -> Prop) {A} (m : M A) :
  keeps proj m -> preserved (fun w => P (proj w)) m.
Proof. intros Hk w Hw. rewrite Hk. exact Hw. Qed.

Lemma convertCurrency_keeps_snapshot : keeps snapshot_of Script.convertCurrency.
Proof. keeps_auto. Qed.

Lemma swapCurrencies_keeps_snapshot : keeps snapshot_of Script.swapCurrencies.
Proof. keeps_auto. Qed.

Lemma convertCurrency_keeps_selection : keeps selection_of Script.convertCurrency.
Proof. keeps_auto. Qed.

(** ** The converter *)

Module ConverterFacts.
Import Script.

Lemma convertCurrency_invalid (w : world) :
  JS.ltb JS.pzero (JS.parseFloat (amountInput (dom w))) = false ->
  convertCurrency w = (Ok tt, set_resultInput "Invalid amount" w).
Proof.
  intros H. unfold convertCurrency, bind, read.
  rewrite guard_is_not_positive, H. reflexivity.
Qed.

Lemma convertCurrency_same_base (w : world) :
  JS.ltb JS.pzero (JS.parseFloat (amountInput (dom w))) = true ->
  Dom.value (fromCurrencySelect (dom w)) = fromCurrencyCode (dom w) ->
  convertCurrency w =
  performConversion (Dom.value (fromCurrencySelect (dom w)))
                    (Dom.value (toCurrencySelect (dom w)))
                    (JS.parseFloat (amountInput (dom w))) w.
Proof.
  intros H E. unfold convertCurrency, bind, read.
  rewrite guard_is_not_positive, H. cbn [negb].
  destruct (String.eqb_spec (Dom.value (fromCurrencySelect (dom w)))
                            (fromCurrencyCode (dom w)));
    [reflexivity | contradiction].
Qed.

Lemma performConversion_rate (w : world) f t a rates rate :
  exchangeRates (vars w) = Some rates ->
  JS.get t rates = Some rate -> JS.truthy rate = true ->
  performConversion f t a w =
  (Ok tt,
   set_exchangeRateSpan (JS.toFixed 6 rate)
     (set_toCurrencyCode t
        (set_fromCurrencyCode f
           (set_resultInput (JS.toFixed 4 (JS.mul a rate)) w)))).
Proof.
  intros Hr Hg Ht. unfold performConversion, bind, read.
  rewrite Hr, Hg, Ht. reflexivity.
Qed.

Lemma performConversion_unavailable (w : world) f t a rates :
  exchangeRates (vars w) = Some rates ->
  match JS.get t rates with
  | Some rate => JS.truthy rate = false
  | None => True
  end ->
  performConversion f t a w = (Ok tt, set_resultInput "Rate not available" w).
Proof.
  intros Hr Hg. unfold performConversion, bind, read. rewrite Hr.
  destruct (JS.get t rates) as [rate |]; [rewrite Hg |]; reflexivity.
Qed.

Lemma fetchExchangeRates_run (base : string) (k : continuation) (w : world) :
  fetchExchangeRates base k w
  = (Ok tt,
     set_requests
       (requests (env w)
        ++ [{| req_url := API_BASE_URL ++ "?from=" ++ base;
               req_base := base; req_then := k |}])%list
       (set_loadingOverlay true w)).
Proof. reflexivity. Qed.

Lemma convertCurrency_other_base (w : world) :
  JS.ltb JS.pzero (JS.parseFloat (amountInput (dom w))) = true ->
  Dom.value (fromCurrencySelect (dom w)) <> fromCurrencyCode (dom w) ->
  convertCurrency w =
  fetchExchangeRates (Dom.value (fromCurrencySelect (dom w)))
    (Convert (Dom.value (fromCurrencySelect (dom w)))
             (Dom.value (toCurrencySelect (dom w)))
             (JS.parseFloat (amountInput (dom w)))) w.
Proof.
  intros H E. unfold convertCurrency, bind, read.
  rewrite guard_is_not_positive, H. cbn [negb].
  destruct (String.eqb_spec (Dom.value (fromCurrencySelect (dom w)))
                            (fromCurrencyCode (dom w)));
    [contradiction | reflexivity].
Qed.

Lemma performConversion_returns (w : world) f t a rates :
  exchangeRates (vars w) = Some rates ->
  exists w', performConversion f t a w = (Ok tt, w').
Proof.
  intros Hr. destruct (JS.get t rates) as [rate |] eqn:Hg.
  - destruct (JS.truthy rate) eqn:Ht.
    + rewrite (performConversion_rate w f t a rates rate Hr Hg Ht). eauto.
    + rewrite (performConversion_unavailable w f t a rates Hr);
        [eauto | rewrite Hg; exact Ht].
  - rewrite (performConversion_unavailable w f t a rates Hr);
      [eauto | rewrite Hg; exact I].
Qed.

Lemma convertCurrency_returns (w : world) rates :
  exchangeRates (vars w) = Some rates ->
  exists w', convertCurrency w = (Ok tt, w').
Proof.
  intros Hr.
  destruct (JS.ltb JS.pzero (JS.parseFloat (amountInput (dom w)))) eqn:Ha.
  - destruct (String.eqb_spec (Dom.value (fromCurrencySelect (dom w)))
                              (fromCurrencyCode (dom w))) as [E | E].
    + rewrite (convertCurrency_same_base w Ha E).
      apply (performConversion_returns w _ _ _ rates Hr).
    + rewrite (convertCurrency_other_base w Ha E), fetchExchangeRates_run.
      eauto.
  - rewrite (convertCurrency_invalid w Ha). eauto.
Qed.

End ConverterFacts.
Import ConverterFacts.

(** ** The popular rates table *)

Module PopularFacts.
Import Script.

Lemma forEach_rows rates amount codes : forall (w : world) (table : list row),
  exchangeRates (vars w) = Some rates ->
  forEach (appendPopularRow amount) codes (set_popularRatesTable table w)
  = (Ok tt,
     set_popularRatesTable (table ++ rows_for rates amount codes)%list w).
Proof.
  induction codes as [| code r IH]; intros w table Hr; cbn [forEach rows_for flat_map].
  - rewrite app_nil_r. reflexivity.
  - unfold bind at 1. unfold appendPopularRow at 1. unfold bind, read.
    cbn [vars set_popularRatesTable upd_dom]. rewrite Hr.
    destruct (JS.get code rates) as [rate |].
    + destruct (JS.truthy rate); cbn [negb].
      * unfold modify.
        change (set_popularRatesTable ?t (set_popularRatesTable ?u w))
          with (set_popularRatesTable t w).
        cbn [popularRatesTable dom set_popularRatesTable upd_dom].
        rewrite (IH w _ Hr), <- app_assoc. reflexivity.
      * unfold ret. apply (IH w table Hr).
    + unfold ret. apply (IH w table Hr).
Qed.

(** What [updatePopularRates] leaves behind when there is a rate table. *)
Lemma updatePopularRates_table (w : world) (rates : JS.obj JS.number) :
  exchangeRates (vars w) = Some rates ->
  let base := Dom.value (fromCurrencySelect (dom w)) in
  updatePopularRates w
  = (Ok tt,
     set_popularRatesTable
       (rows_for rates (popularAmount (amountInput (dom w)))
          (firstn 10 (currenciesToShow base (currencies (vars w)))))
       (set_basePopular base w)).
Proof.
  intros Hr base. unfold updatePopularRates, bind, read, modify.
  rewrite (forEach_rows rates _ _ (set_basePopular base w) [] Hr).
  reflexivity.
Qed.

Lemma rows_for_length rates amount codes :
  (List.length (rows_for rates amount codes) <= List.length codes)%nat.
Proof.
  induction codes as [| c r IH]; cbn [rows_for flat_map List.length]; [lia |].
  fold (rows_for rates amount r). rewrite length_app.
  destruct (JS.get c rates) as [rate |]; [destruct (JS.truthy rate) |];
    cbn [List.length]; lia.
Qed.

Lemma rows_for_In rates amount codes (r : row) :
  In r (rows_for rates amount codes) ->
  exists code rate,
    In code codes /\ JS.get code rates = Some rate /\ JS.truthy rate = true
    /\ r = popularRow code amount rate.
Proof.
  unfold rows_for. rewrite in_flat_map. intros (code & Hin & Hr).
  destruct (JS.get code rates) as [rate |] eqn:Hg; [| contradiction].
  destruct (JS.truthy rate) eqn:Ht; [| contradiction].
  destruct Hr as [<- | []]. eauto 6.
Qed.

Lemma In_firstn {A} (x : A) n : forall l, In x (firstn n l) -> In x l.
Proof.
  induction n as [| n IH]; intros [| y l]; cbn [firstn In]; try tauto.
  intros [H | H]; [left; exact H | right; apply IH, H].
Qed.

Lemma includes_In l x : JS.includes l x = true <-> In x l.
Proof.
  unfold JS.includes. rewrite existsb_exists. split.
  - intros (y & Hy & E). apply String.eqb_eq in E. subst. exact Hy.
  - intros H. exists x. split; [exact H | apply String.eqb_refl].
Qed.

Lemma currenciesToShow_split base known :
  currenciesToShow base known
  = (filter (fun curr => negb (String.eqb curr base)) popularCurrencies
     ++ backfill base known)%list.
Proof.
  unfold currenciesToShow, backfill.
  destruct (JS.includes popularCurrencies base);
    [reflexivity | rewrite app_nil_r; reflexivity].
Qed.

Lemma backfill_spec base known :
  (List.length (backfill base known) <= 3)%nat
  /\ (forall c, In c (backfill base known) ->
        In base popularCurrencies /\ In c known /\ ~ In c popularCurrencies).
Proof.
  unfold backfill. destruct (JS.includes popularCurrencies base) eqn:Hb.
  - split; [apply firstn_le_length |].
    intros c Hc. apply In_firstn in Hc. apply filter_In in Hc as [Hk Hp].
    apply includes_In in Hb. repeat split; [exact Hb | exact Hk |].
    intros Hin. apply includes_In in Hin. rewrite Hin in Hp. discriminate.
  - split; [cbn; lia | intros c []].
Qed.

Lemma currenciesToShow_excludes_base base known :
  ~ In base (currenciesToShow base known).
Proof.
  rewrite currenciesToShow_split, in_app_iff. intros [H | H].
  - apply filter_In in H as [_ H]. rewrite String.eqb_refl in H. discriminate.
  - apply backfill_spec in H as (Hb & _ & Hn). contradiction.
Qed.

End PopularFacts.
Import PopularFacts.

Lemma popularAmount_cases (text : string) :
  let a := JS.parseFloat text in
  (JS.truthy a = false -> Script.popularAmount text = JS.one)
  /\ (JS.truthy a = true -> Script.popularAmount text = a).
Proof.
  unfold Script.popularAmount. cbv zeta.
  destruct (JS.truthy (JS.parseFloat text)); split; congruence.
Qed.

Lemma get_In {A} (k : string) (v : A) (o : JS.obj A) :
  JS.get k o = Some v -> In (k, v) o.
Proof.
  induction o as [| [k' v'] r IH]; cbn [JS.get In]; [discriminate |].
  destruct (String.eqb_spec k k') as [-> | _].
  - intros [= ->]. left. reflexivity.
  - intros H. right. apply IH, H.
Qed.

Lemma nonnegative_get rates :
  nonnegative rates = true ->
  forall code rate, JS.get code rates = Some rate -> JS.leb JS.pzero rate = true.
Proof.
  intros H code rate Hg. unfold nonnegative in H.
  rewrite forallb_forall in H. exact (H _ (get_In _ _ _ Hg)).
Qed.

Lemma truthy_spec (a : JS.number) :
  JS.truthy a = negb (JS.isNaN a || JS.eqb a JS.pzero).
Proof. destruct a as [s | s | | s m e]; try destruct s; reflexivity. Qed.

Lemma negative_truthy (a : JS.number) : JS.ltb a JS.pzero = true -> JS.truthy a = true.
Proof.
  destruct a as [s | s | | s m e]; try destruct s; cbv; congruence.
Qed.

(** ** The rate store *)

Module StoreFacts.
Import Script.

Lemma get_set_same {A} k (v : A) o : JS.get k (JS.set k v o) = Some v.
Proof.
  induction o as [| [k' v'] r IH]; cbn [JS.set JS.get].
  - rewrite String.eqb_refl. reflexivity.
  - destruct (String.eqb k k') eqn:E; cbn [JS.get]; rewrite E;
      [reflexivity | exact IH].
Qed.

Lemma get_set_other {A} k k' (v : A) o :
  k' <> k -> JS.get k' (JS.set k v o) = JS.get k' o.
Proof.
  intros Hne. induction o as [| [k0 v0] r IH]; cbn [JS.set JS.get].
  - destruct (String.eqb_spec k' k); [contradiction | reflexivity].
  - destruct (String.eqb_spec k k0) as [-> | Hk]; cbn [JS.get].
    + destruct (String.eqb_spec k' k0); [contradiction | reflexivity].
    + destruct (String.eqb k' k0); [reflexivity | exact IH].
Qed.

(** [populateCurrencyDropdowns] and the defaults of the first load. *)
Lemma populate_returns : returns populateCurrencyDropdowns.
Proof.
  returns_auto.
Qed.

(** A successful response: the base's own rate is set to 1, the other
    rates are the provider's, and the call returns. *)
Lemma convertCurrency_through rates d :
  through (fun w => snapshot_of w = (Some rates, d)) convertCurrency.
Proof.
  intros w Hw.
  assert (Hr : exchangeRates (vars w) = Some rates)
    by (unfold snapshot_of in Hw; congruence).
  destruct (convertCurrency_returns w rates Hr) as (w' & E).
  exists tt, w'. split; [exact E |].
  pose proof (convertCurrency_keeps_snapshot w) as Hk.
  rewrite E in Hk. cbn [snd] in Hk. congruence.
Qed.

Lemma updateChart_keeps_snapshot : keeps snapshot_of Chart.updateChart.
Proof. keeps_auto. Qed.

Lemma updateUI_through rates d :
  through (fun w => snapshot_of w = (Some rates, d)) updateUI.
Proof.
  unfold updateUI.
  apply through_bind; [apply through_keeps; [apply returns_read | apply keeps_read] |].
  intros w0. apply through_bind.
  { apply through_keeps; [repeat returns_step | keeps_auto]. }
  intros _. apply through_bind; [apply convertCurrency_through |].
  intros _. destruct (currencyChart (env w0)).
  - apply through_keeps; [apply updateChart_returns | apply updateChart_keeps_snapshot].
  - apply through_keeps; [apply returns_ret | apply keeps_ret].
Qed.

Lemma resume_success w base r date :
  exists w',
    fetchExchangeRates_resume base (Json (RatesData (Some r) date)) w
    = (Ok tt, w')
    /\ snapshot_of w' = (Some (JS.set base JS.one r), Some date).
Proof.
  unfold fetchExchangeRates_resume.
  set (body := bind (modify (set_exchangeRates (Some r))) _).
  enough (H : exists w', body w = (Ok tt, w')
                /\ snapshot_of w' = (Some (JS.set base JS.one r), Some date)).
  { destruct H as (w' & E & Hs). exists w'. split; [| exact Hs].
    apply try_catch_returned, E. }
  unfold body. rewrite !bind_modify.
  set (w3 := set_lastUpdatedTime _ _).
  assert (H3 : snapshot_of w3 = (Some (JS.set base JS.one r), Some date))
    by reflexivity.
  generalize dependent w3. intros w3 H3.
  set (I := fun w => snapshot_of w = (Some (JS.set base JS.one r), Some date)).
  match goal with
  | |- exists w', ?m w3 = _ /\ _ => assert (T : through I m)
  end.
  2: { destruct (T w3 H3) as ([] & w' & E & Hw'). exists w'. split; [exact E | exact Hw']. }
  apply through_bind; [apply through_keeps; [apply returns_read | apply keeps_read] |].
  intros w0. apply through_bind.
  { apply through_keeps.
    - destruct (currencies (vars w0)); repeat returns_step. apply populate_returns.
    - destruct (currencies (vars w0)); keeps_auto. }
  intros _. apply through_bind; [apply updateUI_through |].
  intros _. apply through_bind.
  { intros w1 H1. unfold I, snapshot_of in H1.
    assert (Hr : exchangeRates (vars w1) = Some (JS.set base JS.one r)) by congruence.
    rewrite (updatePopularRates_table w1 _ Hr). eexists _, _. split; [reflexivity |].
    exact H1. }
  intros _. apply through_keeps; [repeat returns_step | keeps_auto].
  unfold hideLoading. returns_step.
Qed.

Lemma resume_failure w base resp e :
  fails_early resp = Some e ->
  fetchExchangeRates_resume base resp w
  = (Throw e,
     set_alerts (alerts (env w) ++ [failure_notice e])%list
       (set_loadingOverlay false
          (set_console
             (console (env w)
              ++ [("Error fetching exchange rates: " ++ e)%string])%list
             w))).
Proof.
  intros H. destruct resp as [m | st | m | [| rates date]]; cbn in H;
    inversion H; subst; reflexivity.
Qed.

(** A body without [rates]: the rate table is overwritten with
    [undefined] before the exception that the missing table causes. *)
Lemma resume_missing_rates w base date :
  fetchExchangeRates_resume base (Json (RatesData None date)) w
  = (Throw "Cannot set properties of undefined",
     set_alerts
       (alerts (env w) ++ [failure_notice "Cannot set properties of undefined"])%list
       (set_loadingOverlay false
          (set_console
             (console (env w)
              ++ ["Error fetching exchange rates: Cannot set properties of undefined"])%list
             (set_exchangeRates None w)))).
Proof. reflexivity. Qed.

(** What runs after the body of [fetchExchangeRates] keeps the snapshot. *)
Lemma settle_snapshot (req : request) resp w :
  snapshot_of (exec (settle req resp) w)
  = snapshot_of (exec (fetchExchangeRates_resume (req_base req) resp) w).
Proof.
  unfold exec, settle.
  destruct (fetchExchangeRates_resume (req_base req) resp w) as [res w1].
  cbn [snd].
  destruct (req_then req) as [| f t a], res as [[] | e].
  - reflexivity.
  - reflexivity.
  - assert (K : keeps snapshot_of
                  (try_catch (performConversion f t a)
                     (fun e => console_error ("Error updating exchange rates: " ++ e) ;;
                               modify (set_resultInput "Error fetching rates"))))
      by keeps_auto.
    apply K.
  - reflexivity.
Qed.

End StoreFacts.
Import StoreFacts.

(** ** Events and the snapshot *)

Module EventFacts.
Import App.

Lemma swapCurrencies_keeps_rates : keeps snapshot_of Script.swapCurrencies.
Proof. keeps_auto. Qed.

Lemma toggleChart_keeps_snapshot : keeps snapshot_of Chart.toggleChart.
Proof. keeps_auto. Qed.

Lemma timeRangeChanged_keeps_snapshot l : keeps snapshot_of (Chart.timeRangeChanged l).
Proof. keeps_auto. Qed.

Lemma retry_keeps_snapshot : keeps snapshot_of Chart.retry.
Proof. keeps_auto. Qed.

Lemma history_resume_keeps_snapshot r resp :
  keeps snapshot_of (Chart.loadHistoricalRates_resume r resp).
Proof. keeps_auto. Qed.

Lemma onDOMContentLoaded_keeps_snapshot : keeps snapshot_of Script.onDOMContentLoaded.
Proof. keeps_auto. Qed.

Lemma failed_settle_keeps_snapshot (req : request) resp e (w : world) :
  fails_early resp = Some e ->
  snapshot_of (exec (Script.settle req resp) w) = snapshot_of w.
Proof.
  intros H. rewrite settle_snapshot. unfold exec.
  rewrite (resume_failure w (req_base req) resp e H). reflexivity.
Qed.

(** Only a rates request that settles with a parsed body changes the
    snapshot. *)
Lemma dispatch_keeps_snapshot (e : event) (w : world) :
  delivers_rates e = false -> snapshot_of (dispatch e w) = snapshot_of w.
Proof.
  intros He. destruct e; unfold dispatch, when_listening, run.
  - apply onDOMContentLoaded_keeps_snapshot.
  - destruct (JS.includes _ _); [| reflexivity].
    destruct (listeners _); [| reflexivity].
    rewrite (keeps_exec _ _ _ convertCurrency_keeps_snapshot). reflexivity.
  - destruct (JS.includes _ _); [| reflexivity].
    destruct (listeners _); [| reflexivity].
    rewrite (keeps_exec _ _ _ convertCurrency_keeps_snapshot). reflexivity.
  - destruct (listeners _); [| reflexivity].
    rewrite (keeps_exec _ _ _ convertCurrency_keeps_snapshot). reflexivity.
  - destruct (listeners _); [| reflexivity]. apply swapCurrencies_keeps_rates.
  - destruct (chartButton _); [| reflexivity]. apply toggleChart_keeps_snapshot.
  - destruct (panel_visible w); [| reflexivity].
    apply timeRangeChanged_keeps_snapshot.
  - destruct (chartContainer _) as [p |]; [| reflexivity].
    destruct (visible p), (errorBanner p); try reflexivity.
    apply retry_keeps_snapshot.
  - destruct resp as [m | st | m | [| rates date]]; try discriminate;
      eapply failed_settle_keeps_snapshot; reflexivity.
  - apply history_resume_keeps_snapshot.
  - reflexivity.
Qed.

Lemma steps_keep_snapshot (es : list event) : forall w,
  forallb (fun e => negb (delivers_rates e)) es = true ->
  snapshot_of (steps es w) = snapshot_of w.
Proof.
  induction es as [| e r IH]; intros w H; cbn [steps fold_left]; [reflexivity |].
  cbn [forallb] in H. apply andb_prop in H as [He Hr].
  fold (steps r (dispatch e w)). rewrite (IH _ Hr).
  apply dispatch_keeps_snapshot. apply negb_true_iff, He.
Qed.

End EventFacts.
Import EventFacts.

(** A request that fails before the rate table is touched (no connection,
    a status that is not a success, a body that is not JSON or is [null]):
    the exception reaches the caller, one notice is shown, and the rate
    table and its date are the ones held before. *)
Lemma failed_fetch_keeps_snapshot (w : world) (req : request)
  (resp : response rates_body) (e : string) :
  fails_early resp = Some e ->
  let w' := App.dispatch (App.RatesSettled req resp) w in
  fst (Script.fetchExchangeRates_resume (req_base req) resp w) = Throw e
  /\ snapshot_of w' = snapshot_of w
  /\ In (failure_notice e) (alerts (env w')).
Proof.
  intros H w'. subst w'. unfold App.dispatch, App.run.
  pose proof (resume_failure w (req_base req) resp e H) as E.
  rewrite E. cbn [fst]. split; [reflexivity |].
  split; [apply (failed_settle_keeps_snapshot req resp e w H) |].
  unfold exec, Script.settle. rewrite E.
  destruct (req_then req); cbn; rewrite ?in_app_iff; cbn; tauto.
Qed.

(** ** The drop-downs *)

Module SelectFacts.
Import Dom.

Lemma index_of_nth v l i : index_of v l = Some i -> nth i l "" = v.
Proof.
  revert i. induction l as [| x r IH]; intros i; cbn [index_of]; [discriminate |].
  destruct (String.eqb_spec v x) as [-> | _].
  - intros [= <-]. reflexivity.
  - destruct (index_of v r) as [j |]; [| discriminate].
    intros [= <-]. cbn [nth]. apply IH. reflexivity.
Qed.

Lemma index_of_None v l : index_of v l = None -> ~ In v l.
Proof.
  induction l as [| x r IH]; cbn [index_of In]; [tauto |].
  destruct (String.eqb_spec v x) as [-> | Hne]; [discriminate |].
  destruct (index_of v r); [discriminate |].
  intros _ [E | Hin]; [congruence | exact (IH eq_refl Hin)].
Qed.

(** The value of a select is one of its options, or empty. *)
Lemma value_cases (s : select) : value s = "" \/ In (value s) (options s).
Proof.
  unfold value. destruct (selectedIndex s) as [i |]; [| left; reflexivity].
  destruct (Nat.lt_ge_cases i (List.length (options s))) as [H | H].
  - right. apply nth_In, H.
  - left. apply nth_overflow, H.
Qed.

(** Assigning to [value] a text the select offers, or the empty text,
    makes it the value. *)
Lemma value_set_value (v : string) (s : select) :
  v = "" \/ In v (options s) -> value (set_value v s) = v.
Proof.
  intros H. unfold value, set_value. cbn [selectedIndex options].
  destruct (index_of v (options s)) as [i |] eqn:E.
  - apply index_of_nth, E.
  - destruct H as [-> | H]; [reflexivity |].
    exfalso. exact (index_of_None _ _ E H).
Qed.

End SelectFacts.
Import SelectFacts.

Lemma swapCurrencies_run (w : world) :
  exec Script.swapCurrencies w
  = exec Script.convertCurrency
      (set_toCurrencySelect
         (Dom.set_value (Dom.value (fromCurrencySelect (dom w)))
                        (toCurrencySelect (dom w)))
         (set_fromCurrencySelect
            (Dom.set_value (Dom.value (toCurrencySelect (dom w)))
                           (fromCurrencySelect (dom w))) w)).
Proof. reflexivity. Qed.

Lemma swapCurrencies_selected (w : world) :
  same_options w ->
  selected (exec Script.swapCurrencies w) = (snd (selected w), fst (selected w))
  /\ same_options (exec Script.swapCurrencies w).
Proof.
  intros Hopt. rewrite swapCurrencies_run.
  set (w2 := set_toCurrencySelect _ _).
  pose proof (keeps_exec _ _ w2 convertCurrency_keeps_selection) as Hk.
  unfold selection_of in Hk. inversion Hk as [[Hf Ht]].
  unfold selected, same_options. rewrite Hf, Ht.
  cbn [fst snd Dom.set_value Dom.options].
  split; [| exact Hopt].
  f_equal; apply value_set_value.
  - rewrite Hopt. apply value_cases.
  - rewrite <- Hopt. apply value_cases.
Qed.

Lemma appendCurrencyOption_same_options (l : list string) : forall w,
  same_options w -> same_options (exec (forEach Script.appendCurrencyOption l) w).
Proof.
  induction l as [| c r IH]; intros w H; [exact H |].
  cbn [forEach]. unfold exec, bind at 1.
  change (Script.appendCurrencyOption c w)
    with (Ok tt,
          set_toCurrencySelect
            (Dom.appendOption c (toCurrencySelect (dom w)))
            (set_fromCurrencySelect
               (Dom.appendOption c (fromCurrencySelect (dom w))) w)).
  apply IH. unfold same_options in *.
  cbn [dom fromCurrencySelect toCurrencySelect set_toCurrencySelect
       set_fromCurrencySelect upd_dom Dom.appendOption Dom.options].
  rewrite H. reflexivity.
Qed.

(** [populateCurrencyDropdowns] leaves the two drop-downs with the same
    options. *)
Lemma populate_same_options (w : world) :
  same_options (exec Script.populateCurrencyDropdowns w).
Proof.
  unfold Script.populateCurrencyDropdowns, exec.
  rewrite !bind_modify. unfold bind at 1, read at 1.
  apply appendCurrencyOption_same_options. reflexivity.
Qed.

(** ** Dates *)

Module DateFacts.
Import JS.

Lemma YearFromTime_spec (t : Z) :
  DayFromYear (YearFromTime t) <= Day t < DayFromYear (YearFromTime t + 1).
Proof.
  unfold YearFromTime. cbv zeta.
  set (d := Day t).
  set (y := 1970 + 400 * d / 146097).
  assert (Hlo : DayFromYear (y - 1) <= d).
  { unfold DayFromYear, y. Z.to_euclidean_division_equations. lia. }
  assert (Hhi : d < DayFromYear (y + 2)).
  { unfold DayFromYear, y. Z.to_euclidean_division_equations. lia. }
  destruct (Z.leb_spec (DayFromYear (y + 1)) d) as [H1 | H1].
  - replace (y + 1 + 1) with (y + 2) by lia. lia.
  - destruct (Z.leb_spec (DayFromYear y) d) as [H2 | H2].
    + lia.
    + replace (y - 1 + 1) with y by lia. lia.
Qed.

Lemma InLeapYear_range (t : Z) : 0 <= InLeapYear t <= 1.
Proof.
  unfold InLeapYear. generalize (YearFromTime t). intros y.
  unfold DayFromYear. Z.to_euclidean_division_equations. lia.
Qed.

Lemma DayWithinYear_range (t : Z) : 0 <= DayWithinYear t < 365 + InLeapYear t.
Proof.
  pose proof (YearFromTime_spec t). unfold DayWithinYear, InLeapYear. lia.
Qed.

Lemma MonthFromTime_range (t : Z) : 0 <= MonthFromTime t <= 11.
Proof.
  unfold MonthFromTime. cbv zeta.
  repeat match goal with |- context [if ?b then _ else _] => destruct b end; lia.
Qed.

Lemma DateFromTime_range (t : Z) : 1 <= DateFromTime t <= 31.
Proof.
  pose proof (DayWithinYear_range t) as Hd.
  pose proof (InLeapYear_range t) as Hl.
  unfold DateFromTime, MonthFromTime. cbv zeta.
  repeat match goal with
         | |- context [if ?a <? ?b then _ else _] =>
             destruct (Z.ltb_spec a b)
         end; cbn [month_start]; lia.
Qed.

(** Stepping back [days] days of the month on the local calendar is
    stepping back [days] day numbers. *)
Lemma MakeDay_back (t days : Z) :
  MakeDay (YearFromTime t) (MonthFromTime t) (DateFromTime t - days)
  = Day t - days.
Proof.
  unfold MakeDay, DateFromTime, DayWithinYear, InLeapYear. cbv zeta.
  generalize (month_start (MonthFromTime t)
                (DayFromYear (YearFromTime t + 1) - DayFromYear (YearFromTime t) - 365)).
  generalize (DayFromYear (YearFromTime t)). intros a b. lia.
Qed.

Lemma setDate_back (tz : timezone) (now days : Z) :
  match getDate tz (Some now) with
  | Some d => setDate tz (Some now) (d - days)
  | None => None
  end = TimeClip (window_start tz now days).
Proof.
  unfold getDate, setDate, LocalTime, UTC.
  rewrite MakeDay_back. f_equal.
  unfold window_start, offset_now, offset_back.
  assert (E : MakeDate (Day (now + utc_offset tz now) - days)
                       (TimeWithinDay (now + utc_offset tz now))
              = now + utc_offset tz now - days * msPerDay).
  { unfold MakeDate, Day, TimeWithinDay.
    pose proof (Z.div_mod (now + utc_offset tz now) msPerDay ltac:(discriminate)).
    lia. }
  rewrite E. lia.
Qed.

(** The day on which the window starts: [days] days before the UTC day of
    [now], moved by the days that the change of offset carries the time of
    day over. *)
Lemma window_start_day (tz : timezone) (now days : Z) :
  Day (window_start tz now days)
  = Day now - days
    + (TimeWithinDay now + (offset_now tz now - offset_back tz now days))
      / msPerDay.
Proof.
  unfold window_start, Day, TimeWithinDay.
  set (k := offset_now tz now - offset_back tz now days).
  pose proof (Z.div_mod now msPerDay ltac:(discriminate)) as E.
  replace (now + k - days * msPerDay)
    with (now mod msPerDay + k + (now / msPerDay - days) * msPerDay) by lia.
  rewrite Z.div_add by discriminate. lia.
Qed.

(** The dates of the years 0 to 9999 are valid time values. *)
Lemma year_range_valid (t : Z) :
  0 <= YearFromTime t <= 9999 -> Z.abs t <= 8640000000000000.
Proof.
  intros Hy. pose proof (YearFromTime_spec t) as Hs.
  set (y := YearFromTime t) in *.
  assert (Hlo : -719528 <= DayFromYear y)
    by (unfold DayFromYear; Z.to_euclidean_division_equations; lia).
  assert (Hhi : DayFromYear (y + 1) <= 2932897)
    by (unfold DayFromYear; Z.to_euclidean_division_equations; lia).
  unfold Day in Hs.
  pose proof (Z.div_mod t msPerDay ltac:(discriminate)) as E.
  pose proof (Z.mod_pos_bound t msPerDay ltac:(reflexivity)) as B.
  unfold msPerDay in *. lia.
Qed.

Lemma Day_of_day (d : Z) : Day (d * msPerDay) = d.
Proof. unfold Day. apply Z.div_mul. discriminate. Qed.

Lemma iso_date_Day (t : Z) : iso_date t = calendar_date (Day t).
Proof.
  unfold calendar_date, iso_date, DateFromTime, MonthFromTime, DayWithinYear,
    InLeapYear, YearFromTime.
  rewrite Day_of_day. reflexivity.
Qed.

Lemma no_T_app a b : no_T (a ++ b) = no_T a && no_T b.
Proof.
  induction a as [| c r IH]; cbn [append no_T]; [reflexivity |].
  rewrite IH, andb_assoc. reflexivity.
Qed.

Lemma digit_not_T n : Ascii.eqb (digit_char n) "T" = false.
Proof.
  pose proof (digit_char_is_digit n) as H.
  destruct (Ascii.eqb_spec (digit_char n) "T") as [E |]; [| reflexivity].
  rewrite E in H. discriminate.
Qed.

Lemma fixed_digits_no_T k : forall n acc,
  no_T acc = true -> no_T (fixed_digits k n acc) = true.
Proof.
  induction k as [| k IH]; intros n acc H; cbn [fixed_digits]; [exact H |].
  apply IH. cbn [no_T]. rewrite digit_not_T. exact H.
Qed.

Lemma iso_date_no_T t : no_T (iso_date t) = true.
Proof.
  unfold iso_date, two_digits. cbv zeta.
  rewrite !no_T_app, !fixed_digits_no_T by reflexivity.
  destruct ((0 <=? YearFromTime t) && (YearFromTime t <=? 9999)).
  - rewrite fixed_digits_no_T; reflexivity.
  - rewrite no_T_app, fixed_digits_no_T by reflexivity.
    destruct (YearFromTime t <? 0); reflexivity.
Qed.

Lemma before_T a rest : no_T a = true -> before "T" (a ++ String "T" rest) = a.
Proof.
  induction a as [| c r IH]; cbn [append before no_T]; [reflexivity |].
  intros H. apply andb_prop in H as [Hc Hr].
  apply negb_true_iff in Hc. rewrite Hc, IH; [reflexivity | exact Hr].
Qed.

Lemma iso_date_shape t :
  0 <= YearFromTime t <= 9999 -> is_calendar_date (iso_date t) = true.
Proof.
  intros [H0 H1]. unfold iso_date, two_digits. cbv zeta.
  apply Z.leb_le in H0, H1. rewrite H0, H1. cbn [andb fixed_digits].
  cbn [append is_calendar_date]. rewrite !digit_char_is_digit. reflexivity.
Qed.

End DateFacts.
Import DateFacts.

(** ** The viewer *)

Module ViewerFacts.
Import Chart.

Lemma dimmed_env b w : env (dimmed b w) = env w.
Proof. unfold dimmed. destruct (chartContainer (dom w)); reflexivity. Qed.

Lemma formatDate_valid (t : Z) (w : world) :
  formatDate (Some t) w = (Ok (JS.iso_date t), w).
Proof.
  unfold formatDate, JS.toISOString, ret.
  change (JS.iso_date t ++ "T" ++ JS.iso_time t)
    with (JS.iso_date t ++ String "T" (JS.iso_time t)).
  rewrite before_T; [reflexivity | apply iso_date_no_T].
Qed.

(** When the start of the look-back window is a valid date,
    [loadHistoricalRates] issues one request: from the UTC day of the start
    to the UTC day of the clock. *)
Lemma loadHistoricalRates_run (w : world) (f t : string) (days start : Z) :
  lookbackStart (zone (env w)) (clock (env w)) days = Some start ->
  loadHistoricalRates f t days w
  = (Ok tt,
     set_historyRequests
       (historyRequests (env w)
        ++ [history_request (JS.Day start) (JS.Day (clock (env w))) f t])%list
       (dimmed true w)).
Proof.
  intros Hs. unfold loadHistoricalRates, try_catch, showChartLoading.
  rewrite bind_modify. fold (dimmed true w).
  unfold bind at 1. unfold read at 1. cbv zeta.
  rewrite !dimmed_env, Hs.
  unfold bind at 1. rewrite formatDate_valid.
  unfold bind at 1. rewrite formatDate_valid.
  unfold modify. rewrite dimmed_env.
  unfold history_request. rewrite !iso_date_Day. reflexivity.
Qed.

(** The window starts at [window_start], when that is a valid time value;
    on the UTC day [days] days before the clock's when the step back keeps
    the UTC day. *)
Lemma lookbackStart_window (tz : JS.timezone) (now days : Z) :
  Z.abs (window_start tz now days) <= 8640000000000000 ->
  lookbackStart tz now days = Some (window_start tz now days).
Proof.
  intros Hvalid. unfold lookbackStart. cbv zeta.
  rewrite setDate_back.
  unfold JS.TimeClip. apply Z.leb_le in Hvalid. rewrite Hvalid. reflexivity.
Qed.

Lemma window_start_keeps_day (tz : JS.timezone) (now days : Z) :
  keeps_utc_day tz now days ->
  JS.Day (window_start tz now days) = JS.Day now - days.
Proof.
  intros H. rewrite window_start_day.
  rewrite (Z.div_small _ _ H). lia.
Qed.

(** *** What the chart shows *)

Lemma insert_by_length {A} (le : A -> A -> bool) x l :
  List.length (JS.insert_by le x l) = S (List.length l).
Proof.
  induction l as [| y r IH]; cbn [JS.insert_by List.length]; [reflexivity |].
  destruct (le x y); cbn [List.length]; [reflexivity | rewrite IH; reflexivity].
Qed.

Lemma sort_by_length {A} (le : A -> A -> bool) l :
  List.length (JS.sort_by le l) = List.length l.
Proof.
  unfold JS.sort_by. induction l as [| x r IH]; cbn [fold_right List.length];
    [reflexivity |].
  rewrite insert_by_length, IH. reflexivity.
Qed.

Lemma filter_split_length {A} (p : A -> bool) l :
  (List.length (filter p l) + List.length (filter (fun x => negb (p x)) l)
   = List.length l)%nat.
Proof.
  induction l as [| x r IH]; cbn [filter List.length]; [reflexivity |].
  destruct (p x); cbn [negb List.length]; lia.
Qed.

(** [Object.keys] lists every property once. *)
Lemma keys_length {A} (o : JS.obj A) : List.length (JS.keys o) = List.length o.
Proof.
  unfold JS.keys. cbv zeta.
  rewrite length_app, sort_by_length, filter_split_length, length_map.
  reflexivity.
Qed.

(** Without array indices among the keys, [Object.keys] is the insertion
    order. *)
Lemma keys_insertion_order {A} (o : JS.obj A) :
  forallb (fun kv => negb (JS.is_array_index (fst kv))) o = true ->
  JS.keys o = map fst o.
Proof.
  intros H. unfold JS.keys. cbv zeta.
  assert (E : forall l : list string,
             forallb (fun k => negb (JS.is_array_index k)) l = true ->
             filter JS.is_array_index l = []
             /\ filter (fun k => negb (JS.is_array_index k)) l = l).
  { induction l as [| k r IH]; cbn [forallb filter]; [split; reflexivity |].
    intros Hk. apply andb_prop in Hk as [Hk Hr]. destruct (IH Hr) as [E1 E2].
    rewrite Hk. apply negb_true_iff in Hk. rewrite Hk, E1, E2. split; reflexivity. }
  destruct (E (map fst o)) as [E1 E2].
  { rewrite forallb_forall in *. intros k Hk. apply in_map_iff in Hk as (kv & <- & Hin).
    apply H, Hin. }
  rewrite E1, E2. reflexivity.
Qed.

Lemma read_digits_rest (s : string) : forall acc cnt,
  JS.all_digits s = false -> snd (JS.read_digits s acc cnt) <> "".
Proof.
  induction s as [| c r IH]; intros acc cnt H; [discriminate |].
  cbn [JS.read_digits]. cbn [JS.all_digits] in H. unfold JS.is_digit in H.
  destruct (JS.digit_of_char c) as [d |]; [| discriminate].
  apply IH. exact H.
Qed.

(** A date text is not an array index. *)
Lemma calendar_date_not_index (s : string) :
  is_calendar_date s = true -> JS.is_array_index s = false.
Proof.
  intros H.
  assert (Hd : JS.all_digits s = false).
  { do 10 (destruct s as [| ? s]; [discriminate |]).
    destruct s; [| discriminate]. cbn [is_calendar_date] in H.
    repeat (apply andb_prop in H as [H ?]).
    cbn [JS.all_digits].
    match goal with
    | E : Ascii.eqb ?c "-" = true |- _ =>
        apply Ascii.eqb_eq in E; subst c
    end.
    change (JS.is_digit "-") with false.
    rewrite !andb_false_r, ?andb_false_l. reflexivity. }
  pose proof (read_digits_rest s 0 O Hd) as Hrest.
  unfold JS.is_array_index, JS.array_index.
  destruct (JS.read_digits s 0 0) as [[v cnt] rest]. cbn [snd] in Hrest.
  destruct cnt; [reflexivity |]. destruct rest; [congruence | reflexivity].
Qed.

Lemma get_first {A} (o : JS.obj A) :
  NoDup (map fst o) ->
  forall kv, In kv o -> JS.get (fst kv) o = Some (snd kv).
Proof.
  induction o as [| [k v] r IH]; intros Hnd kv Hin; [contradiction |].
  cbn [map fst] in Hnd. inversion Hnd as [| ? ? Hk Hr]; subst.
  cbn [JS.get]. destruct Hin as [<- | Hin].
  - cbn [fst snd]. rewrite String.eqb_refl. reflexivity.
  - destruct (String.eqb_spec (fst kv) k) as [E | _]; [| apply IH; assumption].
    exfalso. apply Hk. rewrite <- E. apply in_map, Hin.
Qed.

Lemma resume_rendered (w : world) (r : hrequest) (p : panel) rates :
  chartContainer (dom w) = Some p ->
  loadHistoricalRates_resume r (Json (HistoryData (Some rates))) w
  = (Ok tt,
     dimmed false (set_rateChart (Some (rendered rates (hreq_from r) (hreq_to r))) w)).
Proof.
  intros Hp. unfold loadHistoricalRates_resume, try_catch, displayChart.
  unfold bind at 1. unfold bind at 1. unfold read at 1. rewrite Hp.
  reflexivity.
Qed.

(** The series drawn for a response keyed by dates: a label and a value per
    point, in the order of the response. *)
Lemma rendered_dates rates f t :
  forallb (fun kv => is_calendar_date (fst kv)) rates = true ->
  NoDup (map fst rates) ->
  chart_labels (rendered rates f t) = map fst rates
  /\ chart_data (rendered rates f t) = map (fun kv => JS.get t (snd kv)) rates.
Proof.
  intros Hd Hnd. unfold rendered. cbn [chart_labels chart_data].
  assert (Hk : JS.keys rates = map fst rates).
  { apply keys_insertion_order. rewrite forallb_forall in *.
    intros kv Hin. rewrite (calendar_date_not_index _ (Hd kv Hin)). reflexivity. }
  rewrite Hk. split; [reflexivity |].
  rewrite map_map. apply map_ext_in. intros kv Hin.
  rewrite (get_first rates Hnd kv Hin). reflexivity.
Qed.

End ViewerFacts.
Import ViewerFacts.

(** ** The hidden panel *)

Module LazyFacts.
Import Chart App.

#[export] Hint Unfold viewer_of : parts.

Lemma hidden_not_visible hs w : hidden hs w -> panel_visible w = false.
Proof.
  intros [H _]. unfold panel_visible. cbn [viewer_of fst] in H.
  destruct (chartContainer (dom w)) as [p |]; [| reflexivity].
  cbn [option_map] in H. destruct (visible p); congruence.
Qed.

Lemma not_visible_hidden w :
  panel_visible w = false -> hidden (historyRequests (env w)) w.
Proof.
  intros H. split; [| reflexivity]. cbn [viewer_of fst].
  unfold panel_visible in H.
  destruct (chartContainer (dom w)); cbn [option_map]; congruence.
Qed.

(** [updateChart] does nothing while the panel is hidden. *)
Lemma updateChart_hidden hs : preserved (hidden hs) updateChart.
Proof.
  intros w Hw. pose proof (hidden_not_visible _ _ Hw) as Hv.
  unfold updateChart, bind, read. unfold panel_visible in Hv.
  destruct (chartContainer (dom w)) as [p |]; [rewrite Hv |]; exact Hw.
Qed.

Ltac viewer_kept :=
  apply (preserved_keeps viewer_of (hidden_with _)); keeps_auto.

Lemma convertCurrency_hidden hs : preserved (hidden hs) Script.convertCurrency.
Proof. viewer_kept. Qed.

Lemma updateUI_hidden hs : preserved (hidden hs) Script.updateUI.
Proof.
  unfold Script.updateUI.
  apply preserved_bind; [apply preserved_read | intros w0].
  apply preserved_bind; [viewer_kept | intros _].
  apply preserved_bind; [apply convertCurrency_hidden | intros _].
  destruct (currencyChart (env w0)); [apply updateChart_hidden | apply preserved_ret].
Qed.

Lemma resume_hidden hs base resp :
  preserved (hidden hs) (Script.fetchExchangeRates_resume base resp).
Proof.
  unfold Script.fetchExchangeRates_resume.
  apply preserved_try_catch; [| intros e; viewer_kept].
  destruct resp as [m | st | m | [| rates date]]; try apply preserved_throw.
  apply preserved_bind; [viewer_kept | intros _].
  apply preserved_bind; [viewer_kept | intros _].
  apply preserved_bind; [viewer_kept | intros _].
  apply preserved_bind; [apply preserved_read | intros w0].
  apply preserved_bind; [viewer_kept | intros _].
  apply preserved_bind; [apply updateUI_hidden | intros _].
  viewer_kept.
Qed.

Lemma settle_hidden hs req resp : preserved (hidden hs) (Script.settle req resp).
Proof.
  intros w Hw. unfold Script.settle.
  pose proof (resume_hidden hs (req_base req) resp w Hw) as H1.
  destruct (Script.fetchExchangeRates_resume (req_base req) resp w) as [res w1].
  cbn [snd] in H1.
  destruct (req_then req) as [| f t a], res as [[] | e].
  - revert w1 H1. change (preserved (hidden hs) (Script.setupEventListeners ;; Script.hideLoading)).
    viewer_kept.
  - revert w1 H1.
    change (preserved (hidden hs)
              (console_error ("Error initializing app: " ++ e) ;;
               alert "Failed to initialize the application. Please try again later." ;;
               Script.hideLoading)).
    viewer_kept.
  - revert w1 H1.
    change (preserved (hidden hs)
              (try_catch (Script.performConversion f t a)
                 (fun e => console_error ("Error updating exchange rates: " ++ e) ;;
                           modify (set_resultInput "Error fetching rates")))).
    viewer_kept.
  - revert w1 H1.
    change (preserved (hidden hs)
              (console_error ("Error updating exchange rates: " ++ e) ;;
               modify (set_resultInput "Error fetching rates"))).
    viewer_kept.
Qed.

Lemma history_resume_hidden hs r resp :
  preserved (hidden hs) (loadHistoricalRates_resume r resp).
Proof. viewer_kept. Qed.

Lemma onDOMContentLoaded_hidden hs : preserved (hidden hs) Script.onDOMContentLoaded.
Proof.
  unfold Script.onDOMContentLoaded.
  apply preserved_bind; [viewer_kept | intros _].
  apply preserved_bind; [apply preserved_read | intros w0].
  destruct (currencyChart (env w0)); [| apply preserved_ret].
  unfold initChartFeature.
  apply preserved_bind; [apply preserved_read | intros w1].
  destruct (chartLibrary (env w1)); [| viewer_kept].
  apply preserved_bind; [| intros _; viewer_kept].
  intros w [Hv Hh]. split; [| rewrite <- Hh; clear; unfold createChartContainer, modify;
                               cbn [snd]; destruct (converterCard (dom w)); reflexivity].
  unfold createChartContainer, modify. cbn [snd viewer_of fst] in *.
  destruct (converterCard (dom w)); [cbn; discriminate | exact Hv].
Qed.

(** While the panel is hidden, nothing but a click on the chart button
    issues a request for historical rates or shows the panel. *)
Lemma dispatch_hidden hs (e : event) (w : world) :
  is_chart_click e = false -> hidden hs w -> hidden hs (dispatch e w).
Proof.
  intros He Hw. destruct e; try discriminate; unfold dispatch, when_listening, run.
  - apply onDOMContentLoaded_hidden, Hw.
  - destruct (JS.includes _ _); [| exact Hw].
    destruct (listeners _); [| exact Hw]. apply convertCurrency_hidden, Hw.
  - destruct (JS.includes _ _); [| exact Hw].
    destruct (listeners _); [| exact Hw]. apply convertCurrency_hidden, Hw.
  - destruct (listeners _); [| exact Hw]. apply convertCurrency_hidden, Hw.
  - destruct (listeners _); [| exact Hw].
    revert w Hw. change (preserved (hidden hs) Script.swapCurrencies). viewer_kept.
  - rewrite (hidden_not_visible _ _ Hw). exact Hw.
  - pose proof (hidden_not_visible _ _ Hw) as Hv. unfold panel_visible in Hv.
    destruct (chartContainer (dom w)) as [p |]; [| exact Hw].
    rewrite Hv. exact Hw.
  - apply settle_hidden, Hw.
  - apply history_resume_hidden, Hw.
  - exact Hw.
Qed.




End LazyFacts.
Import LazyFacts.

(* ================================================================== *)
(** * The claims of the specification *)
(* ================================================================== *)

(** ** C1 *)




(** ** C2 *)

(** C2: when a rates request for [base] settles with a body that has a
    rate table, the body of [fetchExchangeRates] returns normally and the
    table in force holds exactly 1 for [base] and the provider's rate for
    every other code; and that is the table every listener finds,
    whatever happens on the page (user actions, the chart, requests that
    fail), until a rates request settles with a parsed body again. *)
Theorem base_rate_is_one (w : world) (req : request)
  (rates : JS.obj JS.number) (date : option string) (es : list App.event) :
  forallb (fun e => negb (delivers_rates e)) es = true ->
  let resp := Json (RatesData (Some rates) date) in
  let w' := App.steps es (App.dispatch (App.RatesSettled req resp) w) in
  fst (Script.fetchExchangeRates_resume (req_base req) resp w) = Ok tt
  /\ exists table,
       exchangeRates (vars w') = Some table
       /\ JS.get (req_base req) table = Some JS.one
       /\ (forall code, code <> req_base req ->
             JS.get code table = JS.get code rates).
Proof.
  intros Hes resp w'.
  destruct (resume_success w (req_base req) rates date) as (w1 & E & Hs).
  fold resp in E. split; [rewrite E; reflexivity |].
  exists (JS.set (req_base req) JS.one rates).
  assert (H : snapshot_of w' = (Some (JS.set (req_base req) JS.one rates), Some date)).
  { unfold w'. rewrite (steps_keep_snapshot es _ Hes).
    unfold App.dispatch, App.run. rewrite settle_snapshot.
    unfold exec. rewrite E. exact Hs. }
  unfold snapshot_of in H. split; [congruence |].
  split; [apply get_set_same | intros code Hc; apply get_set_other, Hc].
Qed.

Lemma base_rate_is_one_witness :
  let w := App.steps [App.DOMContentLoaded]
             (App.initial Examples.noon_2024_03_10 Examples.utc "1" "USD" "EUR") in
  let resp := Json (RatesData (Some (Examples.usd_rates "0.92")) (Some "2024-03-08")) in
  exists table,
    exchangeRates
      (vars (App.steps [App.AmountTyped "100"; App.SwapClicked]
               (App.dispatch (App.RatesSettled Examples.first_request resp) w)))
    = Some table
    /\ JS.get "USD" table = Some JS.one.
Proof.
  cbv zeta.
  destruct (base_rate_is_one
              (App.steps [App.DOMContentLoaded]
                 (App.initial Examples.noon_2024_03_10 Examples.utc "1" "USD" "EUR"))
              Examples.first_request (Examples.usd_rates "0.92")
              (Some "2024-03-08") [App.AmountTyped "100"; App.SwapClicked]
              eq_refl) as (_ & table & H1 & H2 & _).
  exists table. split; [exact H1 | exact H2].
Defined.

(** ** C3 *)

(** C3, as amended: an amount that does not parse to a Number above zero
    (not numeric, zero, negative, or minus infinity) makes [convertCurrency]
    show the invalid-amount text, return normally, and issue no request and
    no dialog. *)
Theorem invalid_amount_sentinel (w : world) :
  JS.ltb JS.pzero (JS.parseFloat (amountInput (dom w))) = false ->
  let w' := exec Script.convertCurrency w in
  fst (Script.convertCurrency w) = Ok tt
  /\ resultInput (dom w') = "Invalid amount"
  /\ requests (env w') = requests (env w)
  /\ historyRequests (env w') = historyRequests (env w)
  /\ alerts (env w') = alerts (env w).
Proof.
  intros H. unfold exec. rewrite (convertCurrency_invalid w H).
  repeat split.
Qed.

Lemma invalid_amount_sentinel_witness :
  let w := Examples.loaded "0.92" "-5" in
  resultInput (dom (exec Script.convertCurrency w)) = "Invalid amount"
  /\ requests (env (exec Script.convertCurrency w)) = requests (env w).
Proof.
  pose proof (invalid_amount_sentinel (Examples.loaded "0.92" "-5")) as H.
  destruct H as (_ & H1 & H2 & _); [vm_compute; reflexivity |].
  split; [exact H1 | exact H2].
Defined.

(** The amount text "Infinity" is not a finite number, and it is converted:
    the result field shows "Infinity", not the invalid-amount text. *)
Lemma infinite_amount_counterexample :
  let w := Examples.loaded "0.92" "Infinity" in
  JS.isFinite (JS.parseFloat (amountInput (dom w))) = false
  /\ resultInput (dom (exec Script.convertCurrency w)) = "Infinity"
  /\ resultInput (dom (exec Script.convertCurrency w)) <> "Invalid amount".
Proof. vm_compute. repeat split. discriminate. Qed.

(** ** C4 *)

(** C4, as amended: with a positive amount and the selected source being
    the base the rate line shows, [convertCurrency] shows the
    rate-unavailable text exactly when the table has no rate for the target
    or holds a rate that is zero or NaN. *)
Theorem rate_unavailable_iff (w : world) (rates : JS.obj JS.number) :
  let a := JS.parseFloat (amountInput (dom w)) in
  let from := Dom.value (fromCurrencySelect (dom w)) in
  let to := Dom.value (toCurrencySelect (dom w)) in
  JS.ltb JS.pzero a = true ->
  from = fromCurrencyCode (dom w) ->
  exchangeRates (vars w) = Some rates ->
  (resultInput (dom (exec Script.convertCurrency w)) = "Rate not available"
   <-> match JS.get to rates with
       | Some rate => JS.truthy rate = false
       | None => True
       end).
Proof.
  intros a from to Ha Hfrom Hr. unfold exec.
  rewrite (convertCurrency_same_base w Ha Hfrom). fold a from to.
  split.
  - intros Hres. destruct (JS.get to rates) as [rate |] eqn:Hg; [| exact I].
    destruct (JS.truthy rate) eqn:Ht; [| reflexivity].
    rewrite (performConversion_rate w _ _ _ rates rate Hr Hg Ht) in Hres.
    cbn in Hres. exfalso.
    apply (toFixed_not_sentinel 4 (JS.mul a rate) "Rate not available");
      [reflexivity | exact Hres].
  - intros Hg.
    rewrite (performConversion_unavailable w _ _ _ rates Hr Hg). reflexivity.
Qed.

Lemma rate_unavailable_iff_witness :
  resultInput (dom (exec Script.convertCurrency Examples.gbp_selected))
  = "Rate not available".
Proof.
  apply (proj2 (rate_unavailable_iff Examples.gbp_selected
                  (JS.set "USD" JS.one (Examples.usd_rates "0.92"))
                  ltac:(vm_compute; reflexivity)
                  ltac:(vm_compute; reflexivity)
                  ltac:(vm_compute; reflexivity))).
  vm_compute. exact I.
Defined.

(** The target EUR is present in the table, with rate 0, and the
    rate-unavailable text is shown all the same. *)
Lemma zero_rate_counterexample :
  let w := Examples.loaded "0" "100" in
  JS.ltb JS.pzero (JS.parseFloat (amountInput (dom w))) = true
  /\ Dom.value (toCurrencySelect (dom w)) = "EUR"
  /\ (exists rates rate,
        exchangeRates (vars w) = Some rates /\ JS.get "EUR" rates = Some rate)
  /\ resultInput (dom (exec Script.convertCurrency w)) = "Rate not available".
Proof.
  repeat split; try (vm_compute; reflexivity).
  do 2 eexists. split; vm_compute; reflexivity.
Qed.

(** ** C5 *)

(** C5, the failing case: the page holds the USD table and has asked for
    the EUR rates; the answer is a JSON body without [rates]. The exception
    is propagated and a notice is shown, but the rate table held before is
    gone ([exchangeRates] is [undefined]) and the next conversion throws. *)
Theorem missing_rates_loses_snapshot :
  requests (env Outage.before)
  = [Examples.first_request; Outage.eur_request]
  /\ exchangeRates (vars Outage.before)
     = Some (JS.set "USD" JS.one (Examples.usd_rates "0.92"))
  /\ fst (Script.fetchExchangeRates_resume "EUR" (Json (RatesData None None))
            Outage.before)
     = Throw "Cannot set properties of undefined"
  /\ alerts (env Outage.after)
     = [failure_notice "Cannot set properties of undefined"]
  /\ exchangeRates (vars Outage.after) = None
  /\ fst (Script.performConversion "EUR" "EUR" (JS.parseFloat "100") Outage.after)
     = Throw "Cannot read properties of undefined".
Proof. vm_compute. repeat split. Qed.

(** ** C6 *)

(** C6: when the two drop-downs offer the same options, as
    [populateCurrencyDropdowns] leaves them, [swapCurrencies] exchanges the
    selected source and target, and a second [swapCurrencies] restores the
    selection. *)
Theorem swap_twice_restores_selection (w : world) :
  same_options w ->
  selected (exec Script.swapCurrencies w) = (snd (selected w), fst (selected w))
  /\ selected (exec Script.swapCurrencies (exec Script.swapCurrencies w))
     = selected w.
Proof.
  intros H. destruct (swapCurrencies_selected w H) as [H1 Ho].
  split; [exact H1 |].
  destruct (swapCurrencies_selected _ Ho) as [H2 _].
  rewrite H2, H1. cbn [fst snd]. destruct (selected w). reflexivity.
Qed.

Lemma swap_twice_restores_selection_witness :
  let w := Examples.loaded "0.92" "100" in
  selected w = ("USD", "EUR")
  /\ selected (exec Script.swapCurrencies w) = ("EUR", "USD")
  /\ selected (exec Script.swapCurrencies (exec Script.swapCurrencies w))
     = ("USD", "EUR").
Proof.
  cbv zeta.
  destruct (swap_twice_restores_selection (Examples.loaded "0.92" "100"))
    as [H1 H2]; [vm_compute; reflexivity |].
  assert (E : selected (Examples.loaded "0.92" "100") = ("USD", "EUR"))
    by (vm_compute; reflexivity).
  rewrite H1, H2, E. repeat split.
Defined.

(** ** C7 *)

(** C7: with a rate table in place, [updatePopularRates] returns normally
    and builds at most 10 rows; no row is for the selected base; every row
    shows, through [toFixed(6)], the rate the table holds for its code, a
    rate that is never zero or NaN and is non-negative when the table's rates
    are; the codes walked through are the popular ones without the base,
    followed by at most 3 known codes that are not popular, and those only
    when the base is popular. *)
Theorem popular_rates_rows (w : world) (rates : JS.obj JS.number) :
  exchangeRates (vars w) = Some rates ->
  (forall code rate, JS.get code rates = Some rate ->
                     JS.leb JS.pzero rate = true) ->
  let base := Dom.value (fromCurrencySelect (dom w)) in
  let known := currencies (vars w) in
  let table := popularRatesTable (dom (exec Script.updatePopularRates w)) in
  fst (Script.updatePopularRates w) = Ok tt
  /\ (List.length table <= 10)%nat
  /\ (forall r, In r table ->
        row_code r <> base
        /\ In (row_code r) (Script.currenciesToShow base known)
        /\ exists rate,
             JS.get (row_code r) rates = Some rate
             /\ JS.truthy rate = true
             /\ JS.leb JS.pzero rate = true
             /\ row_rate r = JS.toFixed 6 rate)
  /\ Script.currenciesToShow base known
     = (filter (fun curr => negb (String.eqb curr base)) Script.popularCurrencies
        ++ backfill base known)%list
  /\ (List.length (backfill base known) <= 3)%nat
  /\ (forall c, In c (backfill base known) ->
        In base Script.popularCurrencies /\ In c known
        /\ ~ In c Script.popularCurrencies).
Proof.
  intros Hr Hpos base known table. subst table. unfold exec.
  rewrite (updatePopularRates_table w rates Hr). fold base known.
  cbn [fst snd popularRatesTable dom set_popularRatesTable upd_dom].
  split; [reflexivity |]. split.
  { etransitivity; [apply rows_for_length | apply firstn_le_length]. }
  split.
  { intros r Hin. apply rows_for_In in Hin as (code & rate & Hc & Hg & Ht & ->).
    cbn [row_code row_rate Script.popularRow]. apply In_firstn in Hc.
    split; [| split; [exact Hc | eauto 6]].
    intros ->. exact (currenciesToShow_excludes_base _ _ Hc). }
  split; [apply currenciesToShow_split |].
  apply backfill_spec.
Qed.

Lemma popular_rates_rows_witness :
  let w := Examples.page Examples.wide_rates "100" in
  (List.length (popularRatesTable (dom (exec Script.updatePopularRates w))) <= 10)%nat
  /\ map row_code (popularRatesTable (dom (exec Script.updatePopularRates w)))
     = ["EUR"; "GBP"; "JPY"; "BGN"]
  /\ backfill "USD" (currencies (vars w)) = ["BGN"; "CZK"; "DKK"].
Proof.
  pose proof (popular_rates_rows (Examples.page Examples.wide_rates "100")
                (JS.set "USD" JS.one Examples.wide_rates)) as H.
  cbv zeta in H.
  destruct H as (_ & H & _).
  - vm_compute. reflexivity.
  - apply nonnegative_get. vm_compute. reflexivity.
  - split; [exact H | split; vm_compute; reflexivity].
Defined.

(** ** C8 *)

(** C8, as amended: when the step back keeps the UTC day (the change of
    the zone's offset between the start of the window and now, added to the
    time of the UTC day, stays within the day; so whenever the offset is
    the same at both ends), with dates in the years 0 to 9999,
    [loadHistoricalRates] issues one request whose range ends on the UTC
    calendar day of the clock and starts [days] days before it, both
    written YYYY-MM-DD, for the one target currency; and when the request
    settles with a table keyed by [n] distinct dates, the chart holds [n]
    labels and [n] values, in the order of the response. *)
Theorem history_request_and_series (w : world) (f t : string) (days : Z)
  (p : panel) (rates : JS.obj (JS.obj JS.number)) :
  let now := clock (env w) in
  let today := JS.Day now in
  let start := window_start (zone (env w)) now days in
  keeps_utc_day (zone (env w)) now days ->
  0 <= JS.YearFromTime now <= 9999 ->
  0 <= JS.YearFromTime start <= 9999 ->
  chartContainer (dom w) = Some p ->
  forallb (fun kv => is_calendar_date (fst kv)) rates = true ->
  NoDup (map fst rates) ->
  let r := history_request (today - days) today f t in
  let w1 := exec (Chart.loadHistoricalRates f t days) w in
  let w2 := exec (Chart.loadHistoricalRates_resume r (Json (HistoryData (Some rates)))) w1 in
  historyRequests (env w1) = (historyRequests (env w) ++ [r])%list
  /\ hreq_url r
     = "https://api.frankfurter.app/" ++ calendar_date (today - days) ++ ".."
       ++ calendar_date today ++ "?from=" ++ f ++ "&to=" ++ t
  /\ is_calendar_date (calendar_date today) = true
  /\ is_calendar_date (calendar_date (today - days)) = true
  /\ exists ch,
       rateChart (vars w2) = Some ch
       /\ chart_labels ch = map fst rates
       /\ chart_data ch = map (fun kv => JS.get t (snd kv)) rates
       /\ List.length (chart_data ch) = List.length rates.
Proof.
  intros now today start Hkeep Hy1 Hy2 Hp Hd Hnd r w1 w2.
  pose proof (lookbackStart_window (zone (env w)) now days
                (year_range_valid _ Hy2)) as Hs.
  pose proof (window_start_keeps_day (zone (env w)) now days Hkeep) as Hday.
  fold start in Hs, Hday. fold today in Hday.
  assert (E1 : Chart.loadHistoricalRates f t days w
               = (Ok tt,
                  set_historyRequests (historyRequests (env w) ++ [r])%list
                    (dimmed true w))).
  { rewrite (loadHistoricalRates_run w f t days start Hs). rewrite Hday.
    reflexivity. }
  assert (Hp1 : exists p1, chartContainer (dom w1) = Some p1).
  { unfold w1, exec. rewrite E1. cbn [snd]. unfold dimmed. rewrite Hp.
    eexists. reflexivity. }
  destruct Hp1 as (p1 & Hp1).
  split; [unfold w1, exec; rewrite E1; reflexivity |].
  split; [reflexivity |].
  split; [unfold today; rewrite <- iso_date_Day; apply iso_date_shape, Hy1 |].
  split; [rewrite <- Hday, <- iso_date_Day; apply iso_date_shape, Hy2 |].
  exists (rendered rates f t).
  destruct (rendered_dates rates f t Hd Hnd) as [Hl Hv].
  split.
  { unfold w2, exec. rewrite (resume_rendered w1 r p1 rates Hp1). cbn [snd].
    unfold dimmed. cbn [dom set_rateChart upd_vars]. rewrite Hp1. reflexivity. }
  split; [exact Hl |]. split; [exact Hv |].
  rewrite Hv, length_map. reflexivity.
Qed.

(** On 2024-03-10 at noon UTC, 7 days: 2024-03-03..2024-03-10, and six
    points drawn. And at noon UTC on 2024-04-02 in Berlin, where summer
    time started on 2024-03-31: 2024-03-26..2024-04-02. *)
Lemma history_request_and_series_witness :
  (let w := Examples.loaded "0.92" "100" in
   let w1 := exec (Chart.loadHistoricalRates "USD" "EUR" 7) w in
   map hreq_url (historyRequests (env w1))
   = ["https://api.frankfurter.app/2024-03-03..2024-03-10?from=USD&to=EUR"]
   /\ exists ch,
        rateChart
          (vars (exec (Chart.loadHistoricalRates_resume
                         (history_request 19785 19792 "USD" "EUR")
                         (Json (HistoryData (Some Scenario.six_points)))) w1))
        = Some ch
        /\ List.length (chart_data ch) = 6%nat)
  /\
  (let w := Scenario.at_midday in
   offset_now (zone (env w)) (clock (env w)) = 7200000
   /\ offset_back (zone (env w)) (clock (env w)) 7 = 3600000
   /\ map hreq_url
        (historyRequests (env (exec (Chart.loadHistoricalRates "USD" "EUR" 7) w)))
      = ["https://api.frankfurter.app/2024-03-26..2024-04-02?from=USD&to=EUR"]).
Proof.
  cbv zeta. split.
  - destruct (history_request_and_series (Examples.loaded "0.92" "100")
                "USD" "EUR" 7
                {| visible := false; timeRangeSelect := Days30;
                   canvasDimmed := false; errorBanner := None |}
                Scenario.six_points)
      as (H1 & _ & _ & _ & ch & H2 & _ & _ & H3).
    + vm_compute. split; [discriminate | reflexivity].
    + vm_compute. split; discriminate.
    + vm_compute. split; discriminate.
    + vm_compute. reflexivity.
    + vm_compute. reflexivity.
    + repeat constructor; cbn; intuition discriminate.
    + split.
      * rewrite H1. vm_compute. reflexivity.
      * exists ch. split; [exact H2 | exact H3].
  - destruct (history_request_and_series Scenario.at_midday "USD" "EUR" 7
                {| visible := false; timeRangeSelect := Days30;
                   canvasDimmed := false; errorBanner := None |}
                [])
      as (H1 & _).
    + vm_compute. split; [discriminate | reflexivity].
    + vm_compute. split; discriminate.
    + vm_compute. split; discriminate.
    + vm_compute. reflexivity.
    + reflexivity.
    + constructor.
    + split; [vm_compute; reflexivity |]. split; [vm_compute; reflexivity |].
      rewrite H1. vm_compute. reflexivity.
Defined.

(** On 2024-04-03 at 01:30 in Berlin, a 7 day look-back asks for
    2024-03-27..2024-04-02: the range ends on the UTC day, which is not the
    local day, and starts 6 days before it. And a response that lists
    2024-03-05 before 2024-03-04 is drawn in that order. *)
Lemma history_range_counterexample :
  (let w := Scenario.in_berlin in
   map hreq_url (historyRequests (env (exec (Chart.loadHistoricalRates "USD" "EUR" 7) w)))
   = ["https://api.frankfurter.app/2024-03-27..2024-04-02?from=USD&to=EUR"]
   /\ JS.iso_date (JS.LocalTime (zone (env w)) (clock (env w))) = "2024-04-03"
   /\ JS.iso_date (clock (env w)) = "2024-04-02"
   /\ calendar_date (JS.Day (clock (env w)) - 7) = "2024-03-26")
  /\
  (let w := Examples.loaded "0.92" "100" in
   option_map chart_labels
     (rateChart
        (vars (exec (Chart.loadHistoricalRates_resume
                       (history_request 19785 19792 "USD" "EUR")
                       (Json (HistoryData (Some Scenario.out_of_order)))) w)))
   = Some ["2024-03-05"; "2024-03-04"]).
Proof. vm_compute. repeat split. Qed.

(** ** C9 *)



(** ** C10 *)

(** C10: the amount of the popular rates table is 1 when the amount field
    parses to NaN or to zero, and the parsed amount itself when that is
    negative; it is never NaN or zero; and every row's converted amount is
    that amount times the row's rate, shown through [toFixed(4)]. *)
Theorem popular_amount_fallback (w : world) (rates : JS.obj JS.number) :
  exchangeRates (vars w) = Some rates ->
  let a := JS.parseFloat (amountInput (dom w)) in
  let used := Script.popularAmount (amountInput (dom w)) in
  (JS.isNaN a = true \/ JS.eqb a JS.pzero = true -> used = JS.one)
  /\ (JS.ltb a JS.pzero = true -> used = a)
  /\ JS.isNaN used = false
  /\ JS.eqb used JS.pzero = false
  /\ (forall r, In r (popularRatesTable (dom (exec Script.updatePopularRates w))) ->
        exists rate,
          JS.get (row_code r) rates = Some rate
          /\ row_amount r = JS.toFixed 4 (JS.mul used rate)).
Proof.
  intros Hr a used.
  assert (Hused : JS.truthy used = true).
  { unfold used, Script.popularAmount. fold a.
    destruct (JS.truthy a) eqn:Ht; [exact Ht | reflexivity]. }
  destruct (popularAmount_cases (amountInput (dom w))) as [Hf Ht].
  fold a used in Hf, Ht.
  split.
  { intros H. apply Hf. rewrite truthy_spec.
    destruct H as [-> | ->]; [| rewrite orb_true_r]; reflexivity. }
  split; [intros H; apply Ht, negative_truthy, H |].
  rewrite truthy_spec in Hused. apply negb_true_iff, orb_false_iff in Hused.
  split; [apply Hused |]. split; [apply Hused |].
  intros r Hin. unfold exec in Hin.
  rewrite (updatePopularRates_table w rates Hr) in Hin.
  cbn [snd popularRatesTable dom set_popularRatesTable upd_dom] in Hin.
  apply rows_for_In in Hin as (code & rate & _ & Hg & _ & ->).
  exists rate. split; [exact Hg | reflexivity].
Qed.

Lemma popular_amount_fallback_witness :
  let w := Examples.loaded "0.92" "abc" in
  Script.popularAmount (amountInput (dom w)) = JS.one
  /\ map row_amount (popularRatesTable (dom (exec Script.updatePopularRates w)))
     = ["0.9200"; "150.1000"].
Proof.
  pose proof (popular_amount_fallback (Examples.loaded "0.92" "abc")
                (JS.set "USD" JS.one (Examples.usd_rates "0.92"))
                ltac:(vm_compute; reflexivity)) as H.
  cbv zeta in H. destruct H as (H & _).
  split; [apply H; left; vm_compute; reflexivity | vm_compute; reflexivity].
Defined.

(* ================================================================== *)
(** * Further properties of the scripts *)
(* ================================================================== *)

(** ** What holds when a statement is over *)

Section Ensures.
Variable Q : world -> Prop.

Lemma establishes_bind {A B} (m : M A) (f : A -> M B) :
  (forall a, establishes Q (f a)) -> establishes Q (bind m f).
Proof.
  intros Hf w b w'. unfold bind.
  destruct (m w) as [[a | e] w1]; [apply Hf | discriminate].
Qed.

Lemma establishes_modify (f : world -> world) :
  (forall w, Q (f w)) -> establishes Q (modify f).
Proof. intros H w a w' [= _ <-]. apply H. Qed.

Lemma ensures_try_catch {A} (m : M A) (h : string -> M A) :
  establishes Q m -> (forall e, ensures Q (h e)) -> ensures Q (try_catch m h).
Proof.
  intros Hm Hh w. unfold try_catch. specialize (Hm w).
  destruct (m w) as [[a | e] w1]; cbn [snd]; [apply (Hm a), eq_refl | apply Hh].
Qed.
End Ensures.

#[export] Hint Unfold catalogue_of refreshed_of traffic_of display_of : parts.

Lemma resume_hides_overlay base resp :
  ensures (fun w => loadingOverlay (dom w) = false)
          (Script.fetchExchangeRates_resume base resp).
Proof.
  unfold Script.fetchExchangeRates_resume.
  apply ensures_try_catch; [| intros e w; reflexivity].
  destruct resp as [m | st | m | [| rates date]];
    try (intros w a w'; discriminate).
  repeat (apply establishes_bind; intros ?).
  apply establishes_modify. intros w. reflexivity.
Qed.

(** X1: when a request for current rates settles, whatever the response and
    whoever awaited it, the loading overlay is hidden afterwards: also when
    the page has other requests pending. *)
Theorem settled_request_hides_overlay (req : request)
  (resp : response rates_body) (w : world) :
  loadingOverlay (dom (App.dispatch (App.RatesSettled req resp) w)) = false.
Proof.
  unfold App.dispatch, App.run, exec, Script.settle.
  pose proof (resume_hides_overlay (req_base req) resp w) as H.
  destruct (Script.fetchExchangeRates_resume (req_base req) resp w) as [res w1].
  cbn [snd] in H.
  destruct (req_then req) as [| f t a], res as [[] | e].
  - reflexivity.
  - reflexivity.
  - assert (K : keeps (fun w => loadingOverlay (dom w))
                  (try_catch (Script.performConversion f t a)
                     (fun e => console_error ("Error updating exchange rates: " ++ e) ;;
                               modify (set_resultInput "Error fetching rates"))))
      by keeps_auto.
    rewrite K. exact H.
  - exact H.
Qed.

(** ** What the events leave alone *)

(** A listener that keeps a part of the world, run on a world an event
    has written to without touching that part. *)
Ltac listener_kept :=
  match goal with
  | |- ?proj (exec ?m ?w') = ?proj ?w =>
      let K := fresh "K" in
      assert (K : keeps proj m) by keeps_auto;
      rewrite (keeps_exec proj m w' K); reflexivity
  end.

Ltac event_cases :=
  unfold App.dispatch, App.when_listening, App.run;
  repeat match goal with
         | |- context [if ?b then _ else _] => destruct b
         | |- context [match ?x with _ => _ end] => destruct x
         end;
  try reflexivity.

(** X2: no event other than a settling rates request changes the popular
    rates table, its heading, or the line of the last update: an amount
    typed later does not reach the table. *)
Theorem popular_table_waits_for_refresh (e : App.event) (w : world) :
  is_rates_settled e = false ->
  refreshed_of (App.dispatch e w) = refreshed_of w.
Proof.
  intros He. destruct e; try discriminate; event_cases; listener_kept.
Qed.

Lemma popular_table_waits_for_refresh_witness :
  refreshed_of (App.dispatch (App.AmountTyped "250") (Examples.loaded "0.92" "100"))
  = refreshed_of (Examples.loaded "0.92" "100")
  /\ map row_amount (popularRatesTable (dom (Examples.loaded "0.92" "100")))
     = ["0.9200"; "150.1000"].
Proof.
  split; [apply popular_table_waits_for_refresh; reflexivity | vm_compute; reflexivity].
Defined.

(** ** The currencies on offer *)

Lemma preserved_read_bind (I : world -> Prop) {B} (f : world -> M B) :
  (forall w, I w -> I (snd (f w w))) -> preserved I (bind read f).
Proof. intros H w Hw. exact (H w Hw). Qed.

Lemma resume_keeps_catalogue base resp c cs os ot :
  preserved (fun w => catalogue_of w = (c :: cs, os, ot))
            (Script.fetchExchangeRates_resume base resp).
Proof.
  set (I := fun w => catalogue_of w = (c :: cs, os, ot)).
  assert (kept : forall A (m : M A), keeps catalogue_of m -> preserved I m).
  { intros A m K. apply (preserved_keeps catalogue_of (fun x => x = _)), K. }
  unfold Script.fetchExchangeRates_resume.
  apply preserved_try_catch; [| intros e; apply kept; keeps_auto].
  destruct resp as [m | st | m | [| rates date]]; try apply preserved_throw.
  apply preserved_bind; [apply kept; keeps_auto | intros _].
  apply preserved_bind; [apply kept; keeps_auto | intros _].
  apply preserved_bind; [apply kept; keeps_auto | intros _].
  apply preserved_read_bind. intros w Hw.
  assert (Hc : currencies (vars w) = c :: cs)
    by (unfold I, catalogue_of in Hw; congruence).
  rewrite Hc. revert w Hw Hc. intros w Hw _. revert w Hw.
  apply kept. keeps_auto.
Qed.

Lemma settle_keeps_catalogue req resp w :
  currencies (vars w) <> [] ->
  catalogue_of (exec (Script.settle req resp) w) = catalogue_of w.
Proof.
  intros Hc. destruct (currencies (vars w)) as [| c cs] eqn:E; [congruence |].
  pose proof (resume_keeps_catalogue (req_base req) resp c cs
                (Dom.options (fromCurrencySelect (dom w)))
                (Dom.options (toCurrencySelect (dom w))) w) as H.
  cbv beta in H. unfold catalogue_of at 1 in H. rewrite E in H.
  specialize (H eq_refl).
  unfold exec, Script.settle.
  destruct (Script.fetchExchangeRates_resume (req_base req) resp w) as [res w1].
  cbn [snd] in H. unfold catalogue_of at 2. rewrite E, <- H.
  destruct (req_then req) as [| f t a], res as [[] | e]; cbn [snd].
  - reflexivity.
  - reflexivity.
  - assert (K : keeps catalogue_of
                  (try_catch (Script.performConversion f t a)
                     (fun e => console_error ("Error updating exchange rates: " ++ e) ;;
                               modify (set_resultInput "Error fetching rates"))))
      by keeps_auto.
    apply K.
  - reflexivity.
Qed.

Lemma dispatch_keeps_catalogue (e : App.event) (w : world) :
  currencies (vars w) <> [] ->
  catalogue_of (App.dispatch e w) = catalogue_of w.
Proof.
  intros Hc. destruct e;
    try (event_cases; listener_kept).
  apply settle_keeps_catalogue, Hc.
Qed.

(** X3: once the list of currencies is filled, no sequence of events changes
    it or the options of the two drop-downs: a later response that lists
    other currencies does not reach them. *)
Theorem currency_list_is_never_refreshed (es : list App.event) (w : world) :
  currencies (vars w) <> [] ->
  catalogue_of (App.steps es w) = catalogue_of w.
Proof.
  revert w. induction es as [| e r IH]; intros w Hc; [reflexivity |].
  cbn [App.steps fold_left]. fold (App.steps r (App.dispatch e w)).
  pose proof (dispatch_keeps_catalogue e w Hc) as E.
  rewrite IH; [exact E |].
  unfold catalogue_of in E. congruence.
Qed.

Lemma currency_list_is_never_refreshed_witness :
  let es := [App.FromSelected "EUR";
             App.RatesSettled Outage.eur_request (Pages.delivery Pages.eur_rates)] in
  let w' := App.steps es (Examples.loaded "0.92" "100") in
  exchangeRates (vars w')
  = Some [("CHF", JS.parseFloat "0.9612"); ("JPY", JS.parseFloat "163.15");
          ("USD", JS.parseFloat "1.087"); ("EUR", JS.one)]
  /\ catalogue_of w' = (["EUR"; "JPY"; "USD"], ["EUR"; "JPY"; "USD"], ["EUR"; "JPY"; "USD"]).
Proof.
  cbv zeta. split; [vm_compute; reflexivity |].
  rewrite currency_list_is_never_refreshed; [vm_compute; reflexivity |].
  vm_compute. discriminate.
Defined.

(** ** Conversions that stay on the page *)

Lemma performConversion_local (w : world) (t : string) (a : JS.number) :
  base_shown w ->
  let w' := exec (Script.performConversion
                    (Dom.value (fromCurrencySelect (dom w))) t a) w in
  base_shown w' /\ traffic_of w' = traffic_of w /\ snapshot_of w' = snapshot_of w.
Proof.
  intros Hb. unfold exec, Script.performConversion, bind, read.
  destruct (exchangeRates (vars w)) as [rates |]; [| repeat split; exact Hb].
  destruct (JS.get t rates) as [rate |]; [| repeat split; exact Hb].
  destruct (JS.truthy rate); cbn [negb]; repeat split; exact Hb.
Qed.

Lemma convertCurrency_local (w : world) :
  base_shown w ->
  let w' := exec Script.convertCurrency w in
  base_shown w' /\ traffic_of w' = traffic_of w /\ snapshot_of w' = snapshot_of w.
Proof.
  intros Hb.
  destruct (JS.ltb JS.pzero (JS.parseFloat (amountInput (dom w)))) eqn:Ha;
    unfold exec.
  - rewrite (convertCurrency_same_base w Ha Hb).
    apply (performConversion_local w _ _ Hb).
  - rewrite (convertCurrency_invalid w Ha). repeat split. exact Hb.
Qed.

Lemma edit_local (e : App.event) (w : world) :
  edits_amount_or_target e = true -> base_shown w ->
  let w' := App.dispatch e w in
  base_shown w' /\ traffic_of w' = traffic_of w /\ snapshot_of w' = snapshot_of w.
Proof.
  intros He Hb. destruct e; try discriminate;
    unfold App.dispatch, App.when_listening, App.run.
  - destruct (JS.includes _ _); [| repeat split; exact Hb].
    destruct (listeners _); [| repeat split; exact Hb].
    apply (convertCurrency_local
             (set_toCurrencySelect (Dom.set_value code (toCurrencySelect (dom w))) w)).
    exact Hb.
  - destruct (listeners _); [| repeat split; exact Hb].
    apply (convertCurrency_local (set_amountInput text w)). exact Hb.
Qed.

(** X4: while the rate line names the selected source, typing amounts and
    picking targets, in any number and order, sends no request for current
    or historical rates, draws no chart and leaves the rate table alone; and
    the rate line goes on naming the source. *)
Theorem amount_and_target_stay_local (es : list App.event) (w : world) :
  forallb edits_amount_or_target es = true ->
  Dom.value (fromCurrencySelect (dom w)) = fromCurrencyCode (dom w) ->
  let w' := App.steps es w in
  requests (env w') = requests (env w)
  /\ historyRequests (env w') = historyRequests (env w)
  /\ rateChart (vars w') = rateChart (vars w)
  /\ snapshot_of w' = snapshot_of w
  /\ Dom.value (fromCurrencySelect (dom w')) = fromCurrencyCode (dom w').
Proof.
  intros Hes Hb. cbv zeta.
  enough (H : base_shown (App.steps es w)
              /\ traffic_of (App.steps es w) = traffic_of w
              /\ snapshot_of (App.steps es w) = snapshot_of w).
  { destruct H as (H1 & H2 & H3). unfold traffic_of in H2.
    inversion H2. repeat split; assumption. }
  revert w Hes Hb. induction es as [| e r IH]; intros w Hes Hb.
  - repeat split. exact Hb.
  - cbn [forallb] in Hes. apply andb_prop in Hes as [He Hr].
    cbn [App.steps fold_left]. fold (App.steps r (App.dispatch e w)).
    destruct (edit_local e w He Hb) as (H1 & H2 & H3).
    destruct (IH _ Hr H1) as (K1 & K2 & K3).
    repeat split; [exact K1 | congruence | congruence].
Qed.

Lemma amount_and_target_stay_local_witness :
  let es := [App.AmountTyped "250"; App.ToSelected "JPY"; App.AmountTyped "abc"] in
  let w := Examples.loaded "0.92" "100" in
  requests (env (App.steps es w)) = requests (env w)
  /\ resultInput (dom (App.steps [App.AmountTyped "250"; App.ToSelected "JPY"] w))
     = "37525.0000".
Proof.
  cbv zeta. split; [| vm_compute; reflexivity].
  apply (amount_and_target_stay_local
           [App.AmountTyped "250"; App.ToSelected "JPY"; App.AmountTyped "abc"]
           (Examples.loaded "0.92" "100")); reflexivity.
Defined.

(** ** The codes of the popular rates table *)

Lemma firstn_app_exact {A} (n : nat) (l r : list A) :
  List.length l = n ->
  firstn (n + 1) (l ++ firstn 3 r)%list = (l ++ firstn 1 r)%list.
Proof.
  intros <-. rewrite firstn_app, firstn_all2 by lia.
  replace (List.length l + 1 - List.length l)%nat with 1%nat by lia.
  f_equal. destruct r as [| x [| y [| z r]]]; reflexivity.
Qed.

(** The ten codes [updatePopularRates] walks through: the popular
    currencies other than the base and, when the base is a popular one, the
    first known currency that is not. *)
Lemma popular_walk (base : string) (known : list string) :
  firstn 10 (Script.currenciesToShow base known)
  = (filter (fun curr => negb (String.eqb curr base)) Script.popularCurrencies
     ++ firstn 1 (backfill base known))%list.
Proof.
  unfold Script.currenciesToShow, backfill.
  destruct (JS.includes Script.popularCurrencies base) eqn:Hb.
  - apply includes_In in Hb.
    set (others := filter _ Script.popularCurrencies).
    assert (Hl : List.length others = 9%nat).
    { unfold others.
      repeat (destruct Hb as [<- | Hb]; [reflexivity |]). destruct Hb. }
    rewrite firstn_firstn. cbn [Nat.min].
    change 10%nat with (9 + 1)%nat. apply firstn_app_exact, Hl.
  - rewrite app_nil_r. apply firstn_all2.
    etransitivity; [apply filter_length_le | cbn; lia].
Qed.

(** ** A refresh, step by step *)

Lemma keeps_after {X} (proj : world -> X) {A B} (m : M A) (f : A -> M B) w :
  (forall a, keeps proj (f a)) ->
  proj (exec (bind m f) w) = proj (exec m w).
Proof.
  intros K. unfold exec, bind. destruct (m w) as [[a | e] w1]; cbn [snd];
    [apply K | reflexivity].
Qed.

Lemma forEach_append (l : list string) : forall (w : world) (f t : Dom.select),
  forEach Script.appendCurrencyOption l
    (set_toCurrencySelect t (set_fromCurrencySelect f w))
  = (Ok tt,
     set_toCurrencySelect
       (fold_left (fun s c => Dom.appendOption c s) l t)
       (set_fromCurrencySelect
          (fold_left (fun s c => Dom.appendOption c s) l f) w)).
Proof.
  induction l as [| c r IH]; intros w f t; [reflexivity |].
  cbn [forEach fold_left]. unfold bind at 1.
  change (Script.appendCurrencyOption c
            (set_toCurrencySelect t (set_fromCurrencySelect f w)))
    with (Ok tt,
          set_toCurrencySelect (Dom.appendOption c t)
            (set_fromCurrencySelect (Dom.appendOption c f) w)).
  apply IH.
Qed.

Lemma populate_run (w : world) :
  Script.populateCurrencyDropdowns w
  = (Ok tt,
     set_toCurrencySelect (filled (currencies (vars w)))
       (set_fromCurrencySelect (filled (currencies (vars w))) w)).
Proof.
  unfold Script.populateCurrencyDropdowns. rewrite !bind_modify.
  unfold bind at 1, read at 1.
  apply (forEach_append (currencies (vars w)) w Dom.empty Dom.empty).
Qed.

(** What [fetchExchangeRates] runs once the table is stored. *)
Lemma refresh_tail_returns (w : world) table d :
  snapshot_of w = (Some table, d) ->
  exists w', (Script.updateUI ;; Script.updatePopularRates ;; Script.hideLoading) w
             = (Ok tt, w').
Proof.
  intros Hw.
  set (I := fun w => snapshot_of w = (Some table, d)).
  assert (T : through I (Script.updateUI ;; Script.updatePopularRates ;; Script.hideLoading)).
  { apply through_bind; [apply updateUI_through |].
    intros _. apply through_bind.
    { intros w1 H1. unfold I, snapshot_of in H1.
      assert (Hr : exchangeRates (vars w1) = Some table) by congruence.
      rewrite (updatePopularRates_table w1 _ Hr). eexists _, _.
      split; [reflexivity | exact H1]. }
    intros _. apply through_keeps; [repeat returns_step | keeps_auto].
    unfold Script.hideLoading. returns_step. }
  destruct (T w Hw) as ([] & w' & E & _). exists w'. exact E.
Qed.

Lemma stored_snapshot base r date w :
  snapshot_of (stored base r date w) = (Some (JS.set base JS.one r), Some date).
Proof. unfold stored. destruct (currencies (vars w)); reflexivity. Qed.

(** A response with a rate table: the table is stored, the drop-downs are
    filled on the first load, and the page is painted. *)
Lemma resume_delivered (w : world) base r date :
  Script.fetchExchangeRates_resume base (Json (RatesData (Some r) date)) w
  = (Ok tt,
     exec (Script.updateUI ;; Script.updatePopularRates ;; Script.hideLoading)
          (stored base r date w)).
Proof.
  destruct (refresh_tail_returns (stored base r date w) _ _
              (stored_snapshot base r date w)) as (w' & E).
  unfold exec. rewrite E. cbn [snd].
  unfold Script.fetchExchangeRates_resume. apply try_catch_returned.
  rewrite !bind_modify. unfold bind at 1, read at 1.
  cbn [currencies vars set_lastUpdatedTime set_exchangeRates upd_vars].
  rewrite <- E. unfold stored.
  destruct (currencies (vars w)) as [| c cs].
  - unfold bind at 1. rewrite !bind_modify. unfold bind at 1.
    rewrite populate_run. rewrite !bind_modify. unfold modify. reflexivity.
  - reflexivity.
Qed.

Lemma settle_caller (req : request) resp (w : world) :
  Script.settle req resp w
  = caller_of (req_then req)
      (fst (Script.fetchExchangeRates_resume (req_base req) resp w))
      (snd (Script.fetchExchangeRates_resume (req_base req) resp w)).
Proof.
  unfold Script.settle.
  destruct (Script.fetchExchangeRates_resume (req_base req) resp w) as [res w1].
  destruct (req_then req), res; reflexivity.
Qed.

#[export] Hint Unfold caller_of : listeners.

(** A delivered table: the body of [fetchExchangeRates] returns, and
    its caller goes on. *)
Lemma settle_delivered (req : request) r date (w : world) :
  exec (Script.settle req (Json (RatesData (Some r) date))) w
  = exec (caller_of (req_then req) (Ok tt))
      (exec (Script.updateUI ;; Script.updatePopularRates ;; Script.hideLoading)
            (stored (req_base req) r date w)).
Proof.
  unfold exec at 1. rewrite settle_caller, resume_delivered. reflexivity.
Qed.

(** A part of the world that the painting of the page and the caller
    leave alone is, after a delivered table, as the storing left it. *)
Lemma delivered_kept {X} (proj : world -> X) (req : request) r date (w : world) :
  keeps proj (Script.updateUI ;; Script.updatePopularRates ;; Script.hideLoading) ->
  keeps proj (caller_of (req_then req) (Ok tt)) ->
  proj (App.dispatch (App.RatesSettled req (Json (RatesData (Some r) date))) w)
  = proj (stored (req_base req) r date w).
Proof.
  intros K1 K2. unfold App.dispatch, App.run. rewrite settle_delivered.
  unfold exec. rewrite K2. apply K1.
Qed.

(** *** The drop-downs after the first load *)

Lemma filled_options (l : list string) : forall s,
  Dom.options (fold_left (fun s c => Dom.appendOption c s) l s)
  = (Dom.options s ++ l)%list.
Proof.
  induction l as [| c r IH]; intros s; cbn [fold_left].
  - rewrite app_nil_r. reflexivity.
  - rewrite IH. cbn [Dom.appendOption Dom.options]. rewrite <- app_assoc. reflexivity.
Qed.

Lemma index_of_In v l : In v l -> Dom.index_of v l <> None.
Proof.
  induction l as [| x r IH]; cbn [In Dom.index_of]; [tauto |].
  destruct (String.eqb_spec v x) as [-> | Hne]; [discriminate |].
  intros [E | Hin]; [congruence |].
  destruct (Dom.index_of v r); [discriminate | exact (IH Hin)].
Qed.

(** Assigning to [value] selects the option with that value, or nothing. *)
Lemma value_set_value_cases (v : string) (s : Dom.select) :
  Dom.value (Dom.set_value v s)
  = if JS.includes (Dom.options s) v then v else "".
Proof.
  unfold Dom.value, Dom.set_value. cbn [Dom.selectedIndex Dom.options].
  destruct (JS.includes (Dom.options s) v) eqn:Hi.
  - apply includes_In in Hi.
    destruct (Dom.index_of v (Dom.options s)) as [i |] eqn:E.
    + apply index_of_nth, E.
    + exfalso. exact (index_of_In _ _ Hi E).
  - destruct (Dom.index_of v (Dom.options s)) as [i |] eqn:E; [| reflexivity].
    pose proof (index_of_nth _ _ _ E) as Hn.
    assert (Hin : In v (Dom.options s)).
    { rewrite <- Hn. apply nth_In.
      clear Hn Hi. revert i E. induction (Dom.options s) as [| x r IH];
        intros i; cbn [Dom.index_of]; [discriminate |].
      destruct (String.eqb v x); [intros [= <-]; cbn; lia |].
      destruct (Dom.index_of v r) as [j |]; [| discriminate].
      intros [= <-]. cbn [List.length]. specialize (IH j eq_refl). lia. }
    apply includes_In in Hin. congruence.
Qed.

(** *** Sorting *)

Lemma insert_by_In {A} (le : A -> A -> bool) (x y : A) l :
  In y (JS.insert_by le x l) <-> y = x \/ In y l.
Proof.
  induction l as [| z r IH]; cbn [JS.insert_by In]; [intuition congruence |].
  destruct (le x z); cbn [In]; [intuition congruence |].
  rewrite IH. intuition congruence.
Qed.

Lemma sort_by_In {A} (le : A -> A -> bool) (y : A) l :
  In y (JS.sort_by le l) <-> In y l.
Proof.
  unfold JS.sort_by. induction l as [| x r IH]; cbn [fold_right In]; [tauto |].
  rewrite insert_by_In, IH. intuition congruence.
Qed.

Lemma insert_ascending (x : string) l :
  ascending l = true -> ascending (JS.insert_by String.leb x l) = true.
Proof.
  induction l as [| y r IH]; intros H; [reflexivity |].
  cbn [JS.insert_by]. destruct (String.leb x y) eqn:E.
  - cbn [ascending]. rewrite E. exact H.
  - assert (Hyx : String.leb y x = true)
      by (destruct (String.leb_total x y); congruence).
    destruct r as [| z r'].
    + cbn [JS.insert_by ascending]. rewrite Hyx. reflexivity.
    + cbn [ascending] in H. apply andb_prop in H as [Hyz Hr].
      specialize (IH Hr). cbn [JS.insert_by] in IH |- *.
      destruct (String.leb x z); cbn [ascending] in IH |- *.
      * rewrite Hyx. exact IH.
      * rewrite Hyz. exact IH.
Qed.

Lemma sort_strings_ascending l : ascending (JS.sort_strings l) = true.
Proof.
  unfold JS.sort_strings, JS.sort_by.
  induction l as [| x r IH]; cbn [fold_right]; [reflexivity |].
  apply insert_ascending, IH.
Qed.

Lemma keys_In {A} (o : JS.obj A) (k : string) :
  In k (JS.keys o) <-> In k (map fst o).
Proof.
  unfold JS.keys. cbv zeta. rewrite in_app_iff, sort_by_In, !filter_In.
  destruct (JS.is_array_index k); cbn [negb]; intuition congruence.
Qed.

Lemma set_keys {A} (k : string) (v : A) (o : JS.obj A) (c : string) :
  In c (map fst (JS.set k v o)) <-> c = k \/ In c (map fst o).
Proof.
  induction o as [| [k' v'] r IH]; cbn [JS.set map fst In]; [intuition congruence |].
  destruct (String.eqb_spec k k') as [-> | Hne]; cbn [map fst In].
  - intuition congruence.
  - rewrite IH. intuition congruence.
Qed.

(** X5: the first response with a rate table gives both drop-downs the codes
    of the script's list: the codes of the response and the base, in
    ascending order; the source shows the base, and the target shows EUR
    (USD when the base is EUR) if the list has it, and nothing otherwise. *)
Theorem first_load_fills_dropdowns (w : world) (req : request)
  (rates : JS.obj JS.number) (date : option string) :
  currencies (vars w) = [] ->
  let base := req_base req in
  let w' :=
    App.dispatch (App.RatesSettled req (Json (RatesData (Some rates) date))) w in
  let codes := currencies (vars w') in
  Dom.options (fromCurrencySelect (dom w')) = codes
  /\ Dom.options (toCurrencySelect (dom w')) = codes
  /\ ascending codes = true
  /\ (forall c, In c codes <-> c = base \/ In c (map fst rates))
  /\ Dom.value (fromCurrencySelect (dom w')) = base
  /\ Dom.value (toCurrencySelect (dom w'))
     = (if JS.includes codes (default_target base) then default_target base
        else "").
Proof.
  intros Hc. cbv zeta.
  set (base := req_base req).
  set (w' := App.dispatch _ w).
  assert (E : (currencies (vars w'), selection_of w')
              = (currencies (vars (stored base rates date w)),
                 selection_of (stored base rates date w))).
  { apply (delivered_kept (fun w => (currencies (vars w), selection_of w))).
    - keeps_auto.
    - destruct (req_then req); keeps_auto. }
  unfold stored in E. rewrite Hc in E. cbv zeta in E.
  set (codes := JS.sort_strings (JS.keys (JS.set base JS.one rates))) in E.
  unfold selection_of in E.
  cbn [currencies vars dom fromCurrencySelect toCurrencySelect
       set_toCurrencySelect set_fromCurrencySelect set_currencies
       upd_dom upd_vars] in E.
  pose proof (f_equal fst E) as E1.
  pose proof (f_equal (fun p => fst (snd p)) E) as E2.
  pose proof (f_equal (fun p => snd (snd p)) E) as E3.
  cbn [fst snd] in E1, E2, E3. clear E.
  rewrite E1, E2, E3.
  assert (Ho : Dom.options (filled codes) = codes) by apply filled_options.
  assert (Hin : forall c, In c codes <-> c = base \/ In c (map fst rates)).
  { intros c. unfold codes, JS.sort_strings.
    rewrite sort_by_In, keys_In. apply set_keys. }
  cbn [Dom.set_value Dom.options]. rewrite Ho.
  split; [reflexivity |]. split; [reflexivity |].
  split; [apply sort_strings_ascending |].
  split; [exact Hin |].
  change (Dom.value (Dom.set_value base (filled codes)) = base
          /\ Dom.value (Dom.set_value (default_target base) (filled codes))
             = (if JS.includes codes (default_target base)
                then default_target base else "")).
  rewrite !value_set_value_cases, Ho.
  split; [| reflexivity].
  assert (Hb : JS.includes codes base = true)
    by (apply includes_In, Hin; left; reflexivity).
  rewrite Hb. reflexivity.
Qed.

Lemma first_load_fills_dropdowns_witness :
  let w' :=
    App.dispatch (App.RatesSettled Examples.first_request
                    (Pages.delivery Examples.wide_rates)) Pages.opened in
  currencies (vars w')
  = ["BGN"; "CZK"; "DKK"; "EUR"; "GBP"; "HUF"; "JPY"; "USD"]
  /\ Dom.options (fromCurrencySelect (dom w')) = currencies (vars w')
  /\ selected w' = ("USD", "EUR").
Proof.
  cbv zeta.
  pose proof (first_load_fills_dropdowns Pages.opened Examples.first_request
                Examples.wide_rates (Some "2024-03-08") eq_refl) as H.
  cbv zeta in H. destruct H as (Hf & _ & _ & _ & Hv & Ht).
  split; [vm_compute; reflexivity |]. split; [exact Hf |].
  unfold selected. unfold Pages.delivery. rewrite Hv, Ht. vm_compute. reflexivity.
Defined.

(** *** The conversion inside a refresh *)

Lemma updateUI_run (w : world) d :
  lastUpdatedTime (vars w) = Some d ->
  Script.updateUI w
  = (Script.convertCurrency ;;
     if currencyChart (env w) then Chart.updateChart else ret tt)
      (set_lastUpdatedDiv (Some d) w).
Proof.
  intros H. unfold Script.updateUI. unfold bind at 1, read at 1.
  rewrite H. rewrite bind_modify. reflexivity.
Qed.

(** After a delivered table, a part of the world that only the conversion
    of [updateUI] writes is as that conversion left it. *)
Lemma delivered_conversion {X} (proj : world -> X) (req : request) r date
  (w : world) :
  keeps proj Chart.updateChart ->
  keeps proj (Script.updatePopularRates ;; Script.hideLoading) ->
  keeps proj (caller_of (req_then req) (Ok tt)) ->
  proj (App.dispatch (App.RatesSettled req (Json (RatesData (Some r) date))) w)
  = proj (exec Script.convertCurrency
            (set_lastUpdatedDiv (Some date) (stored (req_base req) r date w))).
Proof.
  intros K1 K2 K3. unfold App.dispatch, App.run. rewrite settle_delivered.
  rewrite (keeps_exec proj _ _ K3).
  rewrite keeps_after by (intros _; exact K2).
  unfold exec.
  rewrite (updateUI_run _ date)
    by (pose proof (stored_snapshot (req_base req) r date w) as S;
        unfold snapshot_of in S; congruence).
  fold (exec (Script.convertCurrency ;;
              (if currencyChart (env (stored (req_base req) r date w))
               then Chart.updateChart else ret tt))
             (set_lastUpdatedDiv (Some date) (stored (req_base req) r date w))).
  apply keeps_after. intros _.
  destruct (currencyChart _); [exact K1 | apply keeps_ret].
Qed.



(** X7: when the request of a conversion settles with a table that has a rate
    (not zero, not NaN) for the target captured with the request, the result
    and the rate line show the conversion of the captured amount between
    the captured currencies, whatever the fields hold by then. *)
Theorem settled_conversion_shows_captured (w : world) (req : request)
  (rates : JS.obj JS.number) (date : option string)
  (f t : string) (a rate : JS.number) :
  req_then req = Convert f t a ->
  JS.get t (JS.set (req_base req) JS.one rates) = Some rate ->
  JS.truthy rate = true ->
  display_of
    (App.dispatch (App.RatesSettled req (Json (RatesData (Some rates) date))) w)
  = (JS.toFixed 4 (JS.mul a rate), f, t, JS.toFixed 6 rate).
Proof.
  intros Hk Hg Ht. unfold App.dispatch, App.run. rewrite settle_delivered, Hk.
  set (w1 := exec (Script.updateUI ;; Script.updatePopularRates ;; Script.hideLoading) _).
  assert (Hr : exchangeRates (vars w1) = Some (JS.set (req_base req) JS.one rates)).
  { assert (K : keeps snapshot_of
                  (Script.updateUI ;; Script.updatePopularRates ;; Script.hideLoading))
      by keeps_auto.
    pose proof (keeps_exec _ _ (stored (req_base req) rates date w) K) as E.
    fold w1 in E. rewrite stored_snapshot in E. unfold snapshot_of in E. congruence. }
  unfold exec, caller_of, try_catch.
  rewrite (performConversion_rate w1 f t a _ rate Hr Hg Ht). reflexivity.
Qed.

Lemma settled_conversion_shows_captured_witness :
  let w := App.dispatch (App.AmountTyped "5") Outage.before in
  let w' := App.dispatch (App.RatesSettled Outage.eur_request
                            (Pages.delivery Pages.eur_rates)) w in
  amountInput (dom w') = "5"
  /\ display_of w' = ("100.0000", "EUR", "EUR", "1.000000").
Proof.
  cbv zeta. split; [vm_compute; reflexivity |].
  unfold Pages.delivery.
  rewrite (settled_conversion_shows_captured _ Outage.eur_request Pages.eur_rates
             (Some "2024-03-08") "EUR" "EUR" (JS.parseFloat "100") JS.one);
    vm_compute; reflexivity.
Defined.

(** ** Starting the page *)

(** A response that delivers no table makes [fetchExchangeRates] throw,
    with one notice, and leaves the listeners as they are. *)
Lemma resume_undelivered (w : world) base resp :
  delivered resp = None ->
  exists e w1,
    Script.fetchExchangeRates_resume base resp w = (Throw e, w1)
    /\ alerts (env w1) = (alerts (env w) ++ [failure_notice e])%list
    /\ listeners (env w1) = listeners (env w).
Proof.
  intros H. destruct resp as [m | st | m | [| [rates |] date]];
    try discriminate; eexists _, _; (split; [reflexivity |]); split; reflexivity.
Qed.

Lemma input_without_listeners (e : App.event) (w : world) :
  is_converter_input e = true -> listeners (env w) = false ->
  let w' := App.dispatch e w in
  listeners (env w') = false
  /\ display_of w' = display_of w
  /\ traffic_of w' = traffic_of w.
Proof.
  intros He Hl. destruct e; try discriminate;
    unfold App.dispatch, App.when_listening; cbv zeta.
  - destruct (JS.includes _ _); [| repeat split; exact Hl].
    cbn [env set_fromCurrencySelect upd_dom]. rewrite Hl. repeat split. exact Hl.
  - destruct (JS.includes _ _); [| repeat split; exact Hl].
    cbn [env set_toCurrencySelect upd_dom]. rewrite Hl. repeat split. exact Hl.
  - cbn [env set_amountInput upd_dom]. rewrite Hl. repeat split. exact Hl.
  - rewrite Hl. repeat split. exact Hl.
Qed.

(** X8: if the request of [initApp] delivers no rate table, two dialogs are
    shown (the notice of the request and the notice of [initApp]), no
    listener is installed, and from then on no action on the amount field,
    the drop-downs or the swap button changes the result, the rate line,
    the requests or the chart. *)
Theorem failed_start_leaves_converter_dead (w : world) (req : request)
  (resp : response rates_body) (es : list App.event) :
  req_then req = InitApp ->
  listeners (env w) = false ->
  delivered resp = None ->
  forallb is_converter_input es = true ->
  let w1 := App.dispatch (App.RatesSettled req resp) w in
  let w' := App.steps es w1 in
  (exists e, alerts (env w1)
             = (alerts (env w) ++ [failure_notice e; init_notice])%list)
  /\ listeners (env w') = false
  /\ display_of w' = display_of w1
  /\ traffic_of w' = traffic_of w1.
Proof.
  intros Hk Hl Hd Hes. cbv zeta.
  set (w1 := App.dispatch _ w).
  destruct (resume_undelivered w (req_base req) resp Hd) as (e & w0 & E & Ha & Hl0).
  assert (H1 : alerts (env w1)
               = (alerts (env w) ++ [failure_notice e; init_notice])%list
               /\ listeners (env w1) = false).
  { unfold w1, App.dispatch, App.run, exec. rewrite settle_caller, E, Hk.
    cbn [fst snd caller_of]. unfold bind, console_error, alert, Script.hideLoading, modify.
    cbn [snd env alerts listeners set_console set_alerts set_loadingOverlay
         upd_env upd_dom].
    rewrite Ha, <- app_assoc, Hl0. split; [reflexivity | exact Hl]. }
  destruct H1 as [H1 H2]. split; [exists e; exact H1 |].
  clearbody w1. clear - Hes H2. revert w1 H2.
  induction es as [| ev r IH]; intros w1 H2; [repeat split; exact H2 |].
  cbn [forallb] in Hes. apply andb_prop in Hes as [He Hr].
  cbn [App.steps fold_left]. fold (App.steps r (App.dispatch ev w1)).
  destruct (input_without_listeners ev w1 He H2) as (K1 & K2 & K3).
  destruct (IH Hr _ K1) as (J1 & J2 & J3).
  repeat split; [exact J1 | congruence | congruence].
Qed.

Lemma failed_start_leaves_converter_dead_witness :
  let w1 := App.dispatch (App.RatesSettled Examples.first_request (HttpError 503))
                         Pages.opened in
  let w' := App.steps [App.AmountTyped "5"; App.SwapClicked] w1 in
  List.length (alerts (env w1)) = 2%nat
  /\ display_of w' = ("", "USD", "EUR", "").
Proof.
  cbv zeta.
  pose proof (failed_start_leaves_converter_dead Pages.opened Examples.first_request
                (HttpError 503) [App.AmountTyped "5"; App.SwapClicked]
                eq_refl eq_refl eq_refl eq_refl) as H.
  cbv zeta in H. destruct H as ([e He] & _ & Hd & _).
  split; [rewrite He, length_app; reflexivity |].
  rewrite Hd. vm_compute. reflexivity.
Defined.

(** The first response on a page whose rate line names the base. *)
Lemma first_load_selection (w : world) (req : request)
  (rates : JS.obj JS.number) (date : option string) :
  currencies (vars w) = [] ->
  let codes := JS.sort_strings (JS.keys (JS.set (req_base req) JS.one rates)) in
  let w4 := stored (req_base req) rates date w in
  Dom.value (fromCurrencySelect (dom w4)) = req_base req
  /\ Dom.value (toCurrencySelect (dom w4))
     = (if JS.includes codes (default_target (req_base req))
        then default_target (req_base req) else "").
Proof.
  intros Hc. cbv zeta. unfold stored. rewrite Hc. cbv zeta.
  cbn [dom fromCurrencySelect toCurrencySelect set_toCurrencySelect
       set_fromCurrencySelect upd_dom].
  set (codes := JS.sort_strings _).
  rewrite !value_set_value_cases.
  assert (Ho : Dom.options (filled codes) = codes) by apply filled_options.
  rewrite Ho. split; [| reflexivity].
  assert (Hb : JS.includes codes (req_base req) = true).
  { apply includes_In. unfold codes, JS.sort_strings.
    rewrite sort_by_In, keys_In. apply set_keys. left. reflexivity. }
  rewrite Hb. reflexivity.
Qed.

(** X9: on a page without currencies yet, whose rate line names the base of
    the request and whose amount is valid, a response to the request of
    [initApp] that lists a rate (not zero, not NaN) for the default target
    selects the base and that target, shows the converted amount and the
    rate, installs the listeners and hides the overlay, with no dialog and
    no further request. *)
Theorem first_response_readies_page (w : world) (req : request)
  (rates : JS.obj JS.number) (date : option string) (rate : JS.number) :
  req_then req = InitApp ->
  currencies (vars w) = [] ->
  fromCurrencyCode (dom w) = req_base req ->
  JS.ltb JS.pzero (JS.parseFloat (amountInput (dom w))) = true ->
  req_base req <> default_target (req_base req) ->
  JS.get (default_target (req_base req)) rates = Some rate ->
  JS.truthy rate = true ->
  let w' :=
    App.dispatch (App.RatesSettled req (Json (RatesData (Some rates) date))) w in
  selected w' = (req_base req, default_target (req_base req))
  /\ display_of w'
     = (JS.toFixed 4 (JS.mul (JS.parseFloat (amountInput (dom w))) rate),
        req_base req, default_target (req_base req), JS.toFixed 6 rate)
  /\ listeners (env w') = true
  /\ loadingOverlay (dom w') = false
  /\ alerts (env w') = alerts (env w)
  /\ requests (env w') = requests (env w).
Proof.
  intros Hk Hc Hcode Ha Hne Hg Ht. cbv zeta.
  set (base := req_base req) in *.
  set (target := default_target base) in *.
  set (table := JS.set base JS.one rates).
  assert (Hgt : JS.get target table = Some rate).
  { unfold table. rewrite get_set_other; [exact Hg | congruence]. }
  assert (Hinc : JS.includes (JS.sort_strings (JS.keys table)) target = true).
  { apply includes_In. unfold JS.sort_strings. rewrite sort_by_In, keys_In.
    apply in_map_iff. exists (target, rate). split; [reflexivity |].
    apply get_In, Hgt. }
  destruct (first_load_selection w req rates date Hc) as [Sf St].
  fold base target table in Sf, St. cbv zeta in Sf, St. rewrite Hinc in St.
  set (w4 := stored base rates date w) in *.
  assert (E4 : amountInput (dom w4) = amountInput (dom w)
               /\ fromCurrencyCode (dom w4) = fromCurrencyCode (dom w)
               /\ exchangeRates (vars w4) = Some table).
  { unfold w4, stored. rewrite Hc. repeat split. }
  destruct E4 as (A4 & C4 & R4).
  set (w5 := set_lastUpdatedDiv (Some date) w4).
  (* the conversion [updateUI] performs *)
  assert (Hconv : Script.convertCurrency w5
                  = (Ok tt,
                     set_exchangeRateSpan (JS.toFixed 6 rate)
                       (set_toCurrencyCode target
                          (set_fromCurrencyCode base
                             (set_resultInput
                                (JS.toFixed 4
                                   (JS.mul (JS.parseFloat (amountInput (dom w))) rate))
                                w5))))).
  { rewrite convertCurrency_same_base.
    - change (Dom.value (fromCurrencySelect (dom w5)))
        with (Dom.value (fromCurrencySelect (dom w4))).
      change (Dom.value (toCurrencySelect (dom w5)))
        with (Dom.value (toCurrencySelect (dom w4))).
      change (amountInput (dom w5)) with (amountInput (dom w4)).
      rewrite Sf, St, A4.
      apply (performConversion_rate w5 base target _ table rate R4 Hgt Ht).
    - change (amountInput (dom w5)) with (amountInput (dom w4)).
      rewrite A4. exact Ha.
    - change (Dom.value (fromCurrencySelect (dom w5)))
        with (Dom.value (fromCurrencySelect (dom w4))).
      change (fromCurrencyCode (dom w5)) with (fromCurrencyCode (dom w4)).
      rewrite Sf, C4, Hcode. reflexivity. }
  split.
  { rewrite (delivered_kept selected);
      [| keeps_auto | destruct (req_then req); keeps_auto].
    fold base w4. unfold selected. rewrite Sf, St. reflexivity. }
  split.
  { rewrite (delivered_conversion display_of);
      [| keeps_auto | keeps_auto | rewrite Hk; keeps_auto].
    fold base w4 w5. unfold exec. rewrite Hconv. reflexivity. }
  split.
  { unfold App.dispatch, App.run. rewrite settle_delivered, Hk. reflexivity. }
  split.
  { unfold App.dispatch, App.run. rewrite settle_delivered, Hk. reflexivity. }
  split.
  { rewrite (delivered_kept (fun w => alerts (env w)));
      [| keeps_auto | rewrite Hk; keeps_auto].
    fold base w4. unfold w4, stored. rewrite Hc. reflexivity. }
  rewrite (delivered_conversion (fun w => requests (env w)));
    [| keeps_auto | keeps_auto | rewrite Hk; keeps_auto].
  fold base w4 w5. unfold exec. rewrite Hconv.
  unfold w5, w4, stored. rewrite Hc. reflexivity.
Qed.

Lemma first_response_readies_page_witness :
  let w' := App.dispatch (App.RatesSettled Examples.first_request
                            (Pages.delivery (Examples.usd_rates "0.92")))
                         Pages.opened in
  display_of w' = ("0.9200", "USD", "EUR", "0.920000")
  /\ listeners (env w') = true
  /\ alerts (env w') = []
  /\ map req_base (requests (env w')) = ["USD"].
Proof.
  cbv zeta.
  pose proof (first_response_readies_page Pages.opened Examples.first_request
                (Examples.usd_rates "0.92") (Some "2024-03-08")
                (JS.parseFloat "0.92")
                eq_refl eq_refl eq_refl
                ltac:(vm_compute; reflexivity)
                ltac:(vm_compute; discriminate)
                eq_refl
                ltac:(vm_compute; reflexivity)) as H.
  cbv zeta in H. destruct H as (_ & Hd & Hl & _ & Ha & Hr).
  unfold Pages.delivery.
  split; [rewrite Hd; vm_compute; reflexivity |].
  split; [exact Hl |]. split; [rewrite Ha; reflexivity |].
  rewrite Hr. reflexivity.
Defined.

(** ** The additional rows of the popular rates table *)

Lemma rows_for_app rates amount l1 l2 :
  rows_for rates amount (l1 ++ l2)
  = (rows_for rates amount l1 ++ rows_for rates amount l2)%list.
Proof. unfold rows_for. apply flat_map_app. Qed.

Lemma rows_for_codes rates amount codes (r : row) :
  In r (rows_for rates amount codes) -> In (row_code r) codes.
Proof.
  intros H. apply rows_for_In in H as (code & rate & Hin & _ & _ & ->). exact Hin.
Qed.

Lemma extra_rows_popular rates amount codes :
  (forall c, In c codes -> In c Script.popularCurrencies) ->
  extra_rows (rows_for rates amount codes) = [].
Proof.
  intros H. unfold extra_rows.
  destruct (filter _ _) as [| r l] eqn:E; [reflexivity |].
  assert (Hin : In r (r :: l)) by (left; reflexivity).
  rewrite <- E in Hin. apply filter_In in Hin as [Hin Hf].
  apply rows_for_codes, H, includes_In in Hin. rewrite Hin in Hf. discriminate.
Qed.

(** X10: the popular rates table has at most one row for a currency that is
    not a popular one; it has one only when the selected source is popular,
    and it is the first known currency that is not: of the three codes
    added, the cut to ten keeps one. *)
Theorem popular_table_adds_one_currency (w : world) (rates : JS.obj JS.number) :
  exchangeRates (vars w) = Some rates ->
  let base := Dom.value (fromCurrencySelect (dom w)) in
  let table := popularRatesTable (dom (exec Script.updatePopularRates w)) in
  (List.length (extra_rows table) <= 1)%nat
  /\ (forall r, In r (extra_rows table) ->
        In base Script.popularCurrencies
        /\ hd_error (filter (fun c => negb (JS.includes Script.popularCurrencies c))
                            (currencies (vars w)))
           = Some (row_code r)).
Proof.
  intros Hr. cbv zeta. unfold exec.
  rewrite (updatePopularRates_table w rates Hr). cbv zeta.
  cbn [snd popularRatesTable dom set_popularRatesTable upd_dom].
  rewrite popular_walk, rows_for_app.
  set (base := Dom.value (fromCurrencySelect (dom w))).
  set (amount := Script.popularAmount _).
  unfold extra_rows at 1 2. rewrite filter_app. fold (extra_rows (rows_for rates amount
    (filter (fun curr => negb (String.eqb curr base)) Script.popularCurrencies))).
  rewrite extra_rows_popular by (intros c Hc; apply filter_In in Hc; tauto).
  cbn [app].
  set (first := firstn 1 (backfill base (currencies (vars w)))).
  split.
  - etransitivity; [apply filter_length_le |].
    etransitivity; [apply rows_for_length |].
    unfold first. apply firstn_le_length.
  - intros r Hin. apply filter_In in Hin as [Hin _].
    apply rows_for_codes in Hin. unfold first, backfill in Hin.
    destruct (JS.includes Script.popularCurrencies base) eqn:Hb;
      [| destruct Hin].
    split; [apply includes_In, Hb |].
    rewrite firstn_firstn in Hin. cbn [Nat.min] in Hin.
    destruct (filter _ (currencies (vars w))) as [| c l]; [destruct Hin |].
    cbn [firstn In hd_error] in *. destruct Hin as [-> | []]. reflexivity.
Qed.

Lemma popular_table_adds_one_currency_witness :
  let w := Examples.page Examples.wide_rates "100" in
  map row_code (popularRatesTable (dom (exec Script.updatePopularRates w)))
  = ["EUR"; "GBP"; "JPY"; "BGN"]
  /\ (List.length
        (extra_rows (popularRatesTable (dom (exec Script.updatePopularRates w))))
      <= 1)%nat.
Proof.
  cbv zeta. split; [vm_compute; reflexivity |].
  apply (popular_table_adds_one_currency (Examples.page Examples.wide_rates "100")
           (JS.set "USD" JS.one Examples.wide_rates)).
  vm_compute. reflexivity.
Defined.

(** ** The viewer and its button *)

#[export] Hint Unfold viewer_setup_of toggle_of : parts.

(** A part of the world kept by the body of [fetchExchangeRates] and by
    its callers is kept when a rates request settles. *)
Lemma settle_keeps {X} (proj : world -> X) (req : request) resp :
  keeps proj (Script.fetchExchangeRates_resume (req_base req) resp) ->
  (forall res, keeps proj (caller_of (req_then req) res)) ->
  keeps proj (Script.settle req resp).
Proof.
  intros K1 K2 w. rewrite settle_caller. rewrite K2. apply K1.
Qed.

Ltac settle_kept :=
  match goal with
  | |- ?proj (exec (Script.settle ?req ?resp) ?w) = ?proj ?w =>
      let K := fresh "K" in
      assert (K : keeps proj (Script.settle req resp));
      [ apply settle_keeps;
        [ keeps_auto | intros res; destruct (req_then req), res; keeps_auto ]
      | apply K ]
  end.

Lemma toggleChart_keeps_setup : keeps viewer_setup_of Chart.toggleChart.
Proof.
  intros w. unfold Chart.toggleChart. unfold bind at 1, read at 1.
  destruct (chartContainer (dom w)) as [p |] eqn:Ep; [| reflexivity].
  destruct (chartButton (dom w)); [| reflexivity].
  destruct (visible p).
  - unfold viewer_setup_of. cbn. rewrite Ep. reflexivity.
  - rewrite !bind_modify.
    assert (K : keeps viewer_setup_of
                  (Chart.loadHistoricalRates
                     (Dom.value (fromCurrencySelect (dom w)))
                     (Dom.value (toCurrencySelect (dom w)))
                     (Chart.selected_days w))) by keeps_auto.
    rewrite K. unfold viewer_setup_of. cbn. rewrite Ep. reflexivity.
Qed.

Lemma dispatch_keeps_setup (e : App.event) (w : world) :
  e <> App.DOMContentLoaded ->
  viewer_setup_of (App.dispatch e w) = viewer_setup_of w.
Proof.
  intros He. destruct e; try congruence;
    try (event_cases; listener_kept).
  - unfold App.dispatch, App.run. destruct (chartButton (dom w)); [| reflexivity].
    apply toggleChart_keeps_setup.
  - unfold App.dispatch, App.run. settle_kept.
Qed.

Lemma onDOMContentLoaded_unavailable :
  preserved viewer_unavailable Script.onDOMContentLoaded.
Proof.
  unfold Script.onDOMContentLoaded.
  apply preserved_bind.
  { apply (preserved_keeps
             (fun w => (chartContainer (dom w), chartLibrary (env w),
                        converterCard (dom w)))
             (fun x => fst (fst x) = None
                       /\ (snd (fst x) = false \/ snd x = false))).
    keeps_auto. }
  intros _. apply preserved_read_bind. intros w Hw.
  destruct (currencyChart (env w)); [| exact Hw].
  unfold Chart.initChartFeature. unfold bind at 1, read at 1.
  destruct Hw as [Hc Hl].
  destruct (chartLibrary (env w)) eqn:Elib.
  - destruct Hl as [Hl | Hl]; [discriminate |].
    unfold Chart.createChartContainer, Chart.addChartButton.
    rewrite !bind_modify. unfold modify. cbn [snd]. rewrite Hl.
    destruct (exchangeRateInfo (dom w)); split; cbn; auto.
  - split; [exact Hc | left; exact Elib].
Qed.

Lemma dispatch_unavailable (e : App.event) (w : world) :
  viewer_unavailable w -> viewer_unavailable (App.dispatch e w).
Proof.
  intros Hw.
  destruct (match e with App.DOMContentLoaded => true | _ => false end) eqn:He.
  - destruct e; try discriminate. apply onDOMContentLoaded_unavailable, Hw.
  - assert (Hne : e <> App.DOMContentLoaded) by (intros ->; discriminate).
    pose proof (dispatch_keeps_setup e w Hne) as E.
    unfold viewer_setup_of in E. destruct Hw as [Hc Hl].
    rewrite Hc in E. cbn [option_map] in E.
    pose proof (f_equal (fun x => fst (fst x)) E) as E1.
    pose proof (f_equal (fun x => snd (fst x)) E) as E2.
    pose proof (f_equal snd E) as E3. cbn [fst snd] in E1, E2, E3.
    split; [| rewrite E2, E3; exact Hl].
    destruct (chartContainer (dom (App.dispatch e w))); [discriminate | reflexivity].
Qed.

(** Without a container the viewer's listeners do nothing. *)
Lemma history_resume_unavailable (r : hrequest) resp (w : world) :
  chartContainer (dom w) = None ->
  rateChart (vars (exec (Chart.loadHistoricalRates_resume r resp) w))
  = rateChart (vars w).
Proof.
  intros Hc. unfold exec, Chart.loadHistoricalRates_resume.
  destruct resp as [m | st | m | [| [rates |]]];
    unfold try_catch, bind, Chart.displayChart, read, Chart.showChartError,
           Chart.showChartLoading, console_error, modify, throw, ret;
    cbn [snd dom set_console upd_env]; rewrite ?Hc; cbn; rewrite ?Hc; reflexivity.
Qed.

Lemma dispatch_keeps_chart (e : App.event) (w : world) :
  chartContainer (dom w) = None ->
  rateChart (vars (App.dispatch e w)) = rateChart (vars w).
Proof.
  intros Hc.
  destruct e;
    try (event_cases;
         match goal with
         | |- rateChart (vars (exec ?m ?w')) = _ =>
             let K := fresh "K" in
             assert (K : keeps (fun w => rateChart (vars w)) m) by keeps_auto;
             rewrite (keeps_exec (fun w => rateChart (vars w)) m w' K);
             reflexivity
         end).
  - unfold App.dispatch, App.run.
    change (rateChart (vars (exec (Script.settle r resp) w)))
      with ((fun w => rateChart (vars w)) (exec (Script.settle r resp) w)).
    assert (K : keeps (fun w => rateChart (vars w)) (Script.settle r resp)).
    { apply settle_keeps;
        [keeps_auto | intros res; destruct (req_then r), res; keeps_auto]. }
    apply K.
  - apply history_resume_unavailable, Hc.
Qed.

(** X11: when there is no chart container and Chart.js or the converter card
    is missing, no sequence of events creates the container, issues a
    request for historical rates or draws a chart. *)
Theorem viewer_stays_off_when_unavailable (es : list App.event) (w : world) :
  chartContainer (dom w) = None ->
  chartLibrary (env w) = false \/ converterCard (dom w) = false ->
  let w' := App.steps es w in
  chartContainer (dom w') = None
  /\ historyRequests (env w') = historyRequests (env w)
  /\ rateChart (vars w') = rateChart (vars w).
Proof.
  intros Hc Hl. cbv zeta.
  assert (Hw : viewer_unavailable w) by (split; assumption). clear Hc Hl.
  revert w Hw. induction es as [| e r IH]; intros w Hw.
  - repeat split. apply Hw.
  - cbn [App.steps fold_left]. fold (App.steps r (App.dispatch e w)).
    pose proof (dispatch_unavailable e w Hw) as H1.
    destruct (IH _ H1) as (K1 & K2 & K3).
    split; [exact K1 |]. rewrite K2, K3.
    split; [| apply dispatch_keeps_chart, Hw].
    destruct (is_chart_click e) eqn:Ec.
    + destruct e; try discriminate. unfold App.dispatch, App.run.
      destruct (chartButton (dom w)); [| reflexivity].
      unfold exec, Chart.toggleChart, bind, read.
      destruct Hw as [Hc _]. rewrite Hc. reflexivity.
    + assert (Hh : hidden (historyRequests (env w)) w).
      { apply not_visible_hidden. unfold App.panel_visible.
        destruct Hw as [Hc _]. rewrite Hc. reflexivity. }
      apply (dispatch_hidden _ e w Ec) in Hh. apply Hh.
Qed.

Lemma viewer_stays_off_when_unavailable_witness :
  let es := [App.DOMContentLoaded;
             App.RatesSettled Examples.first_request
               (Pages.delivery (Examples.usd_rates "0.92"));
             App.ChartButtonClicked; App.FromSelected "EUR"] in
  let w' := App.steps es Pages.without_library in
  chartContainer (dom w') = None
  /\ historyRequests (env w') = []
  /\ console (env w') = ["Chart.js not found. Chart features disabled."].
Proof.
  cbv zeta.
  pose proof (viewer_stays_off_when_unavailable
                [App.DOMContentLoaded;
                 App.RatesSettled Examples.first_request
                   (Pages.delivery (Examples.usd_rates "0.92"));
                 App.ChartButtonClicked; App.FromSelected "EUR"]
                Pages.without_library eq_refl (or_introl eq_refl)) as H.
  cbv zeta in H. destruct H as (Hc & Hh & _).
  split; [exact Hc |]. split; [exact Hh | vm_compute; reflexivity].
Defined.

(** *** The label of the chart button *)

Lemma labelled_toggle_of (w w' : world) :
  toggle_of w' = toggle_of w -> labelled w -> labelled w'.
Proof.
  unfold toggle_of, labelled, chart_anchors, label_agrees. intros E [[Hc Hi] Hl].
  pose proof (f_equal (fun x => fst (fst (fst x))) E) as E1.
  pose proof (f_equal (fun x => snd (fst (fst x))) E) as E2.
  pose proof (f_equal (fun x => snd (fst x)) E) as E3.
  pose proof (f_equal snd E) as E4. cbn [fst snd] in E1, E2, E3, E4.
  rewrite E3, E4, E2. split; [split; assumption |].
  destruct (chartButton (dom w)) as [label |]; [| exact I].
  destruct (chartContainer (dom w')) as [p' |], (chartContainer (dom w)) as [p |];
    cbn [option_map] in E1; try discriminate; [| exact Hl].
  injection E1 as ->. exact Hl.
Qed.

Lemma toggleChart_labelled : preserved labelled Chart.toggleChart.
Proof.
  intros w Hw. unfold Chart.toggleChart. unfold bind at 1, read at 1.
  destruct (chartContainer (dom w)) as [p |] eqn:Ep; [| exact Hw].
  destruct (chartButton (dom w)) as [label |] eqn:Eb; [| exact Hw].
  destruct Hw as [Ha _].
  destruct (visible p).
  - split; [exact Ha | reflexivity].
  - rewrite !bind_modify.
    set (w2 := set_chartButton _ _).
    assert (H2 : labelled w2) by (split; [exact Ha | reflexivity]).
    apply (labelled_toggle_of w2); [| exact H2].
    assert (K : keeps toggle_of
                  (Chart.loadHistoricalRates
                     (Dom.value (fromCurrencySelect (dom w)))
                     (Dom.value (toCurrencySelect (dom w)))
                     (Chart.selected_days w))) by keeps_auto.
    apply K.
Qed.

Lemma onDOMContentLoaded_labelled : preserved labelled Script.onDOMContentLoaded.
Proof.
  unfold Script.onDOMContentLoaded.
  apply preserved_bind.
  { intros w Hw. apply (labelled_toggle_of w); [| exact Hw].
    assert (K : keeps toggle_of Script.initApp) by keeps_auto. apply K. }
  intros _. apply preserved_read_bind. intros w Hw.
  destruct (currencyChart (env w)); [| exact Hw].
  unfold Chart.initChartFeature. unfold bind at 1, read at 1.
  destruct (chartLibrary (env w)).
  - destruct Hw as [[Hc Hi] _].
    unfold Chart.createChartContainer, Chart.addChartButton.
    rewrite !bind_modify. unfold modify. cbn [snd]. rewrite Hc.
    cbn [dom set_chartContainer upd_dom exchangeRateInfo]. rewrite Hi.
    split; [split; assumption | reflexivity].
  - apply (labelled_toggle_of w); [reflexivity | exact Hw].
Qed.

Lemma dispatch_labelled (e : App.event) (w : world) :
  labelled w -> labelled (App.dispatch e w).
Proof.
  intros Hw.
  destruct e;
    try (apply (labelled_toggle_of w); [| exact Hw];
         event_cases; listener_kept).
  - apply onDOMContentLoaded_labelled, Hw.
  - unfold App.dispatch, App.run. destruct (chartButton (dom w)); [| exact Hw].
    apply toggleChart_labelled, Hw.
  - apply (labelled_toggle_of w); [| exact Hw].
    unfold App.dispatch, App.run. settle_kept.
Qed.

(** X12: on a page that has the converter card and the rate line, the label of
    the chart button agrees with the display of the container after every
    sequence of events: Hide Chart while it is displayed, Show Chart
    otherwise. *)
Theorem chart_button_says_what_a_click_does (es : list App.event) (w : world) :
  converterCard (dom w) = true -> exchangeRateInfo (dom w) = true ->
  label_agrees w ->
  label_agrees (App.steps es w).
Proof.
  intros Hc Hi Hl.
  assert (Hw : labelled w) by (split; [split |]; assumption). clear Hc Hi Hl.
  revert w Hw. induction es as [| e r IH]; intros w Hw; [apply Hw |].
  cbn [App.steps fold_left]. fold (App.steps r (App.dispatch e w)).
  apply IH, dispatch_labelled, Hw.
Qed.

Lemma chart_button_says_what_a_click_does_witness :
  let es := [App.ChartButtonClicked; App.TimeRangePicked Days7;
             App.ChartButtonClicked; App.ChartButtonClicked] in
  label_agrees (App.steps es (Examples.loaded "0.92" "100"))
  /\ chartButton (dom (App.steps es (Examples.loaded "0.92" "100")))
     = Some "Hide Chart".
Proof.
  cbv zeta. split; [| vm_compute; reflexivity].
  apply chart_button_says_what_a_click_does; vm_compute; reflexivity.
Defined.

(** *** A request for historical rates settles *)

Lemma resume_rendered_run (w : world) (r : hrequest) (p : panel) rates :
  chartContainer (dom w) = Some p ->
  (try_catch (Chart.displayChart (HistoryData (Some rates)) (hreq_from r) (hreq_to r))
     (fun e => console_error ("Error loading historical rates: " ++ e) ;;
               Chart.showChartError e) ;;
   Chart.showChartLoading false) w
  = (Ok tt,
     dimmed false (set_rateChart (Some (rendered rates (hreq_from r) (hreq_to r))) w)).
Proof.
  intros Hp. unfold try_catch, Chart.displayChart.
  unfold bind at 1. unfold bind at 1. unfold read at 1. rewrite Hp.
  reflexivity.
Qed.

(** X13: when a request for historical rates settles on a page with the
    container, the canvas is no longer dimmed, the container is displayed
    or hidden as before and no dialog is shown; on a failure (no connection,
    a status that is not a success, a body that is not JSON, is null or has
    no rates) the banner carries the message, the chart drawn before stays
    and the console gets one line; on a success the banner is left as it
    was. *)
Theorem history_settled_outcome (w : world) (p : panel) (r : hrequest)
  (resp : response history_body) :
  chartContainer (dom w) = Some p ->
  let w' := App.dispatch (App.HistorySettled r resp) w in
  exists p',
    chartContainer (dom w') = Some p'
    /\ canvasDimmed p' = false
    /\ visible p' = visible p
    /\ alerts (env w') = alerts (env w)
    /\ match history_failure resp with
       | Some e =>
           errorBanner p' = Some ("Failed to load chart data: " ++ e)
           /\ rateChart (vars w') = rateChart (vars w)
           /\ console (env w')
              = (console (env w)
                 ++ [("Error loading historical rates: " ++ e)%string])%list
       | None => errorBanner p' = errorBanner p
       end.
Proof.
  intros Hp. cbv zeta.
  unfold App.dispatch, App.run, exec, Chart.loadHistoricalRates_resume.
  assert (Hfail : forall (m : M unit) e, m w = (Throw e, w) ->
            (try_catch m
               (fun e => console_error ("Error loading historical rates: " ++ e) ;;
                         Chart.showChartError e) ;;
             Chart.showChartLoading false) w
            = (Ok tt,
               set_chartContainer
                 (Some (panel_dimmed false
                          (panel_banner (Some ("Failed to load chart data: " ++ e)) p)))
                 (set_console
                    (console (env w)
                     ++ [("Error loading historical rates: " ++ e)%string])%list w))).
  { intros m e Hm. unfold bind at 1. unfold try_catch. rewrite Hm.
    unfold bind, console_error, Chart.showChartError, Chart.showChartLoading, modify.
    cbn [dom set_console upd_env]. rewrite Hp.
    cbn [dom set_chartContainer upd_dom chartContainer]. reflexivity. }
  assert (Hdisplay : forall data e,
            match data with
            | HistoryNull => e = "Cannot read properties of null (reading 'rates')"
            | HistoryData None => e = "Cannot convert undefined or null to object"
            | HistoryData (Some _) => False
            end ->
            Chart.displayChart data (hreq_from r) (hreq_to r) w = (Throw e, w)).
  { intros data e He. unfold Chart.displayChart, bind, read. rewrite Hp.
    destruct data as [| [rates |]]; [subst; reflexivity | contradiction | subst; reflexivity]. }
  destruct resp as [m | st | m | [| [rates |]]]; cbn [history_failure].
  - rewrite (Hfail (throw m) m eq_refl).
    eexists. split; [reflexivity |]. repeat split.
  - rewrite (Hfail (throw "Failed to fetch historical data") _ eq_refl).
    eexists. split; [reflexivity |]. repeat split.
  - rewrite (Hfail (throw m) m eq_refl).
    eexists. split; [reflexivity |]. repeat split.
  - rewrite (Hfail _ _ (Hdisplay HistoryNull _ eq_refl)).
    eexists. split; [reflexivity |]. repeat split.
  - rewrite (resume_rendered_run w r p rates Hp).
    unfold dimmed. cbn [dom set_rateChart upd_vars]. rewrite Hp.
    eexists. split; [reflexivity |]. repeat split.
  - rewrite (Hfail _ _ (Hdisplay (HistoryData None) _ eq_refl)).
    eexists. split; [reflexivity |]. repeat split.
Qed.

Lemma history_settled_outcome_witness :
  let r := {| hreq_url := "https://api.frankfurter.app/2024-02-09..2024-03-10?from=USD&to=EUR";
              hreq_from := "USD"; hreq_to := "EUR" |} in
  let w' := App.dispatch (App.HistorySettled r (HttpError 500)) Pages.charted in
  option_map errorBanner (chartContainer (dom w'))
  = Some (Some "Failed to load chart data: Failed to fetch historical data")
  /\ alerts (env w') = [].
Proof.
  cbv zeta.
  destruct (history_settled_outcome Pages.charted
              {| visible := true; timeRangeSelect := Days30;
                 canvasDimmed := true; errorBanner := None |}
              {| hreq_url := "https://api.frankfurter.app/2024-02-09..2024-03-10?from=USD&to=EUR";
                 hreq_from := "USD"; hreq_to := "EUR" |}
              (HttpError 500) eq_refl) as (p' & Hp & _ & _ & Ha & Hb & _).
  rewrite Hp, Ha. cbn [option_map]. rewrite Hb. split; reflexivity.
Defined.

(** ** The amount the converter reads *)

Lemma read_digits_app (ds : string) (c : ascii) (rest : string) :
  forall acc cnt,
  JS.all_digits ds = true -> JS.is_digit c = false ->
  JS.read_digits (ds ++ String c rest) acc cnt
  = (fst (fst (JS.read_digits ds acc cnt)), snd (fst (JS.read_digits ds acc cnt)),
     String c rest)
  /\ snd (JS.read_digits ds acc cnt) = "".
Proof.
  induction ds as [| d r IH]; intros acc cnt Hd Hc.
  - cbn [append JS.read_digits]. unfold JS.is_digit in Hc.
    destruct (JS.digit_of_char c); [discriminate | split; reflexivity].
  - cbn [JS.all_digits] in Hd. apply andb_prop in Hd as [Hd Hr].
    cbn [append JS.read_digits]. unfold JS.is_digit in Hd.
    destruct (JS.digit_of_char d) as [v |]; [| discriminate].
    apply IH; assumption.
Qed.

Lemma read_digits_count (ds : string) : forall acc cnt,
  (cnt <= snd (fst (JS.read_digits ds acc cnt)))%nat.
Proof.
  induction ds as [| d r IH]; intros acc cnt; cbn [JS.read_digits]; [cbn; lia |].
  destruct (JS.digit_of_char d); [| cbn; lia].
  etransitivity; [| apply IH]. lia.
Qed.

(** What follows the digits of an amount is not read, unless it goes on
    as a number would: with a digit, a point or an exponent. *)
Lemma parseFloat_trailing (d : ascii) (ds : string) (c : ascii) (rest : string) :
  JS.all_digits (String d ds) = true ->
  JS.is_digit c = false ->
  c <> "."%char -> c <> "e"%char -> c <> "E"%char ->
  JS.parseFloat (String d ds ++ String c rest) = JS.parseFloat (String d ds).
Proof.
  intros Hd Hc Hp He HE.
  assert (Hd0 : JS.is_digit d = true)
    by (cbn [JS.all_digits] in Hd; apply andb_prop in Hd; tauto).
  destruct (read_digits_app (String d ds) c rest 0 O Hd Hc) as [E1 E2].
  pose proof (read_digits_count ds) as Hcnt.
  unfold JS.parseFloat.
  assert (Htrim : forall r, JS.trim_start (String d r) = String d r).
  { intros r. destruct d as [[] [] [] [] [] [] [] []]; try discriminate;
      destruct r as [| b [| c0 r3]]; reflexivity. }
  cbn [append]. rewrite !Htrim.
  unfold JS.parse_literal.
  assert (Hsign : forall (A : Type) (s : string) (a b : string -> A) (x : A),
            match String d s with
            | String "+"%char r => a r
            | String "-"%char r => b r
            | _ => x
            end = x).
  { intros A s a b x.
    destruct d as [[] [] [] [] [] [] [] []]; try reflexivity; discriminate. }
  assert (Hsign2 : forall (s : string),
            match String d s with
            | String "+"%char r => (false, r)
            | String "-"%char r => (true, r)
            | _ => (false, String d s)
            end = (false, String d s)).
  { intros s.
    destruct d as [[] [] [] [] [] [] [] []]; try reflexivity; discriminate. }
  rewrite !Hsign2.
  assert (Hinf : forall s, String.prefix "Infinity" (String d s) = false).
  { intros s.
    destruct d as [[] [] [] [] [] [] [] []]; try reflexivity; discriminate. }
  rewrite !Hinf.
  change (String d (ds ++ String c rest)) with (String d ds ++ String c rest).
  rewrite E1.
  destruct (JS.read_digits (String d ds) 0 0) as [[ip icnt] s2] eqn:Er.
  cbn [fst snd] in *. subst s2.
  assert (Hic : icnt <> O).
  { cbn [JS.read_digits] in Er. unfold JS.is_digit in Hd0.
    destruct (JS.digit_of_char d) as [v |]; [| discriminate].
    specialize (Hcnt (0 * 10 + v) 1%nat). rewrite Er in Hcnt. cbn in Hcnt. lia. }
  assert (Hexp : JS.read_exponent (String c rest) = 0).
  { unfold JS.read_exponent.
    destruct (Ascii.eqb_spec c "e"); [contradiction |].
    destruct (Ascii.eqb_spec c "E"); [contradiction | reflexivity]. }
  destruct icnt; [congruence |].
  change (JS.read_exponent "") with 0.
  clear - Hp Hexp.
  destruct c as [[] [] [] [] [] [] [] []];
    try (exfalso; apply Hp; reflexivity);
    cbv beta iota zeta; rewrite Hexp; reflexivity.
Qed.

(** [convertCurrency] reads the amount field through [parseFloat] only. *)
Lemma convertCurrency_amount (w : world) (t1 t2 : string) :
  JS.parseFloat t1 = JS.parseFloat t2 ->
  let w1 := exec Script.convertCurrency (set_amountInput t1 w) in
  let w2 := exec Script.convertCurrency (set_amountInput t2 w) in
  display_of w1 = display_of w2 /\ requests (env w1) = requests (env w2).
Proof.
  intros E. cbv zeta. unfold exec.
  set (w1 := set_amountInput t1 w). set (w2 := set_amountInput t2 w).
  assert (A1 : JS.parseFloat (amountInput (dom w1)) = JS.parseFloat t2) by exact E.
  assert (A2 : JS.parseFloat (amountInput (dom w2)) = JS.parseFloat t2) by reflexivity.
  destruct (JS.ltb JS.pzero (JS.parseFloat t2)) eqn:Ha.
  - destruct (String.eqb_spec (Dom.value (fromCurrencySelect (dom w)))
                              (fromCurrencyCode (dom w))) as [Hb | Hb].
    + rewrite (convertCurrency_same_base w1), (convertCurrency_same_base w2);
        try exact Hb; try (rewrite ?A1, ?A2; exact Ha).
      rewrite A1, A2.
      unfold Script.performConversion, bind, read.
      change (exchangeRates (vars w1)) with (exchangeRates (vars w)).
      change (exchangeRates (vars w2)) with (exchangeRates (vars w)).
      destruct (exchangeRates (vars w)) as [rates |]; [| split; reflexivity].
      destruct (JS.get _ rates) as [rate |]; [| split; reflexivity].
      destruct (JS.truthy rate); split; reflexivity.
    + rewrite (convertCurrency_other_base w1), (convertCurrency_other_base w2);
        try exact Hb; try (rewrite ?A1, ?A2; exact Ha).
      rewrite A1, A2, !fetchExchangeRates_run. split; reflexivity.
  - rewrite (convertCurrency_invalid w1), (convertCurrency_invalid w2);
      try (rewrite ?A1, ?A2; exact Ha).
    split; reflexivity.
Qed.

(** X14: an amount made of digits followed by a text that does not go on as a
    number (its first character is no digit, point or exponent letter)
    converts as the digits alone do: the same result and rate line, the
    same requests. *)
Theorem text_after_the_amount_is_ignored (w : world) (d : ascii) (ds : string)
  (c : ascii) (rest : string) :
  JS.all_digits (String d ds) = true ->
  JS.is_digit c = false ->
  c <> "."%char -> c <> "e"%char -> c <> "E"%char ->
  let typed := App.dispatch (App.AmountTyped (String d ds ++ String c rest)) w in
  let clean := App.dispatch (App.AmountTyped (String d ds)) w in
  display_of typed = display_of clean
  /\ requests (env typed) = requests (env clean).
Proof.
  intros Hd Hc Hp He HE. cbv zeta.
  unfold App.dispatch, App.when_listening, App.run.
  cbn [env set_amountInput upd_dom].
  destruct (listeners (env w)); [| split; reflexivity].
  apply convertCurrency_amount, parseFloat_trailing; assumption.
Qed.

Lemma text_after_the_amount_is_ignored_witness :
  let w := Examples.loaded "0.92" "1" in
  display_of (App.dispatch (App.AmountTyped "100 dollars") w)
  = display_of (App.dispatch (App.AmountTyped "100") w)
  /\ resultInput (dom (App.dispatch (App.AmountTyped "1,000") w)) = "0.9200".
Proof.
  cbv zeta. split; [| vm_compute; reflexivity].
  apply (text_after_the_amount_is_ignored (Examples.loaded "0.92" "1")
           "1" "00" " " "dollars");
    [reflexivity | reflexivity | discriminate | discriminate | discriminate].
Defined.

(** ** The navigation bar *)

Module NavbarFacts.
Import Navbar.

Lemma remove_NoDup token tokens : NoDup tokens -> NoDup (remove token tokens).
Proof. apply NoDup_filter. Qed.

Lemma add_NoDup token tokens : NoDup tokens -> NoDup (add token tokens).
Proof.
  intros H. unfold add, contains.
  destruct (JS.includes tokens token) eqn:E; [exact H |].
  apply NoDup_app; [exact H | repeat constructor; intros [] | ].
  intros x Hx [<- | []]. apply includes_In in Hx. congruence.
Qed.

Lemma contains_add token tokens : contains (add token tokens) token = true.
Proof.
  unfold add. destruct (contains tokens token) eqn:E; [exact E |].
  unfold contains. apply includes_In, in_or_app. right. left. reflexivity.
Qed.

Lemma contains_remove token tokens : contains (remove token tokens) token = false.
Proof.
  unfold contains, remove.
  destruct (JS.includes _ token) eqn:E; [| reflexivity].
  apply includes_In, filter_In in E as [_ E].
  rewrite String.eqb_refl in E. discriminate.
Qed.

Lemma remove_idempotent token tokens :
  remove token (remove token tokens) = remove token tokens.
Proof.
  unfold remove. induction tokens as [| t r IH]; [reflexivity |].
  cbn [filter]. destruct (String.eqb t token) eqn:E; cbn [negb filter];
    [exact IH | rewrite E; cbn [negb]; rewrite IH; reflexivity].
Qed.

Lemma remove_add token tokens :
  remove token (add token tokens) = remove token tokens.
Proof.
  unfold add. destruct (contains tokens token); [reflexivity |].
  unfold remove. rewrite filter_app. cbn [filter].
  rewrite String.eqb_refl. cbn [negb]. apply app_nil_r.
Qed.

Lemma onScroll_spec (y : JS.number) tokens :
  NoDup tokens ->
  exists tokens',
    onScroll y (Some tokens) = Some tokens'
    /\ NoDup tokens'
    /\ contains tokens' "scrolled" = JS.ltb (JS.of_Z 50) y
    /\ remove "scrolled" tokens' = remove "scrolled" tokens.
Proof.
  intros H. unfold onScroll. destruct (JS.ltb (JS.of_Z 50) y).
  - eexists. split; [reflexivity |].
    split; [apply add_NoDup, H |].
    split; [apply contains_add | apply remove_add].
  - eexists. split; [reflexivity |].
    split; [apply remove_NoDup, H |].
    split; [apply contains_remove | apply remove_idempotent].
Qed.

End NavbarFacts.

(** X15: after scroll events at any positions, the navigation bar carries the
    class scrolled exactly when the last position is beyond 50, every class
    is listed once, and the other classes are the ones it had, in their
    order. *)
Theorem navbar_follows_last_scroll (tokens : list string)
  (positions : list JS.number) (last : JS.number) :
  NoDup tokens ->
  exists tokens',
    scrolled_through (positions ++ [last]) (Some tokens) = Some tokens'
    /\ NoDup tokens'
    /\ Navbar.contains tokens' "scrolled" = JS.ltb (JS.of_Z 50) last
    /\ Navbar.remove "scrolled" tokens' = Navbar.remove "scrolled" tokens.
Proof.
  unfold scrolled_through. revert tokens.
  induction positions as [| y r IH]; intros tokens H; cbn [app fold_left].
  - apply NavbarFacts.onScroll_spec, H.
  - destruct (NavbarFacts.onScroll_spec y tokens H) as (t1 & E1 & N1 & _ & R1).
    rewrite E1. destruct (IH t1 N1) as (t' & E & N & C & R).
    exists t'. repeat split; [exact E | exact N | exact C | congruence].
Qed.

Lemma navbar_follows_last_scroll_witness :
  scrolled_through [JS.of_Z 0; JS.of_Z 120; JS.of_Z 300; JS.of_Z 75]
                   (Some Pages.navbar_classes)
  = Some ["navbar"; "navbar-expand-lg"; "fixed-top"; "scrolled"]
  /\ scrolled_through [JS.of_Z 120; JS.of_Z 50] (Some Pages.navbar_classes)
     = Some Pages.navbar_classes.
Proof.
  split; [| vm_compute; reflexivity].
  destruct (navbar_follows_last_scroll Pages.navbar_classes
              [JS.of_Z 0; JS.of_Z 120; JS.of_Z 300] (JS.of_Z 75))
    as (tokens' & E & _).
  - repeat constructor; cbn; intuition discriminate.
  - vm_compute. reflexivity.
Defined.

(** ** The developer name *)

Module DeveloperFacts.
Import Developer.

(** Skipping white space twice skips no more. *)
Lemma trim_start_idempotent (s : string) :
  JS.trim_start (JS.trim_start s) = JS.trim_start s.
Proof.
  assert (H : forall n s, (String.length s <= n)%nat ->
                JS.trim_start (JS.trim_start s) = JS.trim_start s).
  { clear s. induction n as [| n IH]; intros s Hn.
    - destruct s; [reflexivity | cbn in Hn; lia].
    - destruct s as [| a r]; [reflexivity |].
      cbn [String.length] in Hn. cbn [JS.trim_start].
      destruct (JS.is_space a) eqn:E1; [apply IH; lia |].
      destruct r as [| b r2].
      { cbn [JS.trim_start]. rewrite E1. reflexivity. }
      cbn [String.length] in Hn.
      destruct (JS.is_space2 a b) eqn:E2; [apply IH; lia |].
      destruct r2 as [| c r3].
      { cbn [JS.trim_start]. rewrite E1, E2. reflexivity. }
      cbn [String.length] in Hn.
      destruct (JS.is_space3 a b c) eqn:E3; [apply IH; lia |].
      cbn [JS.trim_start]. rewrite E1, E2, E3. reflexivity. }
  apply (H (String.length s)). lia.
Qed.

(** Trimming leaves nothing exactly of the blank texts. *)
Lemma trim_blank (s : string) : trim s = "" <-> blank s = true.
Proof.
  unfold trim, blank. split.
  - pose proof (trim_start_idempotent s) as E.
    destruct (JS.trim_start s) as [| c r]; [reflexivity |].
    cbn [trim_end]. rewrite E. discriminate.
  - destruct (JS.trim_start s); [reflexivity | discriminate].
Qed.

Lemma onLoad_name_settled markup storage :
  name_settled markup
    (onLoad {| developerName := Some markup; localStorage := storage;
               storageFull := false |}).
Proof.
  unfold name_settled, onLoad. cbn [developerName localStorage].
  destruct (JS.get "developerName" storage) as [saved |] eqn:E.
  - destruct (negb (saved =? "")%string) eqn:Es;
      cbn [developerName localStorage set_developerName storageFull];
      rewrite ?E, ?Es; split; reflexivity.
  - cbn [developerName localStorage storageFull]. rewrite E. split; reflexivity.
Qed.

Lemma onClick_name_settled markup answer st :
  name_settled markup st -> name_settled markup (onClick answer st).
Proof.
  intros Hst. pose proof Hst as [Hf H]. unfold onClick.
  destruct (developerName st) as [current |]; [| exact Hst].
  destruct answer as [newName |]; [| exact Hst].
  destruct (negb (newName =? "")%string) eqn:En; cbn [andb]; [| exact Hst].
  destruct (negb (trim newName =? "")%string); [| exact Hst].
  cbv zeta. cbn [storageFull set_developerName]. rewrite Hf.
  split; [exact Hf |].
  unfold onLoad, setItem.
  cbn [developerName localStorage set_developerName].
  rewrite get_set_same, En. reflexivity.
Qed.

End DeveloperFacts.

(** X16: after any sequence of answers to the prompt, on a page whose storage
    has room, a reload shows the developer name that is shown now. *)
Theorem developer_name_survives_reload (markup : string)
  (storage : JS.obj string) (answers : list (option string)) :
  let st := visit markup storage answers in
  Developer.developerName (visit markup (Developer.localStorage st) [])
  = Developer.developerName st.
Proof.
  cbv zeta. unfold visit at 1. cbn [fold_left].
  enough (H : name_settled markup (visit markup storage answers))
    by apply H.
  unfold visit.
  generalize (DeveloperFacts.onLoad_name_settled markup storage).
  generalize (Developer.onLoad
                {| Developer.developerName := Some markup;
                   Developer.localStorage := storage;
                   Developer.storageFull := false |}).
  induction answers as [| a r IH]; intros st H; [exact H |].
  cbn [fold_left]. apply IH, DeveloperFacts.onClick_name_settled, H.
Qed.

(** X17: a cancelled prompt, or an answer of white space only (the empty text
    included), changes neither the name shown nor the storage. *)
Theorem blank_names_are_refused (answer : option string) (st : Developer.state) :
  match answer with Some name => blank name = true | None => True end ->
  Developer.onClick answer st = st.
Proof.
  intros H. unfold Developer.onClick.
  destruct (Developer.developerName st); [| reflexivity].
  destruct answer as [name |]; [| reflexivity].
  apply DeveloperFacts.trim_blank in H. rewrite H.
  rewrite andb_false_r. reflexivity.
Qed.

Lemma blank_names_are_refused_witness :
  let st := visit "Your Name" [] [Some "Ada"] in
  Developer.onClick (Some "   ") st = st
  /\ Developer.developerName st = Some "Ada".
Proof.
  cbv zeta. split; [| reflexivity].
  apply (blank_names_are_refused (Some "   ")). reflexivity.
Defined.

(** ** The copy button *)

Module ClipboardFacts.
Import Clipboard.




End ClipboardFacts.


(** ** A base change that fails, a swap, and the chart that follows *)

#[export] Hint Unfold history_inputs_of selection_of : parts.

(** X19: when the request of a conversion delivers no rate table, the result
    field reads Error fetching rates, one dialog is shown, the rate line is
    as before, no request is issued and the overlay is hidden. *)
Theorem failed_base_change (w : world) (req : request)
  (resp : response rates_body) (f t : string) (a : JS.number) :
  req_then req = Convert f t a ->
  delivered resp = None ->
  let w' := App.dispatch (App.RatesSettled req resp) w in
  resultInput (dom w') = "Error fetching rates"
  /\ (exists e, alerts (env w') = (alerts (env w) ++ [failure_notice e])%list)
  /\ (fromCurrencyCode (dom w'), toCurrencyCode (dom w'), exchangeRateSpan (dom w'))
     = (fromCurrencyCode (dom w), toCurrencyCode (dom w), exchangeRateSpan (dom w))
  /\ requests (env w') = requests (env w)
  /\ loadingOverlay (dom w') = false.
Proof.
  intros Hk Hd. cbv zeta.
  unfold App.dispatch, App.run, exec. rewrite settle_caller, Hk.
  destruct resp as [m | st | m | [| [rates |] date]]; try discriminate;
    (split; [reflexivity |]); (split; [eexists; reflexivity |]);
    repeat split.
Qed.

Lemma failed_base_change_witness :
  let w' := App.dispatch (App.RatesSettled Outage.eur_request
                            (NetworkFailure "Failed to fetch")) Outage.before in
  display_of w' = ("Error fetching rates", "USD", "EUR", "0.920000")
  /\ alerts (env w')
     = ["Error fetching exchange rates. Please check your internet connection and try again. Details: Failed to fetch"].
Proof.
  cbv zeta.
  pose proof (failed_base_change Outage.before Outage.eur_request
                (NetworkFailure "Failed to fetch") "EUR" "EUR"
                (JS.parseFloat "100") eq_refl eq_refl) as H.
  cbv zeta in H. destruct H as (Hr & _ & Hl & _).
  split; [| vm_compute; reflexivity].
  pose proof (f_equal (fun x => fst (fst x)) Hl) as H1.
  pose proof (f_equal (fun x => snd (fst x)) Hl) as H2.
  pose proof (f_equal snd Hl) as H3. cbn [fst snd] in H1, H2, H3.
  unfold display_of. rewrite Hr, H1, H2, H3. vm_compute. reflexivity.
Defined.

(** X20: with the listeners installed, the same options in both drop-downs, the
    rate line naming the source, a valid amount and two different
    currencies selected, a click on the swap button exchanges the selection
    and issues one request for the rates of the new source, whose
    continuation converts the amount typed; the result and the rate line
    stay until it settles. *)
Theorem swap_requests_the_new_base (w : world) :
  listeners (env w) = true ->
  same_options w ->
  base_shown w ->
  JS.ltb JS.pzero (JS.parseFloat (amountInput (dom w))) = true ->
  fst (selected w) <> snd (selected w) ->
  let w' := App.dispatch App.SwapClicked w in
  selected w' = (snd (selected w), fst (selected w))
  /\ requests (env w')
     = (requests (env w)
        ++ [{| req_url := Script.API_BASE_URL ++ "?from=" ++ snd (selected w);
               req_base := snd (selected w);
               req_then := Convert (snd (selected w)) (fst (selected w))
                             (JS.parseFloat (amountInput (dom w))) |}])%list
  /\ display_of w' = display_of w.
Proof.
  intros Hl Hopt Hb Ha Hne. cbv zeta.
  unfold App.dispatch, App.when_listening, App.run. rewrite Hl.
  split; [apply swapCurrencies_selected, Hopt |].
  rewrite swapCurrencies_run.
  set (w2 := set_toCurrencySelect _ _).
  assert (Hf : Dom.value (fromCurrencySelect (dom w2)) = snd (selected w)).
  { unfold w2, selected. cbn [dom fromCurrencySelect set_toCurrencySelect
      set_fromCurrencySelect upd_dom snd].
    apply value_set_value. rewrite Hopt. apply value_cases. }
  assert (Ht : Dom.value (toCurrencySelect (dom w2)) = fst (selected w)).
  { unfold w2, selected. cbn [dom toCurrencySelect set_toCurrencySelect
      set_fromCurrencySelect upd_dom fst].
    apply value_set_value. rewrite <- Hopt. apply value_cases. }
  unfold exec. rewrite convertCurrency_other_base.
  - rewrite fetchExchangeRates_run, Hf, Ht. split; reflexivity.
  - exact Ha.
  - rewrite Hf. change (fromCurrencyCode (dom w2)) with (fromCurrencyCode (dom w)).
    unfold base_shown in Hb. rewrite <- Hb. unfold selected in *.
    cbn [fst snd] in *. congruence.
Qed.

Lemma swap_requests_the_new_base_witness :
  let w := Examples.loaded "0.92" "100" in
  let w' := App.dispatch App.SwapClicked w in
  selected w' = ("EUR", "USD")
  /\ map req_base (requests (env w')) = ["USD"; "EUR"]
  /\ resultInput (dom w') = "92.0000".
Proof.
  cbv zeta.
  pose proof (swap_requests_the_new_base (Examples.loaded "0.92" "100")
                ltac:(vm_compute; reflexivity)
                ltac:(vm_compute; reflexivity)
                ltac:(vm_compute; reflexivity)
                ltac:(vm_compute; reflexivity)
                ltac:(vm_compute; discriminate)) as H.
  cbv zeta in H. destruct H as (Hs & Hr & Hd).
  split; [rewrite Hs; vm_compute; reflexivity |].
  split; [rewrite Hr; vm_compute; reflexivity |].
  pose proof (f_equal (fun x => fst (fst (fst x))) Hd) as H1.
  cbn [display_of fst] in H1. rewrite H1. vm_compute. reflexivity.
Defined.

(** X21: while the chart is displayed, a rate table that arrives for a page
    with currencies makes [updateUI] request the historical rates of the
    selected pair over the selected window. *)
Theorem refresh_updates_visible_chart (w : world) (req : request)
  (rates : JS.obj JS.number) (date : option string) (p : panel) (start : Z) :
  currencies (vars w) <> [] ->
  currencyChart (env w) = true ->
  chartContainer (dom w) = Some p -> visible p = true ->
  Chart.lookbackStart (zone (env w)) (clock (env w))
                      (lookback_days (timeRangeSelect p)) = Some start ->
  let w' :=
    App.dispatch (App.RatesSettled req (Json (RatesData (Some rates) date))) w in
  historyRequests (env w')
  = (historyRequests (env w)
     ++ [history_request (JS.Day start) (JS.Day (clock (env w)))
           (fst (selected w)) (snd (selected w))])%list.
Proof.
  intros Hc Hcc Hp Hv Hs. cbv zeta.
  unfold App.dispatch, App.run. rewrite settle_delivered.
  assert (K3 : keeps (fun w => historyRequests (env w))
                 (caller_of (req_then req) (Ok tt)))
    by (destruct (req_then req); keeps_auto).
  rewrite (keeps_exec _ _ _ K3).
  rewrite (keeps_after (fun w => historyRequests (env w)))
    by (intros _; keeps_auto).
  unfold stored. destruct (currencies (vars w)) as [| c cs]; [congruence |].
  cbv zeta. set (w3 := set_lastUpdatedTime _ _).
  unfold exec. rewrite (updateUI_run w3 date eq_refl).
  change (currencyChart (env w3)) with (currencyChart (env w)). rewrite Hcc.
  set (w5 := set_lastUpdatedDiv (Some date) w3).
  destruct (convertCurrency_returns w5 (JS.set (req_base req) JS.one rates) eq_refl)
    as (w6 & E6).
  unfold bind. rewrite E6.
  assert (K : keeps history_inputs_of Script.convertCurrency) by keeps_auto.
  pose proof (K w5) as E. rewrite E6 in E. cbn [snd] in E.
  change (history_inputs_of w5) with (history_inputs_of w) in E.
  unfold history_inputs_of, selection_of in E.
  pose proof (f_equal (fun x => fst (fst (fst (fst x)))) E) as E1.
  pose proof (f_equal (fun x => snd (fst (fst (fst x)))) E) as E2.
  pose proof (f_equal (fun x => snd (fst (fst x))) E) as E3.
  pose proof (f_equal (fun x => snd (fst x)) E) as E4.
  pose proof (f_equal snd E) as E5.
  cbn [fst snd] in E1, E2, E3, E4, E5.
  pose proof (f_equal fst E2) as E2f. pose proof (f_equal snd E2) as E2t.
  cbn [fst snd] in E2f, E2t.
  unfold Chart.updateChart, bind, read. rewrite E1, Hp, Hv.
  unfold Chart.selected_days. rewrite E1, Hp.
  rewrite (loadHistoricalRates_run w6 _ _ _ start) by (rewrite E3, E4; exact Hs).
  cbn [snd env set_historyRequests upd_env historyRequests].
  rewrite E5, E3, E2f, E2t. reflexivity.
Qed.

Lemma refresh_updates_visible_chart_witness :
  let w := App.dispatch (App.FromSelected "EUR") Pages.charted in
  let w' := App.dispatch (App.RatesSettled Outage.eur_request
                            (Pages.delivery Pages.eur_rates)) w in
  map hreq_url (historyRequests (env w'))
  = ["https://api.frankfurter.app/2024-02-09..2024-03-10?from=USD&to=EUR";
     "https://api.frankfurter.app/2024-02-09..2024-03-10?from=EUR&to=EUR"].
Proof.
  cbv zeta. unfold Pages.delivery.
  rewrite (refresh_updates_visible_chart
             (App.dispatch (App.FromSelected "EUR") Pages.charted)
             Outage.eur_request Pages.eur_rates (Some "2024-03-08")
             {| visible := true; timeRangeSelect := Days30;
                canvasDimmed := true; errorBanner := None |}
             1707480000000).
  - vm_compute. reflexivity.
  - vm_compute. discriminate.
  - reflexivity.
  - vm_compute. reflexivity.
  - reflexivity.
  - vm_compute. reflexivity.
Defined.
